(** * EasyPM backend: activity log and reporting

    A shallow embedding of the Express/Mongoose backend of EasyPM
    (controllers for projects, tasks, project logs and reports, the
    auth middlewares and the two read-only routes) together with the
    properties of its audit trail.

    The document database is a record of four collections; a handler
    is a computation in a small monad that threads the database,
    may throw (a rejected promise), and records the writes and the
    log appends it performs, in order. *)

From Stdlib Require Import String Ascii List Bool Arith ZArith QArith Lia.
From Stdlib Require Import Permutation Sorted Qround Qabs.
Import ListNotations.

Local Close Scope Q_scope.
Local Open Scope string_scope.
Local Open Scope list_scope.

(* ================================================================== *)
(** * Data model (the Mongoose schemas under models/)                   *)
(* ================================================================== *)

(** An ObjectId, in its canonical form: the 24 lower-case hex digits
    that [toString()] prints.  Mongoose's cast of such a string to an
    ObjectId and back is the identity, so ids are kept as strings. *)
Definition Id := string.

(** The JavaScript values that occur in [details] payloads. *)
Inductive Val :=
| VUndefined
| VStr (s : string)
| VNum (z : Z).

Record FromTo := { ft_from : Val; ft_to : Val }.

(** The [changes] object of the update handlers: property name to
    [{from, to}], in insertion order. *)
Definition Changes := list (string * FromTo).

(** [details] of a ProjectLog: one constructor per object literal
    passed to [createProjectLog] in the controllers. *)
Inductive Details :=
| DNameDescription (name : string) (description : option string)
| DFromTo (from to : Val)
| DTeam (added removed : list Id)
| DChanges (changes : Changes)
| DNameId (name : string) (id : Id)
| DTaskCreated (taskId : Id) (title : string) (assignee : option Id)
| DTaskFromTo (taskId : Id) (title : string) (from to : Val)
| DTaskTo (taskId : Id) (title : string) (to : Id)
| DTaskChanges (taskId : Id) (title : string) (changes : Changes)
| DTask (taskId : Id) (title : string).

Record User := {
  u_id : Id;
  u_name : string;
  u_email : string;
  u_role : string;
  u_assignedProjects : list Id
}.

Record Phase := { ph_name : string; ph_milestoneDate : Z }.

(** models/Project.js *)
Record Project := {
  p_id : Id;
  p_name : string;
  p_description : option string;
  p_status : string;
  p_progress : Z;
  p_team : list Id;
  p_startDate : Z;
  p_deadline : option Z;
  p_methodology : string;
  p_budget : option Q;
  p_sprintDuration : option Z;
  p_wipLimit : option Z;
  p_phases : list Phase;
  p_valueGoals : option string;
  p_createdBy : Id;
  p_lastUpdate : Z
}.

Record Comment := { c_author : Id; c_text : string; c_timestamp : Z }.

(** models/Task.js (attachments are not touched by the logged handlers) *)
Record Task := {
  t_id : Id;
  t_title : string;
  t_description : option string;
  t_project : Id;
  t_status : string;
  t_priority : string;
  t_assignee : option Id;
  t_dueDate : option Z;
  t_storyPoints : option Z;
  t_phase : option string;
  t_comments : list Comment;
  t_createdAt : Z;
  t_updatedAt : Z
}.

(** models/ProjectLog.js *)
Record ProjectLog := {
  l_id : Id;
  l_project : Id;
  l_user : option Id;
  l_action : string;
  l_details : Details;
  l_timestamp : Z
}.

(** The [enum] of [projectLogSchema.action]. *)
Definition action_enum : list string :=
  [ "Created"; "Updated"; "Deleted"; "Status Changed"; "Team Changed";
    "Progress Updated"; "Task Created"; "Task Updated";
    "Task Status Changed"; "Task Reassigned"; "Task Deleted";
    "Comment Added" ].

Definition project_status_enum : list string :=
  [ "Active"; "On Hold"; "Completed"; "Archived" ].

Definition methodology_enum : list string :=
  [ "None"; "Agile (Scrum)"; "Kanban"; "Waterfall"; "Lean" ].

Definition task_status_enum : list string :=
  [ "Backlog"; "To Do"; "In Progress"; "Review"; "Completed";
    "Requirements"; "Design"; "Implementation"; "Deployment" ].

Definition priority_enum : list string := [ "Low"; "Medium"; "High" ].

(** [Array.prototype.includes] on strings. *)
Definition includes (l : list string) (x : string) : bool :=
  existsb (String.eqb x) l.

(** Schema validation run by [save()]. *)
Definition validProjectLog (l : ProjectLog) : bool :=
  includes action_enum (l_action l).

Definition opt_len_le (n : nat) (o : option string) : bool :=
  match o with
  | None => true
  | Some s => Nat.leb (String.length s) n
  end.

Definition validProject (p : Project) : bool :=
  negb (String.eqb (p_name p) "") && Nat.leb (String.length (p_name p)) 100 &&
  opt_len_le 500 (p_description p) &&
  includes project_status_enum (p_status p) &&
  (0 <=? p_progress p)%Z && (p_progress p <=? 100)%Z &&
  includes methodology_enum (p_methodology p).

Definition validTask (t : Task) : bool :=
  negb (String.eqb (t_title t) "") && Nat.leb (String.length (t_title t)) 100 &&
  opt_len_le 1000 (t_description t) &&
  includes task_status_enum (t_status t) &&
  includes priority_enum (t_priority t) &&
  forallb (fun c => negb (String.eqb (c_text c) "")) (t_comments t).

(** The database: four collections. *)
Record Store := {
  projects : list Project;
  tasks : list Task;
  users : list User;
  logs : list ProjectLog
}.

Definition empty_store : Store :=
  {| projects := []; tasks := []; users := []; logs := [] |}.

(** ** Queries and updates on the collections *)

Definition findProject (id : Id) (s : Store) : option Project :=
  find (fun p => String.eqb (p_id p) id) (projects s).

Definition findTask (id : Id) (s : Store) : option Task :=
  find (fun t => String.eqb (t_id t) id) (tasks s).

Definition findUser (id : Id) (s : Store) : option User :=
  find (fun u => String.eqb (u_id u) id) (users s).

Definition set_projects (ps : list Project) (s : Store) : Store :=
  {| projects := ps; tasks := tasks s; users := users s; logs := logs s |}.

Definition set_tasks (ts : list Task) (s : Store) : Store :=
  {| projects := projects s; tasks := ts; users := users s; logs := logs s |}.

Definition set_users (us : list User) (s : Store) : Store :=
  {| projects := projects s; tasks := tasks s; users := us; logs := logs s |}.

Definition set_logs (ls : list ProjectLog) (s : Store) : Store :=
  {| projects := projects s; tasks := tasks s; users := users s; logs := ls |}.

(** [save()] of a document that is already stored replaces it. *)
Definition replaceProject (p : Project) (ps : list Project) : list Project :=
  map (fun q => if String.eqb (p_id q) (p_id p) then p else q) ps.

Definition replaceTask (t : Task) (ts : list Task) : list Task :=
  map (fun q => if String.eqb (t_id q) (t_id t) then t else q) ts.

Definition set_assigned (u : User) (l : list Id) : User :=
  {| u_id := u_id u; u_name := u_name u; u_email := u_email u;
     u_role := u_role u; u_assignedProjects := l |}.

(** [{ $pull: { assignedProjects: pid } }] *)
Definition pull (pid : Id) (u : User) : User :=
  set_assigned u
    (filter (fun x => negb (String.eqb x pid)) (u_assignedProjects u)).

(** [{ $addToSet: { assignedProjects: pid } }] *)
Definition addToSet (pid : Id) (u : User) : User :=
  if includes (u_assignedProjects u) pid then u
  else set_assigned u (u_assignedProjects u ++ [pid]).

(** [User.updateMany(filter, update)] *)
Definition updateManyUsers (sel : User -> bool) (upd : User -> User)
    (us : list User) : list User :=
  map (fun u => if sel u then upd u else u) us.

(* ================================================================== *)
(** * Effects                                                           *)
(* ================================================================== *)

(** What a request cannot control: which database calls fail, the
    clock, the ObjectIds that [new Model(...)] draws, and the token
    check of [jwt.verify].  Calls are numbered by [tick]. *)
Record Env := {
  db_fault : nat -> bool;
  log_fault : nat -> bool;
  clock : nat -> Z;
  gen_id : nat -> Id;
  jwt_verify : string -> option Id
}.

Record World := { store : Store; tick : nat }.

(** What a handler does that can be observed from outside, in order. *)
Inductive Event :=
| EvProjectSave
| EvProjectDelete
| EvTaskSave
| EvTaskDelete
| EvTaskDeleteMany
| EvUserUpdateMany
| EvUserDelete
| EvLogAttempt (action : string).

Definition is_commit (e : Event) : bool :=
  match e with
  | EvLogAttempt _ => false
  | _ => true
  end.

Definition is_log_attempt (e : Event) : bool :=
  match e with
  | EvLogAttempt _ => true
  | _ => false
  end.

Definition is_attempt_of (a : string) (e : Event) : bool :=
  match e with
  | EvLogAttempt b => String.eqb a b
  | _ => false
  end.

Inductive outcome (A : Type) :=
| Ret (a : A)
| Throw.
Arguments Ret {A} a.
Arguments Throw {A}.

Record Out (A : Type) := mkOut {
  res : outcome A;
  world : World;
  trace : list Event
}.
Arguments mkOut {A} res world trace.
Arguments res {A} o.
Arguments world {A} o.
Arguments trace {A} o.

(** An [async] function body. *)
Definition M (A : Type) := World -> Out A.

Definition ret {A} (a : A) : M A := fun w => mkOut (Ret a) w [].

Definition throw {A} : M A := fun w => mkOut Throw w [].

Definition bind {A B} (m : M A) (k : A -> M B) : M B := fun w =>
  let o := m w in
  match res o with
  | Ret a =>
      let o' := k a (world o) in
      mkOut (res o') (world o') (trace o ++ trace o')
  | Throw => mkOut Throw (world o) (trace o)
  end.

(** [try { m } catch (error) { h }]: what [m] did before it threw stays
    done. *)
Definition try_catch {A} (m : M A) (h : M A) : M A := fun w =>
  let o := m w in
  match res o with
  | Ret a => o
  | Throw =>
      let o' := h (world o) in
      mkOut (res o') (world o') (trace o ++ trace o')
  end.

Declare Scope handler_scope.
Delimit Scope handler_scope with handler.
Notation "x <- m ;; k" := (bind m (fun x => k))
  (at level 100, m at next level, right associativity) : handler_scope.
Notation "m ;; k" := (bind m (fun _ => k))
  (at level 100, right associativity) : handler_scope.
Local Open Scope handler_scope.

Definition bump (w : World) : World :=
  {| store := store w; tick := S (tick w) |}.

Definition set_store (s : Store) (w : World) : World :=
  {| store := s; tick := tick w |}.

Section Primitives.

Variable env : Env.

(** A call to the database: it takes one tick, and throws without
    effect when the environment makes it fail. *)
Definition db_call {A} (f : Store -> A * Store) (evs : list Event) : M A :=
  fun w =>
    if db_fault env (tick w) then mkOut Throw (bump w) []
    else let '(a, s) := f (store w) in
         mkOut (Ret a) (set_store s (bump w)) evs.

Definition db_read {A} (f : Store -> A) : M A :=
  db_call (fun s => (f s, s)) [].

(** [Date.now()] *)
Definition now : M Z := fun w => mkOut (Ret (clock env (tick w))) w [].

(** The [_id] a new document gets. *)
Definition new_id : M Id := fun w =>
  mkOut (Ret (gen_id env (tick w))) (bump w) [].

(** [findById] of an id in canonical form: the cast of the id cannot
    fail, and the lookup is by equality of the strings. *)
Definition Project_findById (id : Id) : M (option Project) :=
  db_read (findProject id).

Definition Task_findById (id : Id) : M (option Task) :=
  db_read (findTask id).

Definition User_findById (id : Id) : M (option User) :=
  db_read (findUser id).

(** [Task.find({ project })] *)
Definition Task_findByProject (pid : Id) : M (list Task) :=
  db_read (fun s => filter (fun t => String.eqb (t_project t) pid) (tasks s)).

(** [Task.countDocuments({ project, assignee, status })] *)
Definition Task_count (pid uid : Id) (st : string) : M nat :=
  db_read (fun s =>
    List.length
      (filter (fun t =>
         String.eqb (t_project t) pid &&
         match t_assignee t with
         | Some a => String.eqb a uid
         | None => false
         end &&
         String.eqb (t_status t) st) (tasks s))).

(** [doc.save()]: the schema is validated first; a document that fails
    it is rejected and nothing is written. *)
Definition Project_insert (p : Project) : M unit :=
  if validProject p then
    db_call (fun s => (tt, set_projects (projects s ++ [p]) s)) [EvProjectSave]
  else throw.

Definition Project_save (p : Project) : M unit :=
  if validProject p then
    db_call (fun s => (tt, set_projects (replaceProject p (projects s)) s))
            [EvProjectSave]
  else throw.

Definition Project_deleteOne (p : Project) : M unit :=
  db_call (fun s =>
    (tt, set_projects
           (filter (fun q => negb (String.eqb (p_id q) (p_id p))) (projects s)) s))
    [EvProjectDelete].

Definition Task_insert (t : Task) : M unit :=
  if validTask t then
    db_call (fun s => (tt, set_tasks (tasks s ++ [t]) s)) [EvTaskSave]
  else throw.

Definition Task_save (t : Task) : M unit :=
  if validTask t then
    db_call (fun s => (tt, set_tasks (replaceTask t (tasks s)) s)) [EvTaskSave]
  else throw.

Definition Task_findByIdAndDelete (id : Id) : M unit :=
  db_call (fun s =>
    (tt, set_tasks (filter (fun q => negb (String.eqb (t_id q) id)) (tasks s)) s))
    [EvTaskDelete].

Definition Task_deleteMany (pid : Id) : M unit :=
  db_call (fun s =>
    (tt, set_tasks
           (filter (fun q => negb (String.eqb (t_project q) pid)) (tasks s)) s))
    [EvTaskDeleteMany].

Definition User_updateMany (sel : User -> bool) (upd : User -> User) : M unit :=
  db_call (fun s => (tt, set_users (updateManyUsers sel upd (users s)) s))
          [EvUserUpdateMany].

(** [User.findByIdAndDelete(id)]: the deleted document, or [null]. *)
Definition User_findByIdAndDelete (id : Id) : M (option User) :=
  db_call (fun s =>
    (findUser id s,
     set_users (filter (fun u => negb (String.eqb (u_id u) id)) (users s)) s))
    [EvUserDelete].

(** [log.save()] of a new ProjectLog: one attempt; it is rejected by the
    schema or fails in the database, or the entry is appended. *)
Definition ProjectLog_save (l : ProjectLog) : M unit := fun w =>
  if validProjectLog l && negb (log_fault env (tick w)) then
    mkOut (Ret tt)
          (set_store (set_logs (logs (store w) ++ [l]) (store w)) (bump w))
          [EvLogAttempt (l_action l)]
  else mkOut Throw (bump w) [EvLogAttempt (l_action l)].

(* ------------------------------------------------------------------ *)
(** ** controllers/projectLogsController.js: createProjectLog           *)
(* ------------------------------------------------------------------ *)

(** The [catch] branch prints to the console of the server process,
    which is neither the database nor the response, and returns
    [null]. *)
Definition createProjectLog (projectId : Id) (userId : option Id)
    (action : string) (details : Details) : M (option ProjectLog) :=
  try_catch
    (id <- new_id ;;
     ts <- now ;;
     let log := {| l_id := id; l_project := projectId; l_user := userId;
                   l_action := action; l_details := details;
                   l_timestamp := ts |} in
     ProjectLog_save log ;;
     ret (Some log))
    (ret None).

End Primitives.

(* ================================================================== *)
(** * Requests and responses                                            *)
(* ================================================================== *)

(** [populate('user', 'name email')] and [populate('project', 'name')] *)
Record UserRef := { ur_id : Id; ur_name : string; ur_email : string }.
Record ProjectRef := { pr_id : Id; pr_name : string }.

Record PopulatedLog := {
  pl_id : Id;
  pl_project : option ProjectRef;
  pl_user : option UserRef;
  pl_action : string;
  pl_details : Details;
  pl_timestamp : Z
}.

(** [populate('team', 'name email role')] *)
Record Member := {
  m_id : Id; m_name : string; m_email : string; m_role : string
}.

Record TaskBreakdown := { todo : nat; inProgress : nat; completed : nat }.

Record TeamStat := {
  ts_name : string; ts_email : string; ts_tasksCompleted : nat
}.

Record Budget := { used : Q; total : Q }.

Record Report := {
  r_status : string;
  r_deadline : option Z;
  r_progress : Z;
  r_budget : Budget;
  r_tasks : TaskBreakdown;
  r_team : list TeamStat
}.

Inductive Body :=
| BNone
| BMessage (message : string)
| BProject (p : Project)
| BProjectTeam (p : Project) (team : list Member)
| BTask (t : Task)
| BTaskAuthors (t : option Task) (authors : list (option string))
| BLogs (l : list PopulatedLog)
| BReport (r : Report).

Record Response := { status : nat; body : Body }.

Definition json (code : nat) (b : Body) : Response :=
  {| status := code; body := b |}.

Definition message (code : nat) (m : string) : Response :=
  json code (BMessage m).

(** [req.body] of the project routes: every property may be absent.
    Numbers are JSON numbers, as the frontend sends them (a numeric
    string would pass the route's validators too, but it is another
    value for [&&] and [!==]). *)
Record ProjectBody := {
  b_name : option string;
  b_description : option string;
  b_status : option string;
  b_progress : option Z;
  b_team : option (list Id);
  b_startDate : option Z;
  b_deadline : option Z;
  b_methodology : option string;
  b_budget : option Q;
  b_sprintDuration : option Z;
  b_wipLimit : option Z;
  b_phases : option (list Phase);
  b_valueGoals : option string
}.

(** [req.body] of the task routes. *)
Record TaskBody := {
  tb_title : option string;
  tb_description : option string;
  tb_status : option string;
  tb_priority : option string;
  tb_assignee : option Id;
  tb_dueDate : option Z;
  tb_storyPoints : option Z;
  tb_phase : option string
}.

(** ** JavaScript's view of the values *)

(** Truthiness of a possibly absent string: [undefined] and [""] are
    falsy. *)
Definition truthy_str (o : option string) : bool :=
  match o with
  | Some s => negb (String.eqb s "")
  | None => false
  end.

(** Truthiness of a possibly absent number: [undefined] and [0] are
    falsy. *)
Definition truthy_num (o : option Z) : bool :=
  match o with
  | Some z => negb (z =? 0)%Z
  | None => false
  end.

(** Truthiness of a possibly absent ObjectId: only [undefined] is
    falsy. *)
Definition defined {A} (o : option A) : bool :=
  match o with
  | Some _ => true
  | None => false
  end.

Definition truthy_Q (o : option Q) : bool :=
  match o with
  | Some q => negb (Qeq_bool q 0%Q)
  | None => false
  end.

(** A JavaScript number is an IEEE-754 double.  A finite double is a
    whole multiple of the smallest positive one, 2^-1074, by an integer
    of at most 53 significant bits; a budget is kept as the rational it
    denotes. *)
Definition grid : positive := (2 ^ 1074)%positive.

(** [n] times the smallest positive double. *)
Definition on_grid (n : Z) : Q := n # grid.

(** How many times the smallest positive double goes into [q]. *)
Definition units (q : Q) : Z := Qfloor (q * inject_Z (Zpos grid)).

Definition double (q : Q) : Prop :=
  exists m e : Z,
    (Z.abs m < 2 ^ 53)%Z /\ (0 <= e <= 2045)%Z /\
    (q == on_grid (m * 2 ^ e))%Q.

(** Half of [n], to the nearest integer, a tie going to the even one. *)
Definition half_to_even (n : Z) : Z :=
  let k := (n / 2)%Z in
  if Z.even n then k else if Z.even k then k else (k + 1)%Z.

(** [x * 0.5] on a double [x]: the double nearest to the half of [x],
    a tie going to the one with the even significand.  The half of an
    even multiple of 2^-1074 is a double again and so exact; the half
    of an odd multiple lies midway between two doubles. *)
Definition times_half (q : Q) : Q := on_grid (half_to_even (units q)).

(** [a !== b] on possibly absent strings and numbers. *)
Definition strict_neq_str (a b : option string) : bool :=
  match a, b with
  | Some x, Some y => negb (String.eqb x y)
  | None, None => false
  | _, _ => true
  end.

Definition strict_neq_num (a b : option Z) : bool :=
  match a, b with
  | Some x, Some y => negb (x =? y)%Z
  | None, None => false
  | _, _ => true
  end.

Definition or_default {A} (o : option A) (d : A) : A :=
  match o with
  | Some a => a
  | None => d
  end.

Definition or_keep {A} (o : option A) (old : option A) : option A :=
  match o with
  | Some a => Some a
  | None => old
  end.

Definition val_of_opt_str (o : option string) : Val :=
  match o with
  | Some s => VStr s
  | None => VUndefined
  end.

Definition val_of_opt_num (o : option Z) : Val :=
  match o with
  | Some z => VNum z
  | None => VUndefined
  end.

(** [Object.assign(project, updates)] *)
Definition assignProject (p : Project) (u : ProjectBody) : Project :=
  {| p_id := p_id p;
     p_name := or_default (b_name u) (p_name p);
     p_description := or_keep (b_description u) (p_description p);
     p_status := or_default (b_status u) (p_status p);
     p_progress := or_default (b_progress u) (p_progress p);
     p_team := or_default (b_team u) (p_team p);
     p_startDate := or_default (b_startDate u) (p_startDate p);
     p_deadline := or_keep (b_deadline u) (p_deadline p);
     p_methodology := or_default (b_methodology u) (p_methodology p);
     p_budget := or_keep (b_budget u) (p_budget p);
     p_sprintDuration := or_keep (b_sprintDuration u) (p_sprintDuration p);
     p_wipLimit := or_keep (b_wipLimit u) (p_wipLimit p);
     p_phases := or_default (b_phases u) (p_phases p);
     p_valueGoals := or_keep (b_valueGoals u) (p_valueGoals p);
     p_createdBy := p_createdBy p;
     p_lastUpdate := p_lastUpdate p |}.

Definition set_lastUpdate (p : Project) (t : Z) : Project :=
  {| p_id := p_id p; p_name := p_name p; p_description := p_description p;
     p_status := p_status p; p_progress := p_progress p; p_team := p_team p;
     p_startDate := p_startDate p; p_deadline := p_deadline p;
     p_methodology := p_methodology p; p_budget := p_budget p;
     p_sprintDuration := p_sprintDuration p; p_wipLimit := p_wipLimit p;
     p_phases := p_phases p; p_valueGoals := p_valueGoals p;
     p_createdBy := p_createdBy p; p_lastUpdate := t |}.

(** [Object.assign(task, updates)], for the properties [TaskBody] has,
    those the route validates.  The call copies whatever else the body
    carries as well, a [project] included; such bodies are not
    modelled. *)
Definition assignTask (t : Task) (u : TaskBody) : Task :=
  {| t_id := t_id t;
     t_title := or_default (tb_title u) (t_title t);
     t_description := or_keep (tb_description u) (t_description t);
     t_project := t_project t;
     t_status := or_default (tb_status u) (t_status t);
     t_priority := or_default (tb_priority u) (t_priority t);
     t_assignee := or_keep (tb_assignee u) (t_assignee t);
     t_dueDate := or_keep (tb_dueDate u) (t_dueDate t);
     t_storyPoints := or_keep (tb_storyPoints u) (t_storyPoints t);
     t_phase := or_keep (tb_phase u) (t_phase t);
     t_comments := t_comments t;
     t_createdAt := t_createdAt t;
     t_updatedAt := t_updatedAt t |}.

Definition set_updatedAt (t : Task) (z : Z) : Task :=
  {| t_id := t_id t; t_title := t_title t; t_description := t_description t;
     t_project := t_project t; t_status := t_status t;
     t_priority := t_priority t; t_assignee := t_assignee t;
     t_dueDate := t_dueDate t; t_storyPoints := t_storyPoints t;
     t_phase := t_phase t; t_comments := t_comments t;
     t_createdAt := t_createdAt t; t_updatedAt := z |}.

Definition push_comment (t : Task) (c : Comment) : Task :=
  {| t_id := t_id t; t_title := t_title t; t_description := t_description t;
     t_project := t_project t; t_status := t_status t;
     t_priority := t_priority t; t_assignee := t_assignee t;
     t_dueDate := t_dueDate t; t_storyPoints := t_storyPoints t;
     t_phase := t_phase t; t_comments := t_comments t ++ [c];
     t_createdAt := t_createdAt t; t_updatedAt := t_updatedAt t |}.

(** [new Project({...})] of createProject with the schema defaults; a
    missing required [startDate] leaves no document that [save()] would
    accept. *)
Definition newProject (id : Id) (t : Z) (createdBy : Id) (b : ProjectBody)
    : option Project :=
  match b_startDate b with
  | None => None
  | Some sd =>
      Some {| p_id := id;
              p_name := or_default (b_name b) "";
              p_description := b_description b;
              p_status := or_default (b_status b) "Active";
              p_progress := or_default (b_progress b) 0%Z;
              p_team := or_default (b_team b) [];
              p_startDate := sd;
              p_deadline := b_deadline b;
              p_methodology := or_default (b_methodology b) "None";
              p_budget := b_budget b;
              p_sprintDuration := b_sprintDuration b;
              p_wipLimit := b_wipLimit b;
              p_phases := or_default (b_phases b) [];
              p_valueGoals := b_valueGoals b;
              p_createdBy := createdBy;
              p_lastUpdate := t |}
  end.

(** [new Task({...})] of createTask with the schema defaults. *)
Definition newTask (id : Id) (t : Z) (pid : Id) (b : TaskBody) : Task :=
  {| t_id := id;
     t_title := or_default (tb_title b) "";
     t_description := tb_description b;
     t_project := pid;
     t_status := or_default (tb_status b) "Backlog";
     t_priority := or_default (tb_priority b) "Medium";
     t_assignee := tb_assignee b;
     t_dueDate := tb_dueDate b;
     t_storyPoints := tb_storyPoints b;
     t_phase := tb_phase b;
     t_comments := [];
     t_createdAt := t;
     t_updatedAt := t |}.

Definition isAdminOrPM (u : User) : bool :=
  String.eqb (u_role u) "Administrator" ||
  String.eqb (u_role u) "Project Manager".

(** [project.team.some(member => member.toString() === req.user._id.toString())] *)
Definition isTeamMember (p : Project) (u : User) : bool :=
  existsb (fun member => String.eqb member (u_id u)) (p_team p).

(* ================================================================== *)
(** * Controllers                                                       *)
(* ================================================================== *)

Section Controllers.

Variable env : Env.

Definition when (b : bool) (m : M (option ProjectLog)) : M unit :=
  if b then (m ;; ret tt) else ret tt.

Definition server_error : M Response := ret (message 500 "Server error").

(* ------------------------------------------------------------------ *)
(** ** controllers/projectsController.js                                *)
(* ------------------------------------------------------------------ *)

Definition createProject (user : User) (b : ProjectBody) : M Response :=
  try_catch
    (id <- new_id env ;;
     t <- now env ;;
     match newProject id t (u_id user) b with
     | None => throw
     | Some project =>
         Project_insert env project ;;
         (match b_team b with
          | Some (m :: ms) =>
              User_updateMany env
                (fun u => includes (m :: ms) (u_id u))
                (addToSet (p_id project))
          | _ => ret tt
          end) ;;
         createProjectLog env (p_id project) (Some (u_id user)) "Created"
           (DNameDescription (p_name project) (p_description project)) ;;
         ret (json 201 (BProject project))
     end)
    server_error.

(** The membership test run over the populated team of getProject. *)
Definition populateTeam (s : Store) (p : Project) : list Member :=
  flat_map (fun id =>
      match findUser id s with
      | Some u => [ {| m_id := u_id u; m_name := u_name u;
                       m_email := u_email u; m_role := u_role u |} ]
      | None => []
      end) (p_team p).

Definition getProject (user : User) (id : Id) : M Response :=
  try_catch
    (project <- Project_findById env id ;;
     match project with
     | None => ret (message 404 "Project not found")
     | Some project =>
         team <- db_read env (fun s => populateTeam s project) ;;
         let isTeamMember :=
           existsb (fun member => String.eqb (m_id member) (u_id user)) team in
         if negb (isAdminOrPM user) && negb isTeamMember then
           ret (message 403 "Access denied")
         else ret (json 200 (BProjectTeam project team))
     end)
    server_error.

(** The guards of updateProject and the [changes] object they fill. *)
Definition nameChanged (project : Project) (updates : ProjectBody) : bool :=
  truthy_str (b_name updates) &&
  strict_neq_str (b_name updates) (Some (p_name project)).

Definition descriptionChanged (project : Project) (updates : ProjectBody)
    : bool :=
  truthy_str (b_description updates) &&
  strict_neq_str (b_description updates) (p_description project).

Definition statusChanged (project : Project) (updates : ProjectBody) : bool :=
  truthy_str (b_status updates) &&
  strict_neq_str (b_status updates) (Some (p_status project)).

Definition progressChanged (project : Project) (updates : ProjectBody) : bool :=
  truthy_num (b_progress updates) &&
  strict_neq_num (b_progress updates) (Some (p_progress project)).

Definition projectChanges (project : Project) (updates : ProjectBody)
    : Changes :=
  let changes : Changes := [] in
  let changes :=
    if nameChanged project updates
    then changes ++
         [("name", {| ft_from := VStr (p_name project);
                      ft_to := val_of_opt_str (b_name updates) |})]
    else changes in
  let changes :=
    if descriptionChanged project updates
    then changes ++
         [("description",
           {| ft_from := val_of_opt_str (p_description project);
              ft_to := val_of_opt_str (b_description updates) |})]
    else changes in
  let changes :=
    if statusChanged project updates
    then changes ++
         [("status", {| ft_from := VStr (p_status project);
                        ft_to := val_of_opt_str (b_status updates) |})]
    else changes in
  let changes :=
    if progressChanged project updates
    then changes ++
         [("progress", {| ft_from := VNum (p_progress project);
                          ft_to := val_of_opt_num (b_progress updates) |})]
    else changes in
  changes.

(** The team comparison of updateProject, on the document as it is when
    the comparison runs.  The two sides are the strings [toString()]
    prints for the team of the document and the strings of the body;
    ids are in canonical form here (see [Id]), where the first are the
    strings the document was given.  A body that spells an id otherwise
    is outside this comparison. *)
Definition addedMembers (project : Project) (team : list Id) : list Id :=
  let currentTeam := p_team project in
  let newTeam := team in
  filter (fun id => negb (includes currentTeam id)) newTeam.

Definition removedMembers (project : Project) (team : list Id) : list Id :=
  let currentTeam := p_team project in
  let newTeam := team in
  filter (fun id => negb (includes newTeam id)) currentTeam.

Definition updateProject (user : User) (id : Id) (updates : ProjectBody)
    : M Response :=
  try_catch
    (found <- Project_findById env id ;;
     match found with
     | None => ret (message 404 "Project not found")
     | Some project =>
         (* Track changes for logging *)
         let changes := projectChanges project updates in
         when (statusChanged project updates)
           (createProjectLog env (p_id project) (Some (u_id user))
              "Status Changed"
              (DFromTo (VStr (p_status project))
                       (val_of_opt_str (b_status updates)))) ;;
         when (progressChanged project updates)
           (createProjectLog env (p_id project) (Some (u_id user))
              "Progress Updated"
              (DFromTo (VNum (p_progress project))
                       (val_of_opt_num (b_progress updates)))) ;;
         (* Apply all updates *)
         t <- now env ;;
         let updated := set_lastUpdate (assignProject project updates) t in
         Project_save env updated ;;
         (* Handle team changes *)
         (match b_team updates with
          | Some team =>
              (* "current" team: read from the document after the
                 assignment above *)
              when ((0 <? List.length (addedMembers updated team))%nat ||
                    (0 <? List.length (removedMembers updated team))%nat)
                (createProjectLog env (p_id updated) (Some (u_id user))
                   "Team Changed"
                   (DTeam (addedMembers updated team)
                          (removedMembers updated team))) ;;
              User_updateMany env
                (fun u => includes (u_assignedProjects u) (p_id updated) &&
                          negb (includes team (u_id u)))
                (pull (p_id updated)) ;;
              User_updateMany env
                (fun u => includes team (u_id u))
                (addToSet (p_id updated))
          | None => ret tt
          end) ;;
         (* Log general update *)
         when (0 <? List.length changes)%nat
           (createProjectLog env (p_id updated) (Some (u_id user)) "Updated"
              (DChanges changes)) ;;
         ret (json 200 (BProject updated))
     end)
    server_error.

Definition deleteProject (user : User) (id : Id) : M Response :=
  try_catch
    (project <- Project_findById env id ;;
     match project with
     | None => ret (message 404 "Project not found")
     | Some project =>
         (* Log project deletion before deleting *)
         createProjectLog env (p_id project) (Some (u_id user)) "Deleted"
           (DNameId (p_name project) (p_id project)) ;;
         User_updateMany env
           (fun u => includes (u_assignedProjects u) (p_id project))
           (pull (p_id project)) ;;
         Task_deleteMany env id ;;
         Project_deleteOne env project ;;
         ret (json 204 BNone)
     end)
    server_error.

(* ------------------------------------------------------------------ *)
(** ** controllers/tasksController.js                                   *)
(* ------------------------------------------------------------------ *)

Definition createTask (user : User) (projectId : Id) (b : TaskBody)
    : M Response :=
  try_catch
    (project <- Project_findById env projectId ;;
     match project with
     | None => ret (message 404 "Project not found")
     | Some project =>
         if negb (isAdminOrPM user) && negb (isTeamMember project user) then
           ret (message 403 "Access denied")
         else
           id <- new_id env ;;
           t <- now env ;;
           let task := newTask id t projectId b in
           Task_insert env task ;;
           (* Log task creation *)
           createProjectLog env projectId (Some (u_id user)) "Task Created"
             (DTaskCreated (t_id task) (t_title task) (t_assignee task)) ;;
           ret (json 201 (BTask task))
     end)
    server_error.

(** [task.assignee && task.assignee.toString() === req.user._id.toString()] *)
Definition isAssigned (t : Task) (u : User) : bool :=
  match t_assignee t with
  | Some a => String.eqb a (u_id u)
  | None => false
  end.

(** The guards of updateTask and the [changes] object they fill. *)
Definition taskStatusChanged (task : Task) (updates : TaskBody) : bool :=
  truthy_str (tb_status updates) &&
  strict_neq_str (tb_status updates) (Some (t_status task)).

Definition assigneeChanged (task : Task) (updates : TaskBody) : bool :=
  truthy_str (tb_assignee updates) &&
  (negb (defined (t_assignee task)) ||
   strict_neq_str (tb_assignee updates) (t_assignee task)).

Definition taskChanges (task : Task) (updates : TaskBody) : Changes :=
  let changes : Changes := [] in
  let changes :=
    if taskStatusChanged task updates
    then changes ++
         [("status", {| ft_from := VStr (t_status task);
                        ft_to := val_of_opt_str (tb_status updates) |})]
    else changes in
  let changes :=
    if assigneeChanged task updates
    then changes ++
         [("assignee",
           {| ft_from := val_of_opt_str (t_assignee task);
              ft_to := val_of_opt_str (tb_assignee updates) |})]
    else changes in
  changes.

Definition updateTask (user : User) (taskId : Id) (updates : TaskBody)
    : M Response :=
  try_catch
    (found <- Task_findById env taskId ;;
     match found with
     | None => ret (message 404 "Task not found")
     | Some task =>
         _project <- Project_findById env (t_project task) ;;
         if negb (isAdminOrPM user) && negb (isAssigned task user) then
           ret (message 403 "Access denied")
         else
           (* Track changes for logging *)
           let changes := taskChanges task updates in
           (* Check for status change *)
           when (taskStatusChanged task updates)
             (createProjectLog env (t_project task) (Some (u_id user))
                "Task Status Changed"
                (DTaskFromTo (t_id task) (t_title task) (VStr (t_status task))
                   (val_of_opt_str (tb_status updates)))) ;;
           (* Check for assignee change *)
           when (assigneeChanged task updates)
             (createProjectLog env (t_project task) (Some (u_id user))
                "Task Reassigned"
                (DTaskTo (t_id task) (t_title task)
                   (or_default (tb_assignee updates) ""))) ;;
           t <- now env ;;
           let updated := set_updatedAt (assignTask task updates) t in
           Task_save env updated ;;
           (* Log general update *)
           when (0 <? List.length changes)%nat
             (createProjectLog env (t_project updated) (Some (u_id user))
                "Task Updated"
                (DTaskChanges (t_id updated) (t_title updated) changes)) ;;
           ret (json 200 (BTask updated))
     end)
    server_error.

Definition deleteTask (user : User) (taskId : Id) : M Response :=
  try_catch
    (task <- Task_findById env taskId ;;
     match task with
     | None => ret (message 404 "Task not found")
     | Some task =>
         (* Log task deletion before deleting *)
         createProjectLog env (t_project task) (Some (u_id user)) "Task Deleted"
           (DTask (t_id task) (t_title task)) ;;
         Task_findByIdAndDelete env taskId ;;
         ret (json 204 BNone)
     end)
    server_error.

(** [populate('comments.author', 'name')] *)
Definition commentAuthors (s : Store) (t : option Task) : list (option string) :=
  match t with
  | Some t =>
      map (fun c => option_map u_name (findUser (c_author c) s)) (t_comments t)
  | None => []
  end.

Definition addComment (user : User) (taskId : Id) (text : string)
    : M Response :=
  try_catch
    (task <- Task_findById env taskId ;;
     match task with
     | None => ret (message 404 "Task not found")
     | Some task =>
         project <- Project_findById env (t_project task) ;;
         match project with
         | None => throw   (* [project.team] of [null] *)
         | Some project =>
             if negb (isAdminOrPM user) && negb (isTeamMember project user) then
               ret (message 403 "Access denied")
             else
               t <- now env ;;
               let task :=
                 push_comment task
                   {| c_author := u_id user; c_text := text;
                      c_timestamp := t |} in
               Task_save env task ;;
               (* Log comment addition *)
               createProjectLog env (t_project task) (Some (u_id user))
                 "Comment Added" (DTask (t_id task) (t_title task)) ;;
               updatedTask <- Task_findById env taskId ;;
               authors <- db_read env (fun s => commentAuthors s updatedTask) ;;
               ret (json 201 (BTaskAuthors updatedTask authors))
         end
     end)
    server_error.

(* ------------------------------------------------------------------ *)
(** ** controllers/usersController.js: deleteUser                       *)
(* ------------------------------------------------------------------ *)

(** The account goes; the log entries that refer to it stay. *)
Definition deleteUser (user : User) (id : Id) : M Response :=
  try_catch
    (found <- User_findByIdAndDelete env id ;;
     match found with
     | None => ret (message 404 "User not found")
     | Some _ => ret (json 204 BNone)
     end)
    server_error.

(* ------------------------------------------------------------------ *)
(** ** controllers/projectLogsController.js: the two queries            *)
(* ------------------------------------------------------------------ *)

(** [.sort({ timestamp: -1 })]: newest first; entries with the same
    timestamp keep the order they were stored in. *)
Fixpoint insert_desc (l : ProjectLog) (ls : list ProjectLog) : list ProjectLog :=
  match ls with
  | [] => [l]
  | x :: xs =>
      if (l_timestamp x <=? l_timestamp l)%Z then l :: x :: xs
      else x :: insert_desc l xs
  end.

Definition sort_desc (ls : list ProjectLog) : list ProjectLog :=
  fold_right insert_desc [] ls.

Definition populateLog (s : Store) (l : ProjectLog) : PopulatedLog :=
  {| pl_id := l_id l;
     pl_project :=
       option_map (fun p => {| pr_id := p_id p; pr_name := p_name p |})
                  (findProject (l_project l) s);
     pl_user :=
       match l_user l with
       | Some uid =>
           option_map (fun u => {| ur_id := u_id u; ur_name := u_name u;
                                   ur_email := u_email u |})
                      (findUser uid s)
       | None => None
       end;
     pl_action := l_action l;
     pl_details := l_details l;
     pl_timestamp := l_timestamp l |}.

(** [ProjectLog.find(filter).populate(...).populate(...).sort(...)]:
    the query, sorted by the database, and then the lookups of the
    references, which see the same users and projects. *)
Definition ProjectLog_find (sel : ProjectLog -> bool) : M (list PopulatedLog) :=
  found <- db_read env (fun s => sort_desc (filter sel (logs s))) ;;
  db_read env (fun s => map (populateLog s) found).

Definition getProjectLogs (user : User) (projectId : Id) : M Response :=
  try_catch
    (logs <- ProjectLog_find (fun l => String.eqb (l_project l) projectId) ;;
     ret (json 200 (BLogs logs)))
    server_error.

Definition getAllProjectLogs (user : User) : M Response :=
  try_catch
    (logs <- ProjectLog_find (fun _ => true) ;;
     ret (json 200 (BLogs logs)))
    server_error.

(* ------------------------------------------------------------------ *)
(** ** controllers/reportsController.js                                 *)
(* ------------------------------------------------------------------ *)

(** [tasks.filter(task => task.status === st).length] *)
Definition count_status (st : string) (ts : list Task) : nat :=
  List.length (filter (fun task => String.eqb (t_status task) st) ts).

(** [await Promise.all(l.map(f))] for an [f] that only reads: the
    results in the order of [l], or the rejection. *)
Fixpoint mapM {A B} (f : A -> M B) (l : list A) : M (list B) :=
  match l with
  | [] => ret []
  | a :: l' =>
      b <- f a ;;
      bs <- mapM f l' ;;
      ret (b :: bs)
  end.

Definition getProjectReport (user : User) (projectId : Id) : M Response :=
  try_catch
    (project <- Project_findById env projectId ;;
     match project with
     | None => ret (message 404 "Project not found")
     | Some project =>
         team <- db_read env (fun s => populateTeam s project) ;;
         tasks <- Task_findByProject env projectId ;;
         let taskBreakdown :=
           {| todo := count_status "To Do" tasks;
              inProgress := count_status "In Progress" tasks;
              completed := count_status "Completed" tasks |} in
         teamStats <-
           mapM (fun member =>
                   tasksCompleted <-
                     Task_count env projectId (m_id member) "Completed" ;;
                   ret {| ts_name := m_name member;
                          ts_email := m_email member;
                          ts_tasksCompleted := tasksCompleted |})
                team ;;
         let report :=
           {| r_status := p_status project;
              r_deadline := p_deadline project;
              r_progress := p_progress project;
              r_budget :=
                {| used := (if truthy_Q (p_budget project)
                            then times_half (or_default (p_budget project) 0)
                            else 0)%Q;
                   total := (if truthy_Q (p_budget project)
                             then or_default (p_budget project) 0
                             else 0)%Q |};
              r_tasks := taskBreakdown;
              r_team := teamStats |} in
         ret (json 200 (BReport report))
     end)
    server_error.

End Controllers.

(* ================================================================== *)
(** * Middlewares and the read-only routes                              *)
(* ================================================================== *)

Section Routes.

Variable env : Env.

(** express-validator's [isMongoId()] check of a route parameter. *)
Variable isMongoId : string -> bool.

(** middlewares/auth.js: [token] is the Authorization header with the
    [Bearer ] prefix removed, absent when there is no header. *)
Definition authMiddleware (token : option string) (next : User -> M Response)
    : M Response :=
  if negb (truthy_str token) then
    ret (message 401 "No token, authorization denied")
  else
    r <- try_catch
           (match jwt_verify env (or_default token "") with
            | None => throw
            | Some id =>
                user <- User_findById env id ;;
                match user with
                | None => ret (inr (message 401 "User not found"))
                | Some user => ret (inl user)
                end
            end)
           (ret (inr (message 401 "Invalid token"))) ;;
    match r with
    | inl user => next user
    | inr denied => ret denied
    end.

Definition roleMiddleware (roles : list string) (user : User)
    (next : M Response) : M Response :=
  if negb (includes roles (u_role user)) then ret (message 403 "Access denied")
  else next.

(** Modelled from the spec: middlewares/validate.js is not part of the
    sources at hand.  Malformed input is a ValidationError, "detected
    before any mutation and returned immediately without side effects":
    when a check of the route failed the request is answered with the
    bad-input status and the controller is not run. *)
Definition validate (ok : bool) (next : M Response) : M Response :=
  if ok then next else ret (message 400 "Validation error").

(** routes/projectLogs.js *)
Definition GET_project_logs (token : option string) (projectId : Id)
    : M Response :=
  authMiddleware token (fun user =>
    validate (isMongoId projectId)
      (getProjectLogs env user projectId)).

Definition GET_logs (token : option string) : M Response :=
  authMiddleware token (fun user =>
    roleMiddleware ["Administrator"] user
      (getAllProjectLogs env user)).


End Routes.

(** [isMongoId] as the validator library decides it on canonical ids:
    24 hexadecimal digits. *)
Definition is_hex (c : ascii) : bool :=
  let n := nat_of_ascii c in
  ((48 <=? n) && (n <=? 57) || (97 <=? n) && (n <=? 102) ||
   (65 <=? n) && (n <=? 70))%nat.

Definition hex24 (s : string) : bool :=
  (String.length s =? 24)%nat && forallb is_hex (list_ascii_of_string s).

(** An id in the form [toString()] prints, 24 hexadecimal digits in
    lower case: the strings on which Mongoose's cast to an ObjectId and
    back is the identity, and on which the lookups and comparisons by
    string equality above are those of the code.  An id that the
    validators pass in another form (upper-case digits, a prefix) is
    cast, or is refused by the cast, before the database sees it. *)
Definition is_lower_hex (c : ascii) : bool :=
  let n := nat_of_ascii c in
  ((48 <=? n) && (n <=? 57) || (97 <=? n) && (n <=? 102))%nat.

Definition canonical (s : string) : bool :=
  (String.length s =? 24)%nat && forallb is_lower_hex (list_ascii_of_string s).

(** The team of a body, when it has one, is made of such ids. *)
Definition canonical_team (updates : ProjectBody) : Prop :=
  forall team, b_team updates = Some team -> forallb canonical team = true.

(* ================================================================== *)
(** * A small database to run the handlers on                           *)
(* ================================================================== *)

Module Sample.

Definition hex_digit (n : nat) : string :=
  String.substring (n mod 16) 1 "0123456789abcdef".

(** The ids the driver draws: a fixed prefix and a counter. *)
Definition nth_id (n : nat) : Id :=
  String.append "64b00000000000000000f"
    (String.append (hex_digit (n / 256))
       (String.append (hex_digit (n / 16)) (hex_digit n))).

(** Nothing fails, the clock advances with every call, and a token is
    the id of its user. *)
Definition quiet : Env :=
  {| db_fault := fun _ => false;
     log_fault := fun _ => false;
     clock := fun n => (1000 + Z.of_nat n)%Z;
     gen_id := nth_id;
     jwt_verify := fun tok => Some tok |}.

(** The same environment with every log append failing. *)
Definition log_down : Env :=
  {| db_fault := db_fault quiet;
     log_fault := fun _ => true;
     clock := clock quiet;
     gen_id := gen_id quiet;
     jwt_verify := jwt_verify quiet |}.

(** The fourth database call fails: in an update that changes the
    status, that is the [save()] of the project. *)
Definition save_down : Env :=
  {| db_fault := fun n => (n =? 3)%nat;
     log_fault := log_fault quiet;
     clock := clock quiet;
     gen_id := gen_id quiet;
     jwt_verify := jwt_verify quiet |}.

(** A clock that stands still: all entries of a request fall into the
    same millisecond. *)
Definition frozen : Env :=
  {| db_fault := db_fault quiet;
     log_fault := log_fault quiet;
     clock := fun _ => 1000%Z;
     gen_id := gen_id quiet;
     jwt_verify := jwt_verify quiet |}.

Definition admin_id : Id := "64b0000000000000000000a1".
Definition pm_id : Id := "64b0000000000000000000a2".
Definition collab_id : Id := "64b0000000000000000000a3".
Definition tourism_id : Id := "64b0000000000000000000b1".
Definition olive_id : Id := "64b0000000000000000000b2".

Definition admin : User :=
  {| u_id := admin_id; u_name := "Badiss Riahi";
     u_email := "badissrh@gmail.com"; u_role := "Administrator";
     u_assignedProjects := [tourism_id] |}.

Definition pm : User :=
  {| u_id := pm_id; u_name := "Adam Chebbi";
     u_email := "adam.chebbi.55@gmail.com"; u_role := "Project Manager";
     u_assignedProjects := [tourism_id; olive_id] |}.

Definition collab : User :=
  {| u_id := collab_id; u_name := "Ghada Ben Sassi";
     u_email := "gbensassi3@gmail.com"; u_role := "Collaborator";
     u_assignedProjects := [tourism_id] |}.

Definition tourism : Project :=
  {| p_id := tourism_id; p_name := "Tunis Tourism Platform";
     p_description := Some "A digital platform to promote tourism in Tunis";
     p_status := "Active"; p_progress := 40%Z;
     p_team := [admin_id; pm_id; collab_id];
     p_startDate := 20250701%Z; p_deadline := Some 20251231%Z;
     p_methodology := "Agile (Scrum)"; p_budget := Some (50000 # 1)%Q;
     p_sprintDuration := Some 2%Z; p_wipLimit := None; p_phases := [];
     p_valueGoals := None; p_createdBy := admin_id; p_lastUpdate := 900%Z |}.

(** A project whose team does not contain the collaborator. *)
Definition olive : Project :=
  {| p_id := olive_id; p_name := "Sfax Olive Oil Export System";
     p_description := Some "A system to manage olive oil exports from Sfax";
     p_status := "On Hold"; p_progress := 10%Z;
     p_team := [pm_id];
     p_startDate := 20250801%Z; p_deadline := Some 20260331%Z;
     p_methodology := "Waterfall"; p_budget := Some (30000 # 1)%Q;
     p_sprintDuration := None; p_wipLimit := None; p_phases := [];
     p_valueGoals := None; p_createdBy := pm_id; p_lastUpdate := 900%Z |}.

Definition mkTask (id title : string) (pid : Id) (st : string)
    (assignee : option Id) : Task :=
  {| t_id := id; t_title := title; t_description := None; t_project := pid;
     t_status := st; t_priority := "Medium"; t_assignee := assignee;
     t_dueDate := None; t_storyPoints := None; t_phase := None;
     t_comments := []; t_createdAt := 900%Z; t_updatedAt := 900%Z |}.

Definition carthage : Task :=
  mkTask "64b0000000000000000000c1" "Design Carthage Tour Page" tourism_id
         "To Do" (Some collab_id).

Definition medina : Task :=
  mkTask "64b0000000000000000000c2" "API for Medina Listings" tourism_id
         "In Progress" (Some pm_id).

Definition cooperative : Task :=
  mkTask "64b0000000000000000000c3" "Sfax Cooperative Database" olive_id
         "Backlog" (Some pm_id).

Definition mkLog (id : Id) (pid : Id) (uid : option Id) (a : string)
    (ts : Z) : ProjectLog :=
  {| l_id := id; l_project := pid; l_user := uid; l_action := a;
     l_details := DFromTo (VStr "Active") (VStr "On Hold");
     l_timestamp := ts |}.

Definition db : Store :=
  {| projects := [tourism; olive];
     tasks := [carthage; medina; cooperative];
     users := [admin; pm; collab];
     logs := [ mkLog "64b0000000000000000000d1" olive_id (Some pm_id)
                     "Status Changed" 950%Z ] |}.

Definition w0 : World := {| store := db; tick := 0 |}.

Definition no_body : ProjectBody :=
  {| b_name := None; b_description := None; b_status := None;
     b_progress := None; b_team := None; b_startDate := None;
     b_deadline := None; b_methodology := None; b_budget := None;
     b_sprintDuration := None; b_wipLimit := None; b_phases := None;
     b_valueGoals := None |}.

Definition with_status (s : string) (b : ProjectBody) : ProjectBody :=
  {| b_name := b_name b; b_description := b_description b;
     b_status := Some s; b_progress := b_progress b; b_team := b_team b;
     b_startDate := b_startDate b; b_deadline := b_deadline b;
     b_methodology := b_methodology b; b_budget := b_budget b;
     b_sprintDuration := b_sprintDuration b; b_wipLimit := b_wipLimit b;
     b_phases := b_phases b; b_valueGoals := b_valueGoals b |}.

Definition with_progress (z : Z) (b : ProjectBody) : ProjectBody :=
  {| b_name := b_name b; b_description := b_description b;
     b_status := b_status b; b_progress := Some z; b_team := b_team b;
     b_startDate := b_startDate b; b_deadline := b_deadline b;
     b_methodology := b_methodology b; b_budget := b_budget b;
     b_sprintDuration := b_sprintDuration b; b_wipLimit := b_wipLimit b;
     b_phases := b_phases b; b_valueGoals := b_valueGoals b |}.

Definition with_team (t : list Id) (b : ProjectBody) : ProjectBody :=
  {| b_name := b_name b; b_description := b_description b;
     b_status := b_status b; b_progress := b_progress b; b_team := Some t;
     b_startDate := b_startDate b; b_deadline := b_deadline b;
     b_methodology := b_methodology b; b_budget := b_budget b;
     b_sprintDuration := b_sprintDuration b; b_wipLimit := b_wipLimit b;
     b_phases := b_phases b; b_valueGoals := b_valueGoals b |}.

Definition no_task_body : TaskBody :=
  {| tb_title := None; tb_description := None; tb_status := None;
     tb_priority := None; tb_assignee := None; tb_dueDate := None;
     tb_storyPoints := None; tb_phase := None |}.

Definition with_task_status (s : string) (b : TaskBody) : TaskBody :=
  {| tb_title := tb_title b; tb_description := tb_description b;
     tb_status := Some s; tb_priority := tb_priority b;
     tb_assignee := tb_assignee b; tb_dueDate := tb_dueDate b;
     tb_storyPoints := tb_storyPoints b; tb_phase := tb_phase b |}.

(** A database without log entries, as after seeding. *)
Definition seeded : Store :=
  {| projects := projects db; tasks := tasks db; users := users db;
     logs := [] |}.

End Sample.

(* ================================================================== *)
(** * Vocabulary of the properties                                      *)
(* ================================================================== *)

(** ** Postconditions of a run *)

Definition wp {A} (m : M A) (w : World)
    (Q : outcome A -> World -> list Event -> Prop) : Prop :=
  Q (res (m w)) (world (m w)) (trace (m w)).

(** ** Shapes of traces *)

Definition Event_eqb (a b : Event) : bool :=
  match a, b with
  | EvProjectSave, EvProjectSave => true
  | EvProjectDelete, EvProjectDelete => true
  | EvTaskSave, EvTaskSave => true
  | EvTaskDelete, EvTaskDelete => true
  | EvTaskDeleteMany, EvTaskDeleteMany => true
  | EvUserUpdateMany, EvUserUpdateMany => true
  | EvUserDelete, EvUserDelete => true
  | EvLogAttempt x, EvLogAttempt y => String.eqb x y
  | _, _ => false
  end.

(** [subseq_of template tr]: the events of [tr] occur in [template], in
    the same order, each position of the template used at most once. *)
Fixpoint subseq_of (template tr : list Event) {struct template} : bool :=
  match tr with
  | [] => true
  | e :: tr' =>
      match template with
      | [] => false
      | t :: ts => if Event_eqb t e then subseq_of ts tr' else subseq_of ts tr
      end
  end.

(** The first thing the run does to the database is a write to the
    entity collections: no log append comes before the mutation. *)
Definition commit_first (tr : list Event) : bool :=
  match tr with
  | [] => true
  | e :: _ => is_commit e
  end.

(** The first thing the run does to the database is a log append. *)
Definition log_first (tr : list Event) : bool :=
  match tr with
  | [] => true
  | e :: _ => is_log_attempt e
  end.

Definition attempted (a : string) (tr : list Event) : bool :=
  existsb (is_attempt_of a) tr.

Definition count_attempts (tr : list Event) : nat :=
  List.length (filter is_log_attempt tr).

(** ** The mutation handlers as one family *)

Inductive Mutation :=
| MCreateProject (b : ProjectBody)
| MUpdateProject (id : Id) (updates : ProjectBody)
| MDeleteProject (id : Id)
| MCreateTask (projectId : Id) (b : TaskBody)
| MUpdateTask (taskId : Id) (updates : TaskBody)
| MDeleteTask (taskId : Id)
| MAddComment (taskId : Id) (text : string).

Definition run_mutation (env : Env) (user : User) (m : Mutation) : M Response :=
  match m with
  | MCreateProject b => createProject env user b
  | MUpdateProject id updates => updateProject env user id updates
  | MDeleteProject id => deleteProject env user id
  | MCreateTask projectId b => createTask env user projectId b
  | MUpdateTask taskId updates => updateTask env user taskId updates
  | MDeleteTask taskId => deleteTask env user taskId
  | MAddComment taskId text => addComment env user taskId text
  end.

(** Every controller of the model. *)
Inductive Call :=
| CMutation (m : Mutation)
| CGetProject (id : Id)
| CGetProjectLogs (projectId : Id)
| CGetAllProjectLogs
| CGetProjectReport (projectId : Id)
| CDeleteUser (id : Id).

Definition run_call (env : Env) (user : User) (c : Call) : M Response :=
  match c with
  | CMutation m => run_mutation env user m
  | CGetProject id => getProject env user id
  | CGetProjectLogs projectId => getProjectLogs env user projectId
  | CGetAllProjectLogs => getAllProjectLogs env user
  | CGetProjectReport projectId => getProjectReport env user projectId
  | CDeleteUser id => deleteUser env user id
  end.

(** The databases the application can get into: it starts without log
    entries, and then controllers run, for any caller, with any
    arguments and in any environment; [createProjectLog] is also let
    run on its own with an arbitrary action string. *)
Inductive reachable : World -> Prop :=
| reach_init : forall s n,
    logs s = [] -> reachable {| store := s; tick := n |}
| reach_call : forall w env user c,
    reachable w -> reachable (world (run_call env user c w))
| reach_append : forall w env projectId userId action details,
    reachable w ->
    reachable (world (createProjectLog env projectId userId action details w)).

Definition closed_action (l : ProjectLog) : Prop :=
  In (l_action l) action_enum.

(** ** Two runs that differ in the fate of the log appends only *)

Definition same_but_log_faults (e1 e2 : Env) : Prop :=
  (forall n, db_fault e1 n = db_fault e2 n) /\
  (forall n, clock e1 n = clock e2 n) /\
  (forall n, gen_id e1 n = gen_id e2 n) /\
  (forall t, jwt_verify e1 t = jwt_verify e2 t).

(** The entity collections, that is the database without the logs. *)
Definition entities (s : Store) : list Project * list Task * list User :=
  (projects s, tasks s, users s).

Definition sim (w1 w2 : World) : Prop :=
  entities (store w1) = entities (store w2) /\ tick w1 = tick w2.

Definition simM {A} (m1 m2 : M A) : Prop :=
  forall w1 w2, sim w1 w2 ->
    res (m1 w1) = res (m2 w2) /\
    sim (world (m1 w1)) (world (m2 w2)) /\
    trace (m1 w1) = trace (m2 w2).

(** As [simM], for computations whose results may differ but are not
    looked at, and which do not throw. *)
Definition simW {A} (m1 m2 : M A) : Prop :=
  forall w1 w2, sim w1 w2 ->
    (exists a1 a2, res (m1 w1) = Ret a1 /\ res (m2 w2) = Ret a2) /\
    sim (world (m1 w1)) (world (m2 w2)) /\
    trace (m1 w1) = trace (m2 w2).

Definition no_db_fault (env : Env) : Prop :=
  forall n, db_fault env n = false.

(** ** What a call of [createProjectLog] may do to the logs *)

(** The logs are as before, or longer by the entry that was asked for. *)
Definition appended (projectId : Id) (userId : option Id) (action : string)
    (details : Details) (before after : list ProjectLog) : Prop :=
  after = before \/
  exists l, after = before ++ [l] /\ l_project l = projectId /\
            l_user l = userId /\ l_action l = action /\
            l_details l = details /\ validProjectLog l = true.

(** The logs have grown, by entries of other actions than [a] only. *)
Definition grows_without (a : string) (before after : list ProjectLog) : Prop :=
  exists new, after = before ++ new /\ Forall (fun l => l_action l <> a) new.

(** Reads leave the database as it is and write nothing. *)
Definition reads {A} (m : M A) : Prop :=
  forall w, exists n,
    world (m w) = {| store := store w; tick := n |} /\ trace (m w) = [].

(** Reads that also come back with a value. *)
Definition returns {A} (m : M A) : Prop :=
  forall w, exists a n,
    m w = mkOut (Ret a) {| store := store w; tick := n |} [].

(** [f] does not look at the logs and does not let them leak into the
    entity collections. *)
Definition log_blind {A} (f : Store -> A * Store) : Prop :=
  forall s1 s2, entities s1 = entities s2 ->
    fst (f s1) = fst (f s2) /\ entities (snd (f s1)) = entities (snd (f s2)).

(** ** The order of writes and appends, handler by handler *)

(** Everything a handler may do to the database, in program order. *)
Definition template (m : Mutation) : list Event :=
  match m with
  | MCreateProject _ =>
      [EvProjectSave; EvUserUpdateMany; EvLogAttempt "Created"]
  | MUpdateProject _ _ =>
      [EvLogAttempt "Status Changed"; EvLogAttempt "Progress Updated";
       EvProjectSave; EvLogAttempt "Team Changed"; EvUserUpdateMany;
       EvUserUpdateMany; EvLogAttempt "Updated"]
  | MDeleteProject _ =>
      [EvLogAttempt "Deleted"; EvUserUpdateMany; EvTaskDeleteMany;
       EvProjectDelete]
  | MCreateTask _ _ => [EvTaskSave; EvLogAttempt "Task Created"]
  | MUpdateTask _ _ =>
      [EvLogAttempt "Task Status Changed"; EvLogAttempt "Task Reassigned";
       EvTaskSave; EvLogAttempt "Task Updated"]
  | MDeleteTask _ => [EvLogAttempt "Task Deleted"; EvTaskDelete]
  | MAddComment _ _ => [EvTaskSave; EvLogAttempt "Comment Added"]
  end.

Definition saved (tr : list Event) : bool :=
  existsb (fun e => match e with
                    | EvProjectSave | EvTaskSave => true
                    | _ => false
                    end) tr.

(** Which comes first: creates and comments write the entity first,
    deletes append to the log first, and the catch-all entry of an
    update is attempted only when the save has gone through. *)
Definition order_of (m : Mutation) (tr : list Event) : Prop :=
  match m with
  | MCreateProject _ | MCreateTask _ _ | MAddComment _ _ =>
      commit_first tr = true
  | MDeleteProject _ | MDeleteTask _ => log_first tr = true
  | MUpdateProject _ _ => attempted "Updated" tr = true -> saved tr = true
  | MUpdateTask _ _ => attempted "Task Updated" tr = true -> saved tr = true
  end.

(** ** The report *)

Definition bucket_sum (ts : list Task) : nat :=
  (count_status "To Do" ts + count_status "In Progress" ts +
   count_status "Completed" ts)%nat.

(** The task statuses that belong to a methodology's workflow and to
    none of the three buckets of the report. *)
Definition methodology_specific : list string :=
  [ "Backlog"; "Review"; "Requirements"; "Design"; "Implementation";
    "Deployment" ].

Definition project_tasks (pid : Id) (s : Store) : list Task :=
  filter (fun t => String.eqb (t_project t) pid) (tasks s).

Definition statuses (ts : list Task) : list string := map t_status ts.

(** ** The log queries *)

Definition stored_newer_or_same (a b : ProjectLog) : Prop :=
  (l_timestamp a >= l_timestamp b)%Z.

Definition newer_or_same (a b : PopulatedLog) : Prop :=
  (pl_timestamp a >= pl_timestamp b)%Z.

Definition strictly_newer (a b : PopulatedLog) : Prop :=
  (pl_timestamp a > pl_timestamp b)%Z.

(** The acting user of [pl] is given by name and email. *)
Definition user_resolved (pl : PopulatedLog) : Prop :=
  exists r, pl_user pl = Some r.

(** [pl] is the stored entry [l] with its references looked up in [s]:
    the user by name and email when the entry has one and it is still
    stored, [null] otherwise. *)
Definition populated_from (s : Store) (l : ProjectLog) (pl : PopulatedLog)
    : Prop :=
  pl_id pl = l_id l /\ pl_action pl = l_action l /\
  pl_details pl = l_details l /\ pl_timestamp pl = l_timestamp l /\
  (forall uid u, l_user l = Some uid -> findUser uid s = Some u ->
     pl_user pl = Some {| ur_id := u_id u; ur_name := u_name u;
                          ur_email := u_email u |}) /\
  (forall uid, l_user l = Some uid -> findUser uid s = None ->
     pl_user pl = None) /\
  (l_user l = None -> pl_user pl = None).


(** ** A history that leads to entries of equal timestamp *)

Module Scenario.

Import Sample.

(** One update request, served within a single millisecond, by a
    manager whose account is deleted afterwards. *)
Definition after_update : World :=
  world (run_call frozen pm
           (CMutation (MUpdateProject tourism_id
                         (with_status "On Hold" no_body)))
           {| store := seeded; tick := 0 |}).

Definition after_delete : World :=
  world (run_call quiet admin (CDeleteUser pm_id) after_update).

(** The end-to-end history: create project P, put it on hold at 40
    percent, add a task T and delete it again. *)
Definition P_body : ProjectBody :=
  {| b_name := Some "P"; b_description := None; b_status := Some "Active";
     b_progress := None; b_team := None; b_startDate := Some 20250901%Z;
     b_deadline := None; b_methodology := None;
     b_budget := Some (50000 # 1)%Q; b_sprintDuration := None;
     b_wipLimit := None; b_phases := None; b_valueGoals := None |}.

Definition T_body : TaskBody :=
  {| tb_title := Some "T"; tb_description := None; tb_status := None;
     tb_priority := None; tb_assignee := None; tb_dueDate := None;
     tb_storyPoints := None; tb_phase := None |}.

Definition P_id : Id := nth_id 0.
Definition T_id : Id := nth_id 13.

Definition history : list Mutation :=
  [ MCreateProject P_body;
    MUpdateProject P_id (with_progress 40 (with_status "On Hold" no_body));
    MCreateTask P_id T_body;
    MDeleteTask T_id ].

Definition play (env : Env) (user : User) (ms : list Mutation) (w : World)
    : World :=
  fold_left (fun w m => world (run_mutation env user m w)) ms w.

Definition actions_of (o : Out Response) : list string :=
  match res o with
  | Ret {| body := BLogs pls |} => map pl_action pls
  | _ => []
  end.

End Scenario.

(* ================================================================== *)
(** * The remaining handlers of the project and task controllers        *)
(* ================================================================== *)

(** What a handler of this part sends: [res.json(payload)], or a
    refusal with its status and message. *)
Inductive Answer (A : Type) :=
| Sent (code : nat) (payload : A)
| Refused (code : nat) (reason : string).
Arguments Sent {A} code payload.
Arguments Refused {A} code reason.

(** [populate('assignee', 'name email')] *)
Definition populateAssignee (s : Store) (t : Task) : option UserRef :=
  match t_assignee t with
  | Some a =>
      option_map (fun u => {| ur_id := u_id u; ur_name := u_name u;
                              ur_email := u_email u |})
                 (findUser a s)
  | None => None
  end.

Section MoreControllers.

Variable env : Env.

(** controllers/projectsController.js: getProjects.  The filter
    [{ team: req.user._id }] matches the documents whose [team] array
    holds the id. *)
Definition getProjects (user : User)
    : M (Answer (list (Project * list Member))) :=
  try_catch
    (projects <-
       (if isAdminOrPM user then db_read env (fun s => projects s)
        else db_read env (fun s =>
               filter (fun p => includes (p_team p) (u_id user))
                      (projects s))) ;;
     populated <-
       db_read env (fun s => map (fun p => (p, populateTeam s p)) projects) ;;
     ret (Sent 200 populated))
    (ret (Refused 500 "Server error")).

(** controllers/tasksController.js: getTasks *)
Definition getTasks (user : User) (projectId : Id)
    : M (Answer (list (Task * option UserRef * list (option string)))) :=
  try_catch
    (project <- Project_findById env projectId ;;
     match project with
     | None => ret (Refused 404 "Project not found")
     | Some project =>
         let isAdminOrPM := isAdminOrPM user in
         let isTeamMember := isTeamMember project user in
         if negb isAdminOrPM && negb isTeamMember then
           ret (Refused 403 "Access denied")
         else
           tasks <-
             (if isAdminOrPM || isTeamMember then
                Task_findByProject env projectId
              else
                db_read env (fun s =>
                  filter (fun t => String.eqb (t_project t) projectId &&
                                   isAssigned t user) (tasks s))) ;;
           populated <-
             db_read env (fun s =>
               map (fun t => (t, populateAssignee s t,
                              commentAuthors s (Some t))) tasks) ;;
           ret (Sent 200 populated)
     end)
    (ret (Refused 500 "Server error")).

End MoreControllers.

Section MoreRoutes.

Variable env : Env.
Variable isMongoId : string -> bool.

(** routes/projects.js: GET and DELETE of [/:id] *)
Definition GET_project (token : option string) (id : Id) : M Response :=
  authMiddleware env token (fun user =>
    validate (isMongoId id)
      (getProject env user id)).

Definition DELETE_project (token : option string) (id : Id) : M Response :=
  authMiddleware env token (fun user =>
    roleMiddleware ["Administrator"] user
      (validate (isMongoId id)
         (deleteProject env user id))).

(** routes/tasks.js: DELETE of [/tasks/:taskId] *)
Definition DELETE_task (token : option string) (taskId : Id) : M Response :=
  authMiddleware env token (fun user =>
    roleMiddleware ["Administrator"; "Project Manager"] user
      (validate (isMongoId taskId)
         (deleteTask env user taskId))).

End MoreRoutes.

(** ** Vocabulary of their properties *)

(** Every stored project and task passes its schema. *)
Definition schema_ok (s : Store) : Prop :=
  Forall (fun p => validProject p = true) (projects s) /\
  Forall (fun t => validTask t = true) (tasks s).


(** The logs have grown at the end, by entries that satisfy [P]. *)
Definition grows_by (P : ProjectLog -> Prop)
    (before after : list ProjectLog) : Prop :=
  exists new, after = before ++ new /\ Forall P new.

Definition written_by (user : User) (l : ProjectLog) : Prop :=
  l_user l = Some (u_id user) /\ closed_action l.

Definition no_log_fault (env : Env) : Prop :=
  forall n, log_fault env n = false.

(** The caller of a request is a stored account. *)
Definition stored_user (user : User) (s : Store) : Prop :=
  findUser (u_id user) s = Some user.

(** [tasksCompleted], summed over the rows of the report's team. *)
Definition team_completed (r : Report) : nat :=
  list_sum (map ts_tasksCompleted (r_team r)).


(** What an account is apart from its assignments. *)
Definition account (u : User) : Id * string * string * string :=
  (u_id u, u_name u, u_email u, u_role u).

(** The [assignee] condition of the report's [countDocuments]. *)
Definition assigned_to (id : Id) (t : Task) : bool :=
  match t_assignee t with
  | Some a => String.eqb a id
  | None => false
  end.

(** The statuses a handler sends, read off its [res.status] and
    [res.json] calls. *)
Definition codes (m : Mutation) : list nat :=
  match m with
  | MCreateProject _ => [201; 500]
  | MUpdateProject _ _ => [200; 404; 500]
  | MDeleteProject _ => [204; 404; 500]
  | MCreateTask _ _ => [201; 403; 404; 500]
  | MUpdateTask _ _ => [200; 403; 404; 500]
  | MDeleteTask _ => [204; 404; 500]
  | MAddComment _ _ => [201; 403; 404; 500]
  end%nat.

(** The write to the entity collections a handler is there for. *)
Definition commit_of (m : Mutation) : Event :=
  match m with
  | MCreateProject _ | MUpdateProject _ _ => EvProjectSave
  | MDeleteProject _ => EvProjectDelete
  | MCreateTask _ _ | MUpdateTask _ _ | MAddComment _ _ => EvTaskSave
  | MDeleteTask _ => EvTaskDelete
  end.

(** ** More requests to run the handlers on *)

Module Requests.

Import Sample.

(** A collaborator who is in no team and has no task. *)
Definition visitor : User :=
  {| u_id := "64b0000000000000000000a4"; u_name := "Nihed Mansouri";
     u_email := "nihed.mansouri@example.com"; u_role := "Collaborator";
     u_assignedProjects := [] |}.


(** A project for the administrator and the collaborator. *)
Definition sousse_body : ProjectBody :=
  {| b_name := Some "Sousse Port Logistics"; b_description := None;
     b_status := None; b_progress := None;
     b_team := Some [admin_id; collab_id]; b_startDate := Some 20251001%Z;
     b_deadline := None; b_methodology := Some "Kanban"; b_budget := None;
     b_sprintDuration := None; b_wipLimit := Some 5%Z; b_phases := None;
     b_valueGoals := None |}.

(** A project whose budget is the smallest positive double, 5e-324,
    alone in its database. *)
Definition pilot_id : Id := "64b0000000000000000000b3".

Definition pilot : Project :=
  {| p_id := pilot_id; p_name := "Djerba Ferry Pilot";
     p_description := None; p_status := "Active"; p_progress := 0%Z;
     p_team := [pm_id]; p_startDate := 20251101%Z; p_deadline := None;
     p_methodology := "None"; p_budget := Some (on_grid 1);
     p_sprintDuration := None; p_wipLimit := None; p_phases := [];
     p_valueGoals := None; p_createdBy := pm_id; p_lastUpdate := 900%Z |}.

Definition pilot_db : Store :=
  {| projects := [pilot]; tasks := []; users := [pm]; logs := [] |}.

Definition review_body : TaskBody :=
  {| tb_title := Some "Review Medina Listings"; tb_description := None;
     tb_status := None; tb_priority := Some "High";
     tb_assignee := Some collab_id; tb_dueDate := None;
     tb_storyPoints := Some 3%Z; tb_phase := None |}.

End Requests.

(* ================================================================== *)
(** * Reasoning about runs                                              *)
(* ================================================================== *)

Lemma wp_ret {A} (a : A) w Q : Q (Ret a) w [] -> wp (ret a) w Q.
Proof. exact (fun H => H). Qed.

Lemma wp_throw {A} w (Q : outcome A -> World -> list Event -> Prop) :
  Q Throw w [] -> wp throw w Q.
Proof. exact (fun H => H). Qed.

Lemma wp_bind {A B} (m : M A) (k : A -> M B) w Q :
  wp m w (fun r w1 t1 =>
    match r with
    | Ret a => wp (k a) w1 (fun r' w2 t2 => Q r' w2 (t1 ++ t2))
    | Throw => Q Throw w1 t1
    end) ->
  wp (bind m k) w Q.
Proof.
  unfold wp, bind. destruct (m w) as [[a|] w1 t1]; simpl; auto.
Qed.

Lemma wp_try {A} (m h : M A) w Q :
  wp m w (fun r w1 t1 =>
    match r with
    | Ret a => Q (Ret a) w1 t1
    | Throw => wp h w1 (fun r' w2 t2 => Q r' w2 (t1 ++ t2))
    end) ->
  wp (try_catch m h) w Q.
Proof.
  unfold wp, try_catch. destruct (m w) as [[a|] w1 t1]; simpl; auto.
Qed.


Lemma wp_reads {A} (m : M A) w Q :
  reads m ->
  (forall r n, Q r {| store := store w; tick := n |} []) ->
  wp m w Q.
Proof.
  intros Hm HQ. unfold wp. destruct (Hm w) as (n & Ew & Et).
  rewrite Ew, Et. apply HQ.
Qed.

(** A handler answers: the [catch] branch of its body returns. *)
Lemma handler_returns {A} (m : M A) (a : A) w :
  exists r, res (try_catch m (ret a) w) = Ret r.
Proof.
  unfold try_catch. destruct (res (m w)) eqn:E; cbn; eauto.
Qed.

Section WpPrimitives.

Variable env : Env.

Lemma wp_db_call {A} (f : Store -> A * Store) evs w Q :
  (db_fault env (tick w) = true -> Q Throw (bump w) []) ->
  (db_fault env (tick w) = false ->
   Q (Ret (fst (f (store w)))) (set_store (snd (f (store w))) (bump w)) evs) ->
  wp (db_call env f evs) w Q.
Proof.
  unfold wp, db_call. intros Hf Hok.
  destruct (db_fault env (tick w)); [now apply Hf|].
  destruct (f (store w)) as [a s]; simpl in *. now apply Hok.
Qed.

Lemma wp_db_read {A} (f : Store -> A) w Q :
  (db_fault env (tick w) = true -> Q Throw (bump w) []) ->
  (db_fault env (tick w) = false -> Q (Ret (f (store w))) (bump w) []) ->
  wp (db_read env f) w Q.
Proof.
  intros Hf Hok. unfold db_read. apply wp_db_call; [exact Hf|].
  intros E. simpl. unfold set_store, bump in *. simpl. now apply Hok.
Qed.

Lemma wp_now w Q : Q (Ret (clock env (tick w))) w [] -> wp (now env) w Q.
Proof. exact (fun H => H). Qed.

Lemma wp_new_id w Q :
  Q (Ret (gen_id env (tick w))) (bump w) [] -> wp (new_id env) w Q.
Proof. exact (fun H => H). Qed.

(** One call of [createProjectLog]: it returns whatever happens to the
    entry, it has made exactly one attempt, and the logs are as before
    or longer by the entry it was asked to write. *)
Lemma createProjectLog_run projectId userId action details w :
  exists r ls,
    createProjectLog env projectId userId action details w =
      mkOut (Ret r)
            {| store := set_logs ls (store w); tick := S (S (tick w)) |}
            [EvLogAttempt action] /\
    appended projectId userId action details (logs (store w)) ls.
Proof.
  unfold createProjectLog, try_catch, bind, new_id, now, ProjectLog_save, ret.
  cbn [res world trace bump tick store l_action].
  destruct (validProjectLog _ && negb _) eqn:E;
    cbn [res world trace app set_store bump tick store].
  - eexists _, _. split; [reflexivity|]. right. eexists. split; [reflexivity|].
    apply andb_prop in E. cbn. intuition.
  - exists None, (logs (store w)). split.
    + f_equal. destruct w as [[ps ts us ls] n]; reflexivity.
    + now left.
Qed.

Lemma wp_createProjectLog projectId userId action details w Q :
  (forall r ls,
     appended projectId userId action details (logs (store w)) ls ->
     Q (Ret r) {| store := set_logs ls (store w); tick := S (S (tick w)) |}
       [EvLogAttempt action]) ->
  wp (createProjectLog env projectId userId action details) w Q.
Proof.
  intros H. unfold wp.
  destruct (createProjectLog_run projectId userId action details w)
    as (r & ls & E & Hl).
  rewrite E. cbn [res world trace]. now apply H.
Qed.

Lemma wp_when (b : bool) projectId userId action details w Q :
  (forall ls n,
     (if b then appended projectId userId action details (logs (store w)) ls
      else ls = logs (store w)) ->
     Q (Ret tt) {| store := set_logs ls (store w); tick := n |}
       (if b then [EvLogAttempt action] else [])) ->
  wp (when b (createProjectLog env projectId userId action details)) w Q.
Proof.
  intros H. unfold when. destruct b.
  - apply wp_bind, wp_createProjectLog. intros r ls Hl.
    apply wp_ret. rewrite app_nil_r. now apply H.
  - apply wp_ret.
    replace w with {| store := set_logs (logs (store w)) (store w);
                      tick := tick w |} at 1
      by (destruct w as [[ps ts us ls] n]; reflexivity).
    now apply H.
Qed.

End WpPrimitives.

(** ** Reads *)

Lemma reads_ret {A} (a : A) : reads (ret a).
Proof. intros [s n]. exists n. split; reflexivity. Qed.

Lemma reads_bind {A B} (m : M A) (k : A -> M B) :
  reads m -> (forall a, reads (k a)) -> reads (bind m k).
Proof.
  intros Hm Hk w. unfold bind. destruct (Hm w) as (n & Ew & Et).
  destruct (m w) as [r w1 t1]; cbn in *. subst w1 t1.
  destruct r as [a|]; cbn; [|eauto].
  destruct (Hk a {| store := store w; tick := n |}) as (n' & Ew' & Et').
  rewrite Ew', Et'. eauto.
Qed.

Lemma reads_db_read {A} env (f : Store -> A) : reads (db_read env f).
Proof.
  intros w. unfold db_read, db_call.
  destruct (db_fault env (tick w)); cbn; eexists; split; reflexivity.
Qed.

Lemma reads_mapM {A B} (f : A -> M B) l :
  (forall a, reads (f a)) -> reads (mapM f l).
Proof.
  intros Hf. induction l as [|a l IH]; cbn [mapM].
  - apply reads_ret.
  - apply reads_bind; [apply Hf|]. intros b.
    apply reads_bind; [apply IH|]. intros bs. apply reads_ret.
Qed.

(** ** Reads that cannot fail *)

Lemma returns_ret {A} (a : A) : returns (ret a).
Proof. intros [s n]. exists a, n. reflexivity. Qed.

Lemma returns_bind {A B} (m : M A) (k : A -> M B) :
  returns m -> (forall a, returns (k a)) -> returns (bind m k).
Proof.
  intros Hm Hk w. unfold bind. destruct (Hm w) as (a & n & E).
  rewrite E. cbn.
  destruct (Hk a {| store := store w; tick := n |}) as (b & n' & E').
  rewrite E'. cbn. eauto.
Qed.

Lemma returns_db_read {A} env (f : Store -> A) :
  no_db_fault env -> returns (db_read env f).
Proof.
  intros H w. unfold db_read, db_call. rewrite H. cbn.
  eexists _, _. reflexivity.
Qed.

Lemma returns_mapM {A B} (f : A -> M B) l :
  (forall a, returns (f a)) -> returns (mapM f l).
Proof.
  intros Hf. induction l as [|a l IH]; cbn [mapM].
  - apply returns_ret.
  - apply returns_bind; [apply Hf|]. intros b.
    apply returns_bind; [apply IH|]. intros bs. apply returns_ret.
Qed.

Lemma wp_returns {A} (m : M A) w Q :
  returns m ->
  (forall a n, Q (Ret a) {| store := store w; tick := n |} []) ->
  wp m w Q.
Proof.
  intros Hm HQ. unfold wp. destruct (Hm w) as (a & n & E).
  rewrite E. apply HQ.
Qed.

(** ** Running a handler symbolically *)

Ltac wp_simpl_all :=
  cbn beta iota zeta delta
    [store tick bump set_store set_logs set_projects set_tasks set_users
     projects tasks users logs fst snd res world trace] in *.

Ltac wp_step :=
  lazymatch goal with
  | |- wp (bind _ _) _ _ => apply wp_bind
  | |- wp (try_catch _ _) _ _ => apply wp_try
  | |- wp (ret _) _ _ => apply wp_ret
  | |- wp throw _ _ => apply wp_throw
  | |- wp server_error _ _ => apply wp_ret
  | |- wp (when _ (createProjectLog _ _ _ _ _)) _ _ =>
      apply wp_when; intros ? ? ?
  | |- wp (createProjectLog _ _ _ _ _) _ _ =>
      apply wp_createProjectLog; intros ? ? ?
  | |- wp (db_read _ _) _ _ => apply wp_db_read; intros ?
  | |- wp (db_call _ _ _) _ _ => apply wp_db_call; intros ?
  | |- wp (now _) _ _ => apply wp_now
  | |- wp (new_id _) _ _ => apply wp_new_id
  | H : no_db_fault _ |- wp (mapM _ _) _ _ =>
      apply wp_returns;
      [ apply returns_mapM; intros ?; apply returns_bind;
        [apply returns_db_read; exact H | intros ?; apply returns_ret]
      | intros ? ? ]
  | |- wp (mapM _ _) _ _ =>
      apply wp_reads;
      [ apply reads_mapM; intros ?; apply reads_bind;
        [apply reads_db_read | intros ?; apply reads_ret]
      | intros ? ? ]
  | |- match ?r with _ => _ end => destruct r
  | |- wp (Project_findById _ _) _ _ => unfold Project_findById
  | |- wp (Task_findById _ _) _ _ => unfold Task_findById
  | |- wp (User_findById _ _) _ _ => unfold User_findById
  | |- wp (Task_findByProject _ _) _ _ => unfold Task_findByProject
  | |- wp (Task_count _ _ _ _) _ _ => unfold Task_count
  | |- wp (ProjectLog_find _ _) _ _ => unfold ProjectLog_find
  | |- wp (Project_insert _ _) _ _ => unfold Project_insert
  | |- wp (Project_save _ _) _ _ => unfold Project_save
  | |- wp (Project_deleteOne _ _) _ _ => unfold Project_deleteOne
  | |- wp (Task_insert _ _) _ _ => unfold Task_insert
  | |- wp (Task_save _ _) _ _ => unfold Task_save
  | |- wp (Task_findByIdAndDelete _ _) _ _ => unfold Task_findByIdAndDelete
  | |- wp (Task_deleteMany _ _) _ _ => unfold Task_deleteMany
  | |- wp (User_updateMany _ _ _) _ _ => unfold User_updateMany
  | |- wp (User_findByIdAndDelete _ _) _ _ => unfold User_findByIdAndDelete
  | |- wp (validate _ _) _ _ => unfold validate
  | |- wp (roleMiddleware _ _ _) _ _ => unfold roleMiddleware
  | |- wp (authMiddleware _ _ _) _ _ => unfold authMiddleware
  | |- wp (if ?b then _ else _) _ _ => destruct b eqn:?
  | |- wp (match ?x with _ => _ end) _ _ => destruct x eqn:?
  end; wp_simpl_all.

Ltac wp_run := repeat wp_step.

Ltac split_ifs :=
  repeat match goal with
         | |- context [if ?b then _ else _] => destruct b
         end.


(** ** The logs along a run *)

Lemma includes_In l x : includes l x = true <-> In x l.
Proof.
  unfold includes. rewrite existsb_exists. split.
  - intros (y & Hy & E). apply String.eqb_eq in E. now subst.
  - intros H. exists x. split; [assumption | apply String.eqb_refl].
Qed.

Lemma grows_without_refl a ls : grows_without a ls ls.
Proof. exists []. now rewrite app_nil_r. Qed.

Lemma grows_without_trans a l1 l2 l3 :
  grows_without a l1 l2 -> grows_without a l2 l3 -> grows_without a l1 l3.
Proof.
  intros (n1 & -> & F1) (n2 & -> & F2). exists (n1 ++ n2).
  rewrite app_assoc. split; [reflexivity | now apply Forall_app].
Qed.

Lemma appended_grows a p u a' d before after :
  a' <> a -> appended p u a' d before after -> grows_without a before after.
Proof.
  intros Hn [-> | (l & -> & _ & _ & Ha & _)].
  - apply grows_without_refl.
  - exists [l]. split; [reflexivity|]. constructor; [congruence | constructor].
Qed.

Lemma when_grows a (b : bool) p u a' d before after :
  a' <> a \/ b = false ->
  (if b then appended p u a' d before after else after = before) ->
  grows_without a before after.
Proof.
  intros Hc H. destruct b.
  - destruct Hc as [Hn | Hf]; [|discriminate]. eapply appended_grows; eauto.
  - subst. apply grows_without_refl.
Qed.

Ltac grow_chain a :=
  repeat match goal with
         | H : (if _ then appended _ _ _ _ _ _ else _ = _) |- _ =>
             apply (when_grows a) in H; [|left; discriminate]
         | H : appended _ _ _ _ _ _ |- _ =>
             apply (appended_grows a) in H; [|discriminate]
         end;
  subst; eauto 8 using grows_without_trans, grows_without_refl.

Lemma appended_closed p u a d before after :
  appended p u a d before after ->
  Forall closed_action before -> Forall closed_action after.
Proof.
  intros [-> | (l & -> & _ & _ & _ & _ & Hv)] H; [assumption|].
  apply Forall_app. split; [assumption|]. constructor; [|constructor].
  unfold closed_action. unfold validProjectLog in Hv. now apply includes_In.
Qed.

Lemma when_closed (b : bool) p u a d before after :
  (if b then appended p u a d before after else after = before) ->
  Forall closed_action before -> Forall closed_action after.
Proof.
  destruct b; [apply appended_closed | intros ->; auto].
Qed.

Ltac closed_chain :=
  repeat match goal with
         | H : (if _ then appended _ _ _ _ _ _ else _ = _) |- _ =>
             apply when_closed in H; [|assumption]
         | H : appended _ _ _ _ _ _ |- _ =>
             apply appended_closed in H; [|assumption]
         end; assumption.

(** ** Two runs side by side *)

Lemma sim_refl w : sim w w.
Proof. split; reflexivity. Qed.

Lemma simM_ret {A} (a : A) : simM (ret a) (ret a).
Proof. intros w1 w2 H. cbn. auto. Qed.

Lemma simM_throw {A} : simM (@throw A) (@throw A).
Proof. intros w1 w2 H. cbn. auto. Qed.

Lemma simM_bind {A B} (m1 m2 : M A) (k1 k2 : A -> M B) :
  simM m1 m2 -> (forall a, simM (k1 a) (k2 a)) ->
  simM (bind m1 k1) (bind m2 k2).
Proof.
  intros Hm Hk w1 w2 Hw. unfold bind.
  destruct (Hm w1 w2 Hw) as (Er & Es & Et).
  destruct (m1 w1) as [r1 v1 t1], (m2 w2) as [r2 v2 t2]; cbn in *. subst r2 t2.
  destruct r1 as [a|]; cbn; [|auto].
  destruct (Hk a v1 v2 Es) as (Er' & Es' & Et'). rewrite Et'. auto.
Qed.

(** A step whose result is thrown away may return different values in
    the two runs. *)
Lemma simM_seq {A B} (m1 m2 : M A) (k1 k2 : M B) :
  simW m1 m2 -> simM k1 k2 ->
  simM (bind m1 (fun _ => k1)) (bind m2 (fun _ => k2)).
Proof.
  intros Hm Hk w1 w2 Hw. unfold bind.
  destruct (Hm w1 w2 Hw) as ((a1 & a2 & E1 & E2) & Es & Et).
  destruct (m1 w1) as [r1 v1 t1], (m2 w2) as [r2 v2 t2]; cbn in *. subst.
  destruct (Hk v1 v2 Es) as (Er' & Es' & Et'). rewrite Et'. auto.
Qed.

Lemma simM_try {A} (m1 m2 h1 h2 : M A) :
  simM m1 m2 -> simM h1 h2 -> simM (try_catch m1 h1) (try_catch m2 h2).
Proof.
  intros Hm Hh w1 w2 Hw. unfold try_catch.
  destruct (Hm w1 w2 Hw) as (Er & Es & Et).
  destruct (m1 w1) as [r1 v1 t1], (m2 w2) as [r2 v2 t2]; cbn in *. subst r2 t2.
  destruct r1 as [a|]; cbn; [auto|].
  destruct (Hh v1 v2 Es) as (Er' & Es' & Et'). rewrite Et'. auto.
Qed.

Section SimPrimitives.

Variables e1 e2 : Env.
Hypothesis Henv : same_but_log_faults e1 e2.

Lemma simM_db_call {A} (f : Store -> A * Store) evs :
  log_blind f -> simM (db_call e1 f evs) (db_call e2 f evs).
Proof.
  intros Hf w1 w2 [Hs Ht]. unfold db_call.
  destruct Henv as (Hdb & _). rewrite <- Hdb, <- Ht.
  destruct (db_fault e1 (tick w1)).
  - cbn. repeat split; auto. cbn. now rewrite Ht.
  - destruct (Hf _ _ Hs) as [E1 E2].
    destruct (f (store w1)) as [a1 s1], (f (store w2)) as [a2 s2]; cbn in *.
    subst. repeat split; auto. cbn. now rewrite Ht.
Qed.

Lemma simM_db_read {A} (f : Store -> A) :
  (forall s1 s2, entities s1 = entities s2 -> f s1 = f s2) ->
  simM (db_read e1 f) (db_read e2 f).
Proof.
  intros Hf. apply simM_db_call. intros s1 s2 E. cbn. auto.
Qed.

Lemma simM_now : simM (now e1) (now e2).
Proof.
  intros w1 w2 [Hs Ht]. unfold now. cbn.
  destruct Henv as (_ & Hc & _). rewrite Hc, Ht. repeat split; auto.
Qed.

Lemma simM_new_id : simM (new_id e1) (new_id e2).
Proof.
  intros w1 w2 [Hs Ht]. unfold new_id. cbn.
  destruct Henv as (_ & _ & Hg & _). rewrite Hg, Ht. repeat split; auto.
  cbn. now rewrite Ht.
Qed.

End SimPrimitives.

(** Whatever becomes of the entry, [createProjectLog] leaves the same
    entity collections behind and hands control back. *)
Lemma simW_createProjectLog e1 e2 p u a d :
  simW (createProjectLog e1 p u a d) (createProjectLog e2 p u a d).
Proof.
  intros w1 w2 [Hs Ht].
  destruct (createProjectLog_run e1 p u a d w1) as (r1 & l1 & E1 & _).
  destruct (createProjectLog_run e2 p u a d w2) as (r2 & l2 & E2 & _).
  rewrite E1, E2. cbn. split; [eauto|]. split; [|reflexivity].
  split; cbn; [|now rewrite Ht].
  unfold entities in *. cbn. exact Hs.
Qed.

Lemma simM_when e1 e2 b p u a d :
  simM (when b (createProjectLog e1 p u a d))
       (when b (createProjectLog e2 p u a d)).
Proof.
  unfold when. destruct b; [|apply simM_ret].
  apply simM_seq; [apply simW_createProjectLog | apply simM_ret].
Qed.

Ltac blind :=
  let s1 := fresh "s" in let s2 := fresh "s" in let E := fresh "E" in
  let Ep := fresh "Ep" in let Et := fresh "Et" in let Eu := fresh "Eu" in
  intros s1 s2 E; unfold entities in *;
  injection E as Ep Et Eu;
  cbn [fst snd projects tasks users logs set_projects set_tasks set_users
       set_logs];
  unfold findProject, findTask, findUser, populateTeam, commentAuthors,
         findUser;
  rewrite ?Ep, ?Et, ?Eu; auto.

Ltac sim_step H :=
  lazymatch goal with
  | |- simM (try_catch _ _) (try_catch _ _) => apply simM_try
  | |- simM (bind (createProjectLog _ _ _ _ _) _) _ =>
      apply simM_seq; [apply simW_createProjectLog|]
  | |- simM (bind _ _) (bind _ _) => apply simM_bind; [|intros ?]
  | |- simM (ret _) (ret _) => apply simM_ret
  | |- simM throw throw => apply simM_throw
  | |- simM server_error server_error => apply simM_ret
  | |- simM (when _ _) (when _ _) => apply simM_when
  | |- simM (now _) (now _) => apply (simM_now _ _ H)
  | |- simM (new_id _) (new_id _) => apply (simM_new_id _ _ H)
  | |- simM (db_read _ _) (db_read _ _) =>
      apply (simM_db_read _ _ H); blind
  | |- simM (db_call _ _ _) (db_call _ _ _) =>
      apply (simM_db_call _ _ H); blind
  | |- simM (Project_findById _ _) _ => unfold Project_findById
  | |- simM (Task_findById _ _) _ => unfold Task_findById
  | |- simM (User_findById _ _) _ => unfold User_findById
  | |- simM (Project_insert _ _) _ => unfold Project_insert
  | |- simM (Project_save _ _) _ => unfold Project_save
  | |- simM (Project_deleteOne _ _) _ => unfold Project_deleteOne
  | |- simM (Task_insert _ _) _ => unfold Task_insert
  | |- simM (Task_save _ _) _ => unfold Task_save
  | |- simM (Task_findByIdAndDelete _ _) _ => unfold Task_findByIdAndDelete
  | |- simM (Task_deleteMany _ _) _ => unfold Task_deleteMany
  | |- simM (User_updateMany _ _ _) _ => unfold User_updateMany
  | |- simM (if ?b then _ else _) _ => destruct b
  | |- simM (match ?x with _ => _ end) _ => destruct x
  end; cbn beta iota zeta.

(** The mutation handlers never let the fate of a log append reach the
    response or the entity collections. *)
Lemma simM_run_mutation e1 e2 user m :
  same_but_log_faults e1 e2 ->
  simM (run_mutation e1 user m) (run_mutation e2 user m).
Proof.
  intros H. destruct m; cbn [run_mutation].
  - unfold createProject. repeat sim_step H.
  - unfold updateProject. repeat sim_step H.
  - unfold deleteProject. repeat sim_step H.
  - unfold createTask. repeat sim_step H.
  - unfold updateTask. repeat sim_step H.
  - unfold deleteTask. repeat sim_step H.
  - unfold addComment. repeat sim_step H.
Qed.

(* ------------------------------------------------------------------ *)
(** ** Pure facts about the data                                        *)
(* ------------------------------------------------------------------ *)

Lemma filter_not_in_self (l : list Id) :
  filter (fun id => negb (includes l id)) l = [].
Proof.
  assert (H : forall l', incl l' l ->
            filter (fun id => negb (includes l id)) l' = []).
  { induction l' as [|x l' IH]; intros Hi; [reflexivity|].
    cbn [filter].
    assert (E : includes l x = true)
      by (apply includes_In, Hi; now left).
    rewrite E. cbn. apply IH. intros y Hy. apply Hi. now right. }
  apply H, incl_refl.
Qed.

(** Once [updates.team] has been assigned to the document, comparing
    the document's team with [updates.team] finds no difference. *)
Lemma team_compared_with_itself p updates t team :
  b_team updates = Some team ->
  addedMembers (set_lastUpdate (assignProject p updates) t) team = [] /\
  removedMembers (set_lastUpdate (assignProject p updates) t) team = [].
Proof.
  intros E. unfold addedMembers, removedMembers.
  cbn [p_team set_lastUpdate assignProject]. rewrite E. cbn [or_default].
  split; apply filter_not_in_self.
Qed.

Lemma team_guard_false p updates t team :
  b_team updates = Some team ->
  ((0 <? List.length
           (addedMembers (set_lastUpdate (assignProject p updates) t) team))%nat
   || (0 <? List.length
              (removedMembers (set_lastUpdate (assignProject p updates) t)
                 team))%nat)
  = false.
Proof.
  intros E. destruct (team_compared_with_itself p updates t team E) as [-> ->].
  reflexivity.
Qed.

(** In no run of updateProject on a body whose team is made of ids in
    canonical form is a "Team Changed" entry attempted. *)
Lemma updateProject_never_attempts_Team_Changed env user id updates w :
  canonical_team updates ->
  attempted "Team Changed" (trace (updateProject env user id updates w)) = false.
Proof.
  intros _.
  change (wp (updateProject env user id updates) w
            (fun _ _ tr => attempted "Team Changed" tr = false)).
  unfold updateProject. wp_run;
    rewrite ?team_guard_false by assumption; split_ifs; reflexivity.
Qed.

Lemma findProject_id id s p : findProject id s = Some p -> p_id p = id.
Proof.
  unfold findProject. intros H. apply find_some in H as [_ H].
  now apply String.eqb_eq in H.
Qed.

Lemma find_replaceProject id ps p p' :
  find (fun q => String.eqb (p_id q) id) ps = Some p ->
  p_id p' = id ->
  find (fun q => String.eqb (p_id q) id) (replaceProject p' ps) = Some p'.
Proof.
  intros Hf Hid. subst id. induction ps as [|q ps IH]; [discriminate|].
  cbn [replaceProject map find] in *.
  destruct (String.eqb (p_id q) (p_id p')) eqn:E.
  - now rewrite String.eqb_refl.
  - rewrite E. auto.
Qed.

Lemma role_gate u :
  includes ["Administrator"; "Project Manager"] (u_role u) = isAdminOrPM u.
Proof. unfold isAdminOrPM. cbn. now rewrite orb_false_r. Qed.

Lemma isAdminOrPM_true u :
  isAdminOrPM u = true <->
  u_role u = "Administrator" \/ u_role u = "Project Manager".
Proof.
  unfold isAdminOrPM. rewrite orb_true_iff, !String.eqb_eq. reflexivity.
Qed.


(** *** The sort of the log queries *)

Lemma insert_desc_perm l ls : Permutation (insert_desc l ls) (l :: ls).
Proof.
  induction ls as [|x xs IH]; cbn [insert_desc]; [reflexivity|].
  destruct (l_timestamp x <=? l_timestamp l)%Z; [reflexivity|].
  rewrite IH. apply perm_swap.
Qed.

Lemma sort_desc_perm ls : Permutation (sort_desc ls) ls.
Proof.
  induction ls as [|x xs IH]; cbn; [reflexivity|].
  fold (sort_desc xs). rewrite insert_desc_perm. now constructor.
Qed.

Lemma insert_desc_sorted l ls :
  StronglySorted stored_newer_or_same ls ->
  StronglySorted stored_newer_or_same (insert_desc l ls).
Proof.
  induction 1 as [|x xs Hs IH Hx]; cbn [insert_desc].
  - repeat constructor.
  - destruct (l_timestamp x <=? l_timestamp l)%Z eqn:E.
    + apply Z.leb_le in E. constructor; [now constructor|].
      constructor; [unfold stored_newer_or_same; lia|].
      eapply Forall_impl; [|exact Hx]. unfold stored_newer_or_same.
      intros y Hy. lia.
    + apply Z.leb_gt in E. constructor; [assumption|].
      eapply Permutation_Forall; [symmetry; apply insert_desc_perm|].
      constructor; [unfold stored_newer_or_same; lia | assumption].
Qed.

Lemma sort_desc_sorted ls : StronglySorted stored_newer_or_same (sort_desc ls).
Proof.
  induction ls as [|x xs IH]; cbn; [constructor|].
  now apply insert_desc_sorted.
Qed.

Lemma populate_sorted s ls :
  StronglySorted stored_newer_or_same ls ->
  StronglySorted newer_or_same (map (populateLog s) ls).
Proof.
  induction 1 as [|x xs Hs IH Hx]; cbn [map]; constructor; [assumption|].
  apply Forall_map. eapply Forall_impl; [|exact Hx]. intros y Hy. exact Hy.
Qed.

Lemma populateLog_populated s l : populated_from s l (populateLog s l).
Proof.
  unfold populated_from, populateLog. cbn.
  repeat split; try reflexivity.
  - intros uid u -> Hu. now rewrite Hu.
  - intros uid -> Hu. now rewrite Hu.
  - intros ->. reflexivity.
Qed.

Lemma populate_all s ls :
  Forall2 (populated_from s) ls (map (populateLog s) ls).
Proof.
  induction ls; cbn; constructor; auto using populateLog_populated.
Qed.

(** *** The buckets of the report *)

Lemma count_status_cons st t ts :
  count_status st (t :: ts) =
  ((if String.eqb (t_status t) st then 1 else 0) + count_status st ts)%nat.
Proof.
  unfold count_status. cbn [filter].
  destruct (String.eqb (t_status t) st); reflexivity.
Qed.

Lemma count_status_occ st ts :
  count_status st ts = count_occ string_dec (statuses ts) st.
Proof.
  induction ts as [|t ts IH]; [reflexivity|].
  rewrite count_status_cons, IH. cbn [statuses map count_occ].
  destruct (string_dec (t_status t) st) as [E | E].
  - apply String.eqb_eq in E. now rewrite E.
  - apply String.eqb_neq in E. now rewrite E.
Qed.

Lemma bucket_sum_cons t ts :
  (bucket_sum (t :: ts) <= 1 + bucket_sum ts)%nat /\
  (In (t_status t) methodology_specific ->
   bucket_sum (t :: ts) = bucket_sum ts).
Proof.
  unfold bucket_sum. rewrite !count_status_cons. split.
  - destruct (String.eqb_spec (t_status t) "To Do") as [E1|_];
      destruct (String.eqb_spec (t_status t) "In Progress") as [E2|_];
      destruct (String.eqb_spec (t_status t) "Completed") as [E3|_];
      try lia; congruence.
  - intros Hin.
    destruct (String.eqb_spec (t_status t) "To Do") as [E1|_];
      destruct (String.eqb_spec (t_status t) "In Progress") as [E2|_];
      destruct (String.eqb_spec (t_status t) "Completed") as [E3|_];
      try lia; exfalso;
      first [rewrite E1 in Hin | rewrite E2 in Hin | rewrite E3 in Hin];
      cbn in Hin; intuition discriminate.
Qed.

Lemma bucket_sum_le ts : (bucket_sum ts <= List.length ts)%nat.
Proof.
  induction ts as [|t ts IH]; [reflexivity|].
  destruct (bucket_sum_cons t ts) as [H _]. cbn [List.length]. lia.
Qed.

Lemma bucket_sum_lt ts :
  (exists t, In t ts /\ In (t_status t) methodology_specific) ->
  (bucket_sum ts < List.length ts)%nat.
Proof.
  intros (t & Hin & Hs). induction ts as [|x ts IH]; [contradiction|].
  cbn [List.length]. destruct Hin as [-> | Hin].
  - destruct (bucket_sum_cons t ts) as [_ H]. rewrite (H Hs).
    pose proof (bucket_sum_le ts). lia.
  - destruct (bucket_sum_cons x ts) as [H _]. specialize (IH Hin). lia.
Qed.

(** *** Halving a double *)

Lemma units_of_multiple (s : positive) n q :
  (q == n # s)%Q -> Qfloor (q * inject_Z (Zpos s)) = n.
Proof.
  intros E. rewrite E.
  assert (H : ((n # s) * inject_Z (Zpos s) == inject_Z n)%Q).
  { unfold Qeq. cbn. rewrite Pos.mul_1_r. ring. }
  rewrite H. apply Qfloor_Z.
Qed.

Lemma half_to_even_even n : Z.even n = true -> (2 * half_to_even n = n)%Z.
Proof.
  intros E. unfold half_to_even. rewrite E.
  apply Z.even_spec in E. destruct E as (k & ->).
  rewrite (Z.mul_comm 2 k), Z.div_mul by lia. lia.
Qed.

Lemma half_to_even_odd n :
  Z.even n = false ->
  (2 * half_to_even n = n - 1 \/ 2 * half_to_even n = n + 1)%Z.
Proof.
  intros E. unfold half_to_even. rewrite E.
  rewrite <- Z.negb_odd in E. apply negb_false_iff, Z.odd_spec in E.
  destruct E as (k & ->).
  replace ((2 * k + 1) / 2)%Z with k
    by (apply Z.div_unique with (r := 1%Z); lia).
  destruct (Z.even k); lia.
Qed.

Lemma half_of_even_multiple (s : positive) n :
  Z.even n = true -> (half_to_even n # s == (n # s) * (1 # 2))%Q.
Proof.
  intros E. apply half_to_even_even in E. unfold Qeq. cbn.
  rewrite Pos2Z.inj_mul. nia.
Qed.

Lemma half_of_multiple_near (s : positive) n :
  (Qabs ((half_to_even n # s) - (n # s) * (1 # 2)) <= 1 # (2 * s))%Q.
Proof.
  destruct (Z.even n) eqn:E.
  - rewrite (half_of_even_multiple s n E).
    setoid_replace ((n # s) * (1 # 2) - (n # s) * (1 # 2))%Q with 0%Q by ring.
    cbn. discriminate.
  - apply half_to_even_odd in E. apply Qabs_Qle_condition.
    unfold Qle, Qopp, Qminus, Qplus, Qmult. cbn.
    rewrite !Pos2Z.inj_mul. destruct E as [E|E]; split; nia.
Qed.

Lemma double_on_grid q : double q -> exists n, (q == on_grid n)%Q.
Proof. intros (m & e & _ & _ & E). eauto. Qed.

(** Where the half is a double, the product is the half. *)
Lemma times_half_exact b :
  (exists n, (b * (1 # 2) == on_grid n)%Q) -> (times_half b == b * (1 # 2))%Q.
Proof.
  intros (n & E). unfold times_half, units, on_grid in *.
  revert E. generalize grid. intros s E.
  assert (Eb : (b == (2 * n) # s)%Q).
  { setoid_replace b with (b * (1 # 2) * 2)%Q by ring. rewrite E.
    unfold Qeq. cbv [Qmult Qnum Qden]. rewrite Pos.mul_1_r. ring. }
  rewrite (units_of_multiple s (2 * n) b Eb).
  rewrite (half_of_even_multiple s (2 * n)).
  - now rewrite Eb.
  - rewrite Z.even_mul. reflexivity.
Qed.

(** Everywhere, it is within half of the smallest double of it. *)
Lemma times_half_near b :
  (exists n, (b == on_grid n)%Q) ->
  (Qabs (times_half b - b * (1 # 2)) <= 1 # (2 * grid))%Q.
Proof.
  intros (n & E). unfold times_half, units, on_grid in *.
  revert E. generalize grid. intros s E.
  rewrite (units_of_multiple s n b E). rewrite E.
  apply half_of_multiple_near.
Qed.

Lemma budget_used (b : Q) :
  double b ->
  let used := (if negb (Qeq_bool b 0) then times_half b else 0)%Q in
  (double (b * (1 # 2)) -> used == b * (1 # 2))%Q /\
  (Qabs (used - b * (1 # 2)) <= 1 # (2 * grid))%Q.
Proof.
  intros Hb. cbv zeta. destruct (Qeq_bool b 0) eqn:E; cbn [negb].
  - apply Qeq_bool_eq in E. split.
    + intros _. rewrite E. reflexivity.
    + rewrite E.
      setoid_replace (0 - 0 * (1 # 2))%Q with 0%Q by ring.
      generalize grid. intros s. cbn. discriminate.
  - split.
    + intros Hh. apply times_half_exact. now apply double_on_grid.
    + apply times_half_near. now apply double_on_grid.
Qed.

(** *** The guards of the update handlers *)

Lemma validProject_lastUpdate q t :
  validProject (set_lastUpdate q t) = validProject q.
Proof. reflexivity. Qed.

Lemma validTask_updatedAt q t : validTask (set_updatedAt q t) = validTask q.
Proof. reflexivity. Qed.

(** A tracked change is also put into [changes]. *)
Lemma statusChanged_in_changes p updates :
  statusChanged p updates = true ->
  In "status" (map fst (projectChanges p updates)).
Proof.
  intros H. unfold projectChanges. rewrite H.
  destruct (progressChanged p updates); rewrite !map_app, !in_app_iff; cbn; auto.
Qed.

Lemma taskStatusChanged_in_changes t updates :
  taskStatusChanged t updates = true ->
  In "status" (map fst (taskChanges t updates)).
Proof.
  intros H. unfold taskChanges. rewrite H.
  destruct (assigneeChanged t updates); rewrite !map_app, !in_app_iff; cbn; auto.
Qed.

Lemma changes_nonempty (c : Changes) key :
  In key (map fst c) -> (0 <? List.length c)%nat = true.
Proof. destruct c; [contradiction | reflexivity]. Qed.

(** Whenever the status of a project changes and the update goes
    through, the request attempts "Status Changed" and "Updated". *)
Lemma status_change_reaches_catch_all env user id updates w p :
  findProject id (store w) = Some p ->
  no_db_fault env ->
  validProject (assignProject p updates) = true ->
  statusChanged p updates = true ->
  let tr := trace (updateProject env user id updates w) in
  attempted "Status Changed" tr = true /\ attempted "Updated" tr = true.
Proof.
  intros Hp Hdb Hv Hsc.
  pose proof (changes_nonempty _ _ (statusChanged_in_changes p updates Hsc))
    as Hne.
  change (wp (updateProject env user id updates) w
            (fun _ _ tr => attempted "Status Changed" tr = true /\
                           attempted "Updated" tr = true)).
  unfold updateProject.
  wp_run; try (rewrite Hdb in *; discriminate); try discriminate;
    injection Hp as ->; rewrite ?validProject_lastUpdate in *;
    try congruence; rewrite Hsc, Hne; split_ifs; split; reflexivity.
Qed.

(** The same for the status of a task. *)
Lemma task_status_change_reaches_catch_all env user taskId updates w t :
  findTask taskId (store w) = Some t ->
  no_db_fault env ->
  validTask (assignTask t updates) = true ->
  negb (isAdminOrPM user) && negb (isAssigned t user) = false ->
  taskStatusChanged t updates = true ->
  let tr := trace (updateTask env user taskId updates w) in
  attempted "Task Status Changed" tr = true /\
  attempted "Task Updated" tr = true.
Proof.
  intros Ht Hdb Hv Hacc Hsc.
  pose proof (changes_nonempty _ _ (taskStatusChanged_in_changes t updates Hsc))
    as Hne.
  change (wp (updateTask env user taskId updates) w
            (fun _ _ tr => attempted "Task Status Changed" tr = true /\
                           attempted "Task Updated" tr = true)).
  unfold updateTask.
  wp_run; try (rewrite Hdb in *; discriminate); try discriminate;
    injection Ht as ->; rewrite ?validTask_updatedAt in *;
    try congruence; rewrite Hsc, Hne; split_ifs; split; reflexivity.
Qed.

(** The route of the project logs answers every authenticated caller,
    whatever the role and whatever the team of the project. *)
Lemma any_caller_gets_project_logs env isMongoId tok uid u projectId w :
  tok <> "" ->
  jwt_verify env tok = Some uid ->
  findUser uid (store w) = Some u ->
  isMongoId projectId = true ->
  no_db_fault env ->
  exists pls,
    res (GET_project_logs env isMongoId (Some tok) projectId w) =
      Ret (json 200 (BLogs pls)).
Proof.
  intros Htok Hjwt Hu Hid Hdb.
  assert (Ht : truthy_str (Some tok) = true).
  { cbn. apply negb_true_iff. now apply String.eqb_neq. }
  change (wp (GET_project_logs env isMongoId (Some tok) projectId) w
            (fun r _ _ => exists pls, r = Ret (json 200 (BLogs pls)))).
  unfold GET_project_logs, authMiddleware. rewrite Ht. cbn [negb or_default].
  rewrite Hjwt. unfold getProjectLogs.
  wp_run; try (rewrite Hdb in *; discriminate); try congruence.
  eexists. reflexivity.
Qed.

(* ================================================================== *)
(** * The claims                                                        *)
(* ================================================================== *)

Import Sample Scenario.

(** C1: one entry per tracked category that changed, and a catch-all
    entry for the untracked rest only.  The handlers depart from this:
    a changed status is written twice, as "Status Changed" and again
    inside the [changes] of an "Updated" entry (likewise for tasks with
    "Task Status Changed" and "Task Updated"), in every request that
    changes it; and a progress that is reset to 0 or a replaced team,
    both tracked, get no entry of their own. *)
Theorem tracked_change_is_logged_twice :
  (forall env user id updates w p,
     findProject id (store w) = Some p ->
     no_db_fault env ->
     validProject (assignProject p updates) = true ->
     statusChanged p updates = true ->
     let tr := trace (updateProject env user id updates w) in
     attempted "Status Changed" tr = true /\ attempted "Updated" tr = true /\
     In "status" (map fst (projectChanges p updates))) /\
  (forall env user taskId updates w t,
     findTask taskId (store w) = Some t ->
     no_db_fault env ->
     validTask (assignTask t updates) = true ->
     negb (isAdminOrPM user) && negb (isAssigned t user) = false ->
     taskStatusChanged t updates = true ->
     let tr := trace (updateTask env user taskId updates w) in
     attempted "Task Status Changed" tr = true /\
     attempted "Task Updated" tr = true /\
     In "status" (map fst (taskChanges t updates))) /\
  let o := updateProject quiet pm tourism_id (with_status "On Hold" no_body) w0 in
  let t := updateTask quiet pm (t_id carthage)
             (with_task_status "In Progress" no_task_body) w0 in
  let z := updateProject quiet pm tourism_id (with_progress 0 no_body) w0 in
  let m := updateProject quiet pm tourism_id (with_team [admin_id] no_body) w0 in
  (trace o =
     [EvLogAttempt "Status Changed"; EvProjectSave; EvLogAttempt "Updated"] /\
   map (fun l => (l_action l, l_details l)) (skipn 1 (logs (store (world o)))) =
     [ ("Status Changed", DFromTo (VStr "Active") (VStr "On Hold"));
       ("Updated",
        DChanges [("status", {| ft_from := VStr "Active";
                                ft_to := VStr "On Hold" |})]) ]) /\
  (trace t =
     [EvLogAttempt "Task Status Changed"; EvTaskSave;
      EvLogAttempt "Task Updated"] /\
   map (fun l => (l_action l, l_details l)) (skipn 1 (logs (store (world t)))) =
     [ ("Task Status Changed",
        DTaskFromTo (t_id carthage) (t_title carthage)
          (VStr "To Do") (VStr "In Progress"));
       ("Task Updated",
        DTaskChanges (t_id carthage) (t_title carthage)
          [("status", {| ft_from := VStr "To Do";
                         ft_to := VStr "In Progress" |})]) ]) /\
  (p_progress tourism = 40%Z /\
   option_map p_progress (findProject tourism_id (store (world z))) = Some 0%Z /\
   trace z = [EvProjectSave]) /\
  (p_team tourism = [admin_id; pm_id; collab_id] /\
   option_map p_team (findProject tourism_id (store (world m))) =
     Some [admin_id] /\
   count_attempts (trace m) = 0%nat).
Proof.
  split; [|split].
  - intros env user id updates w p Hp Hdb Hv Hsc.
    destruct (status_change_reaches_catch_all env user id updates w p
                Hp Hdb Hv Hsc) as [H1 H2].
    cbv zeta. auto using statusChanged_in_changes.
  - intros env user taskId updates w t Ht Hdb Hv Hacc Hsc.
    destruct (task_status_change_reaches_catch_all env user taskId updates w t
                Ht Hdb Hv Hacc Hsc) as [H1 H2].
    cbv zeta. auto using taskStatusChanged_in_changes.
  - vm_compute. repeat split.
Qed.

(** The end-to-end history leaves six entries for P, three of them
    from the one update request; the query lists them newest first. *)
Example end_to_end_history :
  actions_of
    (getProjectLogs quiet pm P_id
       (play quiet pm history {| store := seeded; tick := 0 |})) =
  [ "Task Deleted"; "Task Created"; "Updated"; "Progress Updated";
    "Status Changed"; "Created" ].
Proof. vm_compute. reflexivity. Qed.

(** C2: a log append that fails changes neither the response of a
    mutation handler nor what the handler leaves in the entity
    collections, in any of the seven handlers; [createProjectLog]
    returns to its caller whatever happens. *)
Theorem log_failure_is_swallowed e1 e2 user m w :
  same_but_log_faults e1 e2 ->
  let o1 := run_mutation e1 user m w in
  let o2 := run_mutation e2 user m w in
  (exists r, res o1 = Ret r /\ res o2 = Ret r) /\
  entities (store (world o1)) = entities (store (world o2)) /\
  trace o1 = trace o2 /\
  (forall projectId userId action details w',
     exists r,
       res (createProjectLog e1 projectId userId action details w') = Ret r).
Proof.
  intros H o1 o2.
  destruct (simM_run_mutation e1 e2 user m H w w (sim_refl w))
    as (Er & [Es _] & Et).
  fold o1 o2 in Er, Es, Et.
  assert (Hr : exists r, res o1 = Ret r)
    by (subst o1; destruct m; apply handler_returns).
  destruct Hr as (r & Hr).
  split; [exists r; split; [assumption | congruence]|].
  split; [assumption|]. split; [assumption|].
  intros p u a d w'.
  destruct (createProjectLog_run e1 p u a d w') as (r' & ls & E & _).
  rewrite E. cbn. eauto.
Qed.

Lemma log_failure_is_swallowed_witness :
  same_but_log_faults quiet log_down /\
  let m := MUpdateProject tourism_id (with_status "On Hold" no_body) in
  (exists r, res (run_mutation quiet pm m w0) = Ret r /\
             res (run_mutation log_down pm m w0) = Ret r) /\
  entities (store (world (run_mutation quiet pm m w0))) =
  entities (store (world (run_mutation log_down pm m w0))).
Proof.
  split.
  - repeat split; intros; reflexivity.
  - cbv zeta.
    destruct (log_failure_is_swallowed quiet log_down pm
                (MUpdateProject tourism_id (with_status "On Hold" no_body)) w0)
      as (Hr & He & _).
    + repeat split; intros; reflexivity.
    + split; assumption.
Defined.

(** C3: a Collaborator outside the team of a project is refused its
    logs.  The route does not do this: it answers every authenticated
    caller with the logs of the project that was asked for.  The
    collaborator below is not in the team of the project; the route
    hands over its logs, whereas getProject on the same project and
    caller answers 403. *)
Theorem outsider_reads_project_logs :
  (forall env isMongoId tok uid u projectId w,
     tok <> "" ->
     jwt_verify env tok = Some uid ->
     findUser uid (store w) = Some u ->
     isMongoId projectId = true ->
     no_db_fault env ->
     exists pls,
       res (GET_project_logs env isMongoId (Some tok) projectId w) =
         Ret (json 200 (BLogs pls))) /\
  u_role collab = "Collaborator" /\
  isTeamMember olive collab = false /\
  (exists pls,
     res (GET_project_logs quiet hex24 (Some collab_id) olive_id w0) =
       Ret (json 200 (BLogs pls)) /\
     map pl_action pls = ["Status Changed"]) /\
  res (getProject quiet collab olive_id w0) = Ret (message 403 "Access denied").
Proof.
  split; [exact any_caller_gets_project_logs|].
  split; [reflexivity|]. split; [reflexivity|]. split.
  - eexists. split; vm_compute; reflexivity.
  - vm_compute. reflexivity.
Qed.

(** C4 as stated fails: deleteProject attempts the "Deleted" entry
    before anything is removed. *)
Lemma delete_logs_before_it_deletes :
  let tr := trace (run_mutation quiet admin (MDeleteProject tourism_id) w0) in
  tr = [EvLogAttempt "Deleted"; EvUserUpdateMany; EvTaskDeleteMany;
        EvProjectDelete] /\
  commit_first tr = false.
Proof. vm_compute. split; reflexivity. Qed.

(** C4, amended: what a mutation handler does to the database is a
    subsequence of its template, so every append is attempted at most
    once and in program order; creates and comments write the entity
    first, deletes append to the log first, updates attempt the entries
    of the tracked fields before the save and the others after it. *)
Theorem order_of_writes_and_appends env user m w :
  let tr := trace (run_mutation env user m w) in
  subseq_of (template m) tr = true /\ order_of m tr.
Proof.
  change (wp (run_mutation env user m) w
            (fun _ _ tr => subseq_of (template m) tr = true /\ order_of m tr)).
  destruct m; cbn [run_mutation template order_of].
  - unfold createProject. wp_run; split_ifs; split; reflexivity.
  - unfold updateProject. wp_run;
      split_ifs; split; try reflexivity; cbn; discriminate.
  - unfold deleteProject. wp_run; split_ifs; split; reflexivity.
  - unfold createTask. wp_run; split_ifs; split; reflexivity.
  - unfold updateTask. wp_run;
      split_ifs; split; try reflexivity; cbn; discriminate.
  - unfold deleteTask. wp_run; split_ifs; split; reflexivity.
  - unfold addComment. wp_run; split_ifs; split; reflexivity.
Qed.

(** What the order of an update means when the save fails: the client
    gets 500, the project is as it was, and the "Status Changed" entry
    for the change that did not happen is stored. *)
Example status_entry_outlives_failed_save :
  let o := updateProject save_down pm tourism_id
             (with_status "On Hold" no_body) w0 in
  res o = Ret (message 500 "Server error") /\
  projects (store (world o)) = projects (store w0) /\
  map l_action (skipn 1 (logs (store (world o)))) = ["Status Changed"] /\
  trace o = [EvLogAttempt "Status Changed"].
Proof. vm_compute. repeat split. Qed.

(** C5: a request that replaces the team yields one "Team Changed"
    entry with the added and removed ids.  The handler compares the
    team only after the new one has been assigned; with the ids of the
    team in canonical form, as the stored ones are, it finds no
    difference and writes no such entry, in any run: below two members
    are removed, the response is 200, and the logs are as before. *)
Theorem team_change_is_not_logged :
  (forall env user id updates w,
     canonical_team updates ->
     attempted "Team Changed" (trace (updateProject env user id updates w))
     = false) /\
  canonical_team (with_team [admin_id] no_body) /\
  let o := updateProject quiet pm tourism_id (with_team [admin_id] no_body) w0 in
  p_team tourism = [admin_id; pm_id; collab_id] /\
  (exists p, res o = Ret (json 200 (BProject p)) /\ p_team p = [admin_id]) /\
  trace o = [EvProjectSave; EvUserUpdateMany; EvUserUpdateMany] /\
  logs (store (world o)) = logs (store w0).
Proof.
  split; [exact updateProject_never_attempts_Team_Changed|].
  split; [intros team E; injection E as <-; reflexivity|].
  cbv zeta. split; [reflexivity|]. split; [|split].
  - eexists. split; vm_compute; reflexivity.
  - vm_compute. reflexivity.
  - vm_compute. reflexivity.
Qed.

(** C6 as stated fails twice over.  One update request that changes
    the status writes two entries; served within one millisecond they
    carry the same timestamp, so the result is not strictly descending.
    And once the manager's account has been deleted, both entries come
    back without a user. *)
Lemma entries_of_one_millisecond_are_not_strictly_ordered :
  reachable after_delete /\
  exists pls,
    res (getProjectLogs quiet admin tourism_id after_delete) =
      Ret (json 200 (BLogs pls)) /\
    map pl_action pls = ["Status Changed"; "Updated"] /\
    map pl_timestamp pls = [1000%Z; 1000%Z] /\
    ~ StronglySorted strictly_newer pls /\
    ~ Forall user_resolved pls.
Proof.
  split.
  - apply (reach_call _ quiet admin (CDeleteUser pm_id)).
    apply (reach_call _ frozen pm
             (CMutation (MUpdateProject tourism_id
                           (with_status "On Hold" no_body)))).
    apply reach_init. reflexivity.
  - eexists. split; [vm_compute; reflexivity|].
    split; [reflexivity|]. split; [reflexivity|]. split.
    + intros H. inversion H as [|a l _ HF]; subst.
      inversion HF as [|b l' Hab _]; subst.
      unfold strictly_newer in Hab. cbn in Hab. lia.
    + intros H. inversion H as [|a l [r Hr] _]; subst.
      cbn in Hr. discriminate Hr.
Qed.

(** C6, amended: when the database answers, the project-scoped query
    returns exactly the stored entries of that project, newest first
    with entries of equal timestamp next to each other, the acting user
    given by name and email where the account is still stored and null
    where it is not. *)
Theorem project_logs_newest_first env user projectId w :
  no_db_fault env ->
  exists ls pls,
    res (getProjectLogs env user projectId w) = Ret (json 200 (BLogs pls)) /\
    Permutation ls
      (filter (fun l => String.eqb (l_project l) projectId) (logs (store w))) /\
    Forall2 (populated_from (store w)) ls pls /\
    StronglySorted newer_or_same pls.
Proof.
  intros Hdb.
  change (wp (getProjectLogs env user projectId) w
    (fun r _ _ =>
       exists ls pls,
         r = Ret (json 200 (BLogs pls)) /\
         Permutation ls
           (filter (fun l => String.eqb (l_project l) projectId)
                   (logs (store w))) /\
         Forall2 (populated_from (store w)) ls pls /\
         StronglySorted newer_or_same pls)).
  unfold getProjectLogs. wp_run; try (rewrite Hdb in *; discriminate).
  eexists _, _. split; [reflexivity|]. split; [apply sort_desc_perm|].
  split; [apply populate_all | apply populate_sorted, sort_desc_sorted].
Qed.

Lemma project_logs_newest_first_witness :
  no_db_fault quiet /\
  exists ls pls,
    res (getProjectLogs quiet admin tourism_id after_delete) =
      Ret (json 200 (BLogs pls)) /\
    Permutation ls
      (filter (fun l => String.eqb (l_project l) tourism_id)
              (logs (store after_delete))) /\
    Forall2 (populated_from (store after_delete)) ls pls /\
    StronglySorted newer_or_same pls.
Proof.
  split.
  - intros n. reflexivity.
  - apply (project_logs_newest_first quiet admin tourism_id after_delete).
    intros n. reflexivity.
Defined.

(** C7 as stated fails where the arithmetic of doubles runs out.  The
    budget below is 5e-324, the smallest positive double; its half is
    no double, [budget * 0.5] is 0, and the report gives 0 as used,
    which is not 50% of the budget. *)
Lemma smallest_budget_is_reported_unused :
  p_budget Requests.pilot = Some (on_grid 1) /\ double (on_grid 1) /\
  exists rep,
    res (getProjectReport quiet pm Requests.pilot_id
           {| store := Requests.pilot_db; tick := 0 |}) =
      Ret (json 200 (BReport rep)) /\
    (total (r_budget rep) == on_grid 1)%Q /\
    (used (r_budget rep) == 0)%Q /\
    ~ (used (r_budget rep) == on_grid 1 * (1 # 2))%Q.
Proof.
  split; [reflexivity|]. split.
  - exists 1%Z, 0%Z. split; [reflexivity|]. split; [lia|]. reflexivity.
  - eexists. split; [reflexivity|].
    split; [vm_compute; reflexivity|].
    split; [vm_compute; reflexivity|].
    vm_compute. discriminate.
Qed.

(** C7, amended: the report gives as used the budget times 0.5 in the
    arithmetic of doubles (0 without a budget): exactly half of the
    budget wherever that half is a double, and never further from it
    than half of the smallest double; its three buckets count the tasks
    of the project in status "To Do", "In Progress" and "Completed",
    and so their sum is at most the number of tasks of the project, and
    less as soon as one task is in a methodology-specific status. *)
Theorem report_figures env user projectId w p :
  no_db_fault env ->
  findProject projectId (store w) = Some p ->
  (forall b, p_budget p = Some b -> double b) ->
  exists rep,
    res (getProjectReport env user projectId w) = Ret (json 200 (BReport rep)) /\
    match p_budget p with
    | Some b =>
        (double (b * (1 # 2)) -> used (r_budget rep) == b * (1 # 2))%Q /\
        (Qabs (used (r_budget rep) - b * (1 # 2)) <= 1 # (2 * grid))%Q
    | None => used (r_budget rep) = 0%Q
    end /\
    let ts := project_tasks projectId (store w) in
    let sum := (todo (r_tasks rep) + inProgress (r_tasks rep) +
                completed (r_tasks rep))%nat in
    todo (r_tasks rep) = count_occ string_dec (statuses ts) "To Do" /\
    inProgress (r_tasks rep) =
      count_occ string_dec (statuses ts) "In Progress" /\
    completed (r_tasks rep) = count_occ string_dec (statuses ts) "Completed" /\
    (sum <= List.length ts)%nat /\
    ((exists t, In t ts /\ In (t_status t) methodology_specific) ->
     (sum < List.length ts)%nat).
Proof.
  intros Hdb Hp Hd.
  change (wp (getProjectReport env user projectId) w
    (fun r _ _ =>
       exists rep,
         r = Ret (json 200 (BReport rep)) /\
         match p_budget p with
         | Some b =>
             (double (b * (1 # 2)) -> used (r_budget rep) == b * (1 # 2))%Q /\
             (Qabs (used (r_budget rep) - b * (1 # 2)) <= 1 # (2 * grid))%Q
         | None => used (r_budget rep) = 0%Q
         end /\
         let ts := project_tasks projectId (store w) in
         let sum := (todo (r_tasks rep) + inProgress (r_tasks rep) +
                     completed (r_tasks rep))%nat in
         todo (r_tasks rep) = count_occ string_dec (statuses ts) "To Do" /\
         inProgress (r_tasks rep) =
           count_occ string_dec (statuses ts) "In Progress" /\
         completed (r_tasks rep) =
           count_occ string_dec (statuses ts) "Completed" /\
         (sum <= List.length ts)%nat /\
         ((exists t, In t ts /\ In (t_status t) methodology_specific) ->
          (sum < List.length ts)%nat))).
  unfold getProjectReport.
  wp_run; try (rewrite Hdb in *; discriminate); try discriminate.
  injection Hp as ->.
  eexists. split; [reflexivity|]. split.
  - cbn [used r_budget].
    destruct (p_budget p) as [b|]; cbn [truthy_Q or_default].
    + apply budget_used. now apply Hd.
    + reflexivity.
  - cbn [r_tasks todo inProgress completed].
    fold (project_tasks projectId (store w)).
    cbv zeta. rewrite <- !count_status_occ.
    repeat split; try reflexivity.
    + apply bucket_sum_le.
    + apply bucket_sum_lt.
Qed.

Lemma report_figures_witness :
  no_db_fault quiet /\
  findProject tourism_id (store w0) = Some tourism /\
  double (50000 # 1) /\ double ((50000 # 1) * (1 # 2)) /\
  exists rep,
    res (getProjectReport quiet pm tourism_id w0) =
      Ret (json 200 (BReport rep)) /\
    (used (r_budget rep) == (50000 # 1) * (1 # 2))%Q /\
    todo (r_tasks rep) = 1%nat /\ inProgress (r_tasks rep) = 1%nat /\
    completed (r_tasks rep) = 0%nat.
Proof.
  assert (Hb : double (50000 # 1)).
  { exists 50000%Z, 1074%Z. split; [reflexivity|]. split; [lia|].
    vm_compute. reflexivity. }
  assert (Hh : double ((50000 # 1) * (1 # 2))).
  { exists 25000%Z, 1074%Z. split; [reflexivity|]. split; [lia|].
    vm_compute. reflexivity. }
  split; [intros n; reflexivity|]. split; [reflexivity|].
  split; [exact Hb|]. split; [exact Hh|].
  destruct (report_figures quiet pm tourism_id w0 tourism)
    as (rep & Hr & Hu & Ht & Hi & Hc & _).
  - intros n. reflexivity.
  - reflexivity.
  - intros b E. injection E as <-. exact Hb.
  - exists rep. split; [exact Hr|]. split; [exact (proj1 Hu Hh)|].
    repeat split; assumption.
Defined.



(** Every controller keeps the logs within the enum. *)
Lemma run_call_closed env user c w :
  Forall closed_action (logs (store w)) ->
  Forall closed_action (logs (store (world (run_call env user c w)))).
Proof.
  intros H.
  change (wp (run_call env user c) w
            (fun _ w' _ => Forall closed_action (logs (store w')))).
  destruct c as [m| | | | |]; [destruct m|..]; cbn [run_call run_mutation].
  - unfold createProject. wp_run; closed_chain.
  - unfold updateProject. wp_run; closed_chain.
  - unfold deleteProject. wp_run; closed_chain.
  - unfold createTask. wp_run; closed_chain.
  - unfold updateTask. wp_run; closed_chain.
  - unfold deleteTask. wp_run; closed_chain.
  - unfold addComment. wp_run; closed_chain.
  - unfold getProject. wp_run; closed_chain.
  - unfold getProjectLogs. wp_run; closed_chain.
  - unfold getAllProjectLogs. wp_run; closed_chain.
  - unfold getProjectReport. wp_run; closed_chain.
  - unfold deleteUser. wp_run; closed_chain.
Qed.

(** C9: in every database the application can get into, each stored
    log entry carries one of the twelve actions of the schema's enum. *)
Theorem persisted_actions_are_in_the_enum w :
  reachable w -> Forall closed_action (logs (store w)).
Proof.
  induction 1 as [s n E | w env user c _ IH | w env p u a d _ IH].
  - cbn. rewrite E. constructor.
  - now apply run_call_closed.
  - destruct (createProjectLog_run env p u a d w) as (r & ls & E & Ha).
    rewrite E. cbn. eapply appended_closed; eauto.
Qed.

Lemma persisted_actions_are_in_the_enum_witness :
  let w :=
    world (run_call quiet pm
             (CMutation (MUpdateProject tourism_id
                           (with_status "On Hold" no_body)))
             {| store := seeded; tick := 0 |}) in
  reachable w /\ map l_action (logs (store w)) = ["Status Changed"; "Updated"] /\
  Forall closed_action (logs (store w)).
Proof.
  cbv zeta.
  assert (R : reachable
                (world (run_call quiet pm
                          (CMutation (MUpdateProject tourism_id
                                        (with_status "On Hold" no_body)))
                          {| store := seeded; tick := 0 |})))
    by (apply reach_call, reach_init; reflexivity).
  split; [exact R|]. split; [vm_compute; reflexivity|].
  apply persisted_actions_are_in_the_enum. exact R.
Defined.

(** C10: a request that sets the progress of a project to 0 gets no
    "Progress Updated" entry, neither attempted nor stored, since the
    guard takes the requested 0 for absent; when the update goes
    through, the stored progress is 0 all the same. *)
Theorem progress_reset_is_not_logged env user id updates w p :
  findProject id (store w) = Some p ->
  b_progress updates = Some 0%Z ->
  p_progress p <> 0%Z ->
  let o := updateProject env user id updates w in
  attempted "Progress Updated" (trace o) = false /\
  grows_without "Progress Updated" (logs (store w)) (logs (store (world o))) /\
  (no_db_fault env -> validProject (assignProject p updates) = true ->
   exists p',
     res o = Ret (json 200 (BProject p')) /\
     findProject id (store (world o)) = Some p' /\
     p_progress p' = 0%Z).
Proof.
  intros Hp H0 Hnz.
  assert (Hpc : forall q, progressChanged q updates = false)
    by (intros q; unfold progressChanged; now rewrite H0).
  change (wp (updateProject env user id updates) w
    (fun r w' tr =>
       attempted "Progress Updated" tr = false /\
       grows_without "Progress Updated" (logs (store w)) (logs (store w')) /\
       (no_db_fault env -> validProject (assignProject p updates) = true ->
        exists p',
          r = Ret (json 200 (BProject p')) /\
          findProject id (store w') = Some p' /\
          p_progress p' = 0%Z))).
  unfold updateProject. wp_run; rewrite ?Hpc in *.
  all: split; [split_ifs; reflexivity | split].
  all: try solve [grow_chain "Progress Updated"].
  all: intros Hdb Hv; try (rewrite Hdb in *; discriminate);
    try discriminate; injection Hp as ->.
  all: try (exfalso; revert Hv;
            match goal with
            | H : validProject (set_lastUpdate _ _) = false |- _ =>
                unfold validProject in *; cbn in *; rewrite H; discriminate
            end).
  all: eexists; split; [reflexivity|]; split;
    [ unfold findProject; wp_simpl_all;
      apply find_replaceProject with (p := p);
      [ assumption | cbn; now apply findProject_id with (s := store w) ]
    | cbn [p_progress set_lastUpdate assignProject]; now rewrite H0 ].
Qed.

Lemma progress_reset_is_not_logged_witness :
  findProject tourism_id (store w0) = Some tourism /\
  b_progress (with_progress 0 no_body) = Some 0%Z /\
  p_progress tourism <> 0%Z /\
  let o := updateProject quiet pm tourism_id (with_progress 0 no_body) w0 in
  attempted "Progress Updated" (trace o) = false /\
  exists p',
    res o = Ret (json 200 (BProject p')) /\
    findProject tourism_id (store (world o)) = Some p' /\
    p_progress p' = 0%Z.
Proof.
  split; [reflexivity|]. split; [reflexivity|]. split; [discriminate|].
  cbv zeta.
  destruct (progress_reset_is_not_logged quiet pm tourism_id
              (with_progress 0 no_body) w0 tourism)
    as (Ha & _ & Hs); try reflexivity; try discriminate.
  split; [exact Ha|]. apply Hs; [intros n; reflexivity | reflexivity].
Defined.

(* ================================================================== *)
(** * Further properties of the handlers                                *)
(* ================================================================== *)

Import Requests.

(** ** Facts about the collections *)

Lemma findUser_id id s u : findUser id s = Some u -> u_id u = id.
Proof.
  unfold findUser. intros H. apply find_some in H. destruct H as [_ H].
  now apply String.eqb_eq in H.
Qed.

Lemma findTask_id id s t : findTask id s = Some t -> t_id t = id.
Proof.
  unfold findTask. intros H. apply find_some in H. destruct H as [_ H].
  now apply String.eqb_eq in H.
Qed.


Lemma findProject_In id s p : findProject id s = Some p -> In p (projects s).
Proof. unfold findProject. intros H. now apply find_some in H. Qed.

Lemma find_project_filter_gone id (ps : list Project) :
  find (fun q => String.eqb (p_id q) id)
       (filter (fun q => negb (String.eqb (p_id q) id)) ps) = None.
Proof.
  induction ps as [|x ps IH]; [reflexivity|]. cbn [filter].
  destruct (String.eqb (p_id x) id) eqn:E; cbn [negb find]; [assumption|].
  now rewrite E.
Qed.

Lemma find_task_filter_gone id (ts : list Task) :
  find (fun q => String.eqb (t_id q) id)
       (filter (fun q => negb (String.eqb (t_id q) id)) ts) = None.
Proof.
  induction ts as [|x ts IH]; [reflexivity|]. cbn [filter].
  destruct (String.eqb (t_id x) id) eqn:E; cbn [negb find]; [assumption|].
  now rewrite E.
Qed.

Lemma find_user_filter_gone id (us : list User) :
  find (fun q => String.eqb (u_id q) id)
       (filter (fun q => negb (String.eqb (u_id q) id)) us) = None.
Proof.
  induction us as [|x us IH]; [reflexivity|]. cbn [filter].
  destruct (String.eqb (u_id x) id) eqn:E; cbn [negb find]; [assumption|].
  now rewrite E.
Qed.

Lemma project_tasks_filter_gone id (ts : list Task) :
  filter (fun t => String.eqb (t_project t) id)
         (filter (fun q => negb (String.eqb (t_project q) id)) ts) = [].
Proof.
  induction ts as [|x ts IH]; [reflexivity|]. cbn [filter].
  destruct (String.eqb (t_project x) id) eqn:E; cbn [negb filter]; [assumption|].
  now rewrite E.
Qed.

Lemma In_filter_other {A} (f : A -> bool) (x : A) l :
  f x = true -> (In x (filter f l) <-> In x l).
Proof. intros H. rewrite filter_In. tauto. Qed.

Lemma filter_all {A} (l : list A) : filter (fun _ => true) l = l.
Proof. induction l; cbn; congruence. Qed.

Lemma find_replaceTask id ts t t' :
  find (fun q => String.eqb (t_id q) id) ts = Some t ->
  t_id t' = id ->
  find (fun q => String.eqb (t_id q) id) (replaceTask t' ts) = Some t'.
Proof.
  intros H E. subst id. induction ts as [|x ts IH]; [discriminate|].
  cbn [replaceTask map find] in *.
  destruct (String.eqb (t_id x) (t_id t')) eqn:Ex.
  - now rewrite String.eqb_refl.
  - rewrite Ex. now apply IH.
Qed.


Lemma In_replaceTask_other t' ts q :
  t_id q <> t_id t' -> (In q (replaceTask t' ts) <-> In q ts).
Proof.
  intros Hn. unfold replaceTask. rewrite in_map_iff. split.
  - intros (x & E & Hx). destruct (String.eqb (t_id x) (t_id t')) eqn:Ex.
    + subst q. contradiction.
    + now subst.
  - intros H. exists q. split; [|assumption].
    apply String.eqb_neq in Hn. now rewrite Hn.
Qed.

Lemma Forall_filter_keep {A} (P : A -> Prop) f (l : list A) :
  Forall P l -> Forall P (filter f l).
Proof.
  rewrite !Forall_forall. intros H x Hx. apply filter_In in Hx. now apply H.
Qed.

Lemma Forall_replaceProject (P : Project -> Prop) p ps :
  P p -> Forall P ps -> Forall P (replaceProject p ps).
Proof.
  intros Hp H. unfold replaceProject. apply Forall_map.
  eapply Forall_impl; [|exact H]. intros q Hq. cbn.
  destruct (String.eqb (p_id q) (p_id p)); assumption.
Qed.

Lemma Forall_replaceTask (P : Task -> Prop) t ts :
  P t -> Forall P ts -> Forall P (replaceTask t ts).
Proof.
  intros Hp H. unfold replaceTask. apply Forall_map.
  eapply Forall_impl; [|exact H]. intros q Hq. cbn.
  destruct (String.eqb (t_id q) (t_id t)); assumption.
Qed.

(** *** Tasks and their projects *)






(** *** Assignments *)

Lemma In_updateManyUsers u sel upd us :
  In u (updateManyUsers sel upd us) ->
  exists v, In v us /\ u = (if sel v then upd v else v).
Proof.
  unfold updateManyUsers. rewrite in_map_iff. intros (v & E & Hv). eauto.
Qed.

Lemma addToSet_holds pid u : In pid (u_assignedProjects (addToSet pid u)).
Proof.
  unfold addToSet. destruct (includes _ _) eqn:E.
  - now apply includes_In.
  - cbn. apply in_or_app. right. now left.
Qed.

Lemma addToSet_id pid u : u_id (addToSet pid u) = u_id u.
Proof. unfold addToSet. destruct (includes _ _); reflexivity. Qed.

Lemma pull_forgets pid u : ~ In pid (u_assignedProjects (pull pid u)).
Proof.
  unfold pull. cbn. rewrite filter_In. intros [_ H].
  now rewrite String.eqb_refl in H.
Qed.

Lemma pulled_everywhere pid us u :
  In u (updateManyUsers (fun u => includes (u_assignedProjects u) pid)
          (pull pid) us) ->
  ~ In pid (u_assignedProjects u).
Proof.
  intros H. apply In_updateManyUsers in H. destruct H as (v & _ & ->).
  destruct (includes (u_assignedProjects v) pid) eqn:Hi.
  - apply pull_forgets.
  - intros H. apply includes_In in H. congruence.
Qed.

(** The two [updateMany] calls of updateProject, one after the other. *)
Lemma sync_assignments pid team us u :
  In u (updateManyUsers (fun u => includes team (u_id u)) (addToSet pid)
          (updateManyUsers
             (fun u => includes (u_assignedProjects u) pid &&
                       negb (includes team (u_id u)))
             (pull pid) us)) ->
  (In pid (u_assignedProjects u) <-> In (u_id u) team).
Proof.
  intros H. apply In_updateManyUsers in H. destruct H as (v1 & H1 & ->).
  apply In_updateManyUsers in H1. destruct H1 as (v & _ & ->).
  destruct (includes team (u_id v)) eqn:Ht.
  - rewrite andb_false_r. rewrite Ht. rewrite addToSet_id.
    split; intros _; [now apply includes_In | apply addToSet_holds].
  - rewrite andb_true_r.
    assert (Hn : ~ In (u_id v) team).
    { intros Hin. apply includes_In in Hin. congruence. }
    destruct (includes (u_assignedProjects v) pid) eqn:Ha.
    + cbn [pull set_assigned u_id]. rewrite Ht. cbn [u_id].
      split; [intros Hp; now apply pull_forgets in Hp | tauto].
    + rewrite Ht. split; [|tauto].
      intros Hin. apply includes_In in Hin. congruence.
Qed.

Lemma assigned_to_team pid team us u :
  In u (updateManyUsers (fun u => includes team (u_id u)) (addToSet pid) us) ->
  In (u_id u) team -> In pid (u_assignedProjects u).
Proof.
  intros H Hin. apply In_updateManyUsers in H. destruct H as (v & _ & ->).
  destruct (includes team (u_id v)) eqn:Ht.
  - apply addToSet_holds.
  - apply includes_In in Hin. congruence.
Qed.

Lemma accounts_updateMany sel upd us :
  (forall u, account (upd u) = account u) ->
  map account (updateManyUsers sel upd us) = map account us.
Proof.
  intros H. unfold updateManyUsers. rewrite map_map. apply map_ext.
  intros u. destruct (sel u); auto.
Qed.

Lemma account_pull pid u : account (pull pid u) = account u.
Proof. reflexivity. Qed.

(** *** Membership *)

Lemma isTeamMember_In p u : isTeamMember p u = true <-> In (u_id u) (p_team p).
Proof.
  unfold isTeamMember. rewrite existsb_exists. split.
  - intros (x & Hx & E). apply String.eqb_eq in E. now subst.
  - intros H. exists (u_id u). split; [assumption | apply String.eqb_refl].
Qed.

(** The membership test of getProject runs on the populated team: the
    caller's id is in the team array and the account is stored. *)
Lemma populated_member s p uid :
  existsb (fun member => String.eqb (m_id member) uid) (populateTeam s p) = true
  <-> In uid (p_team p) /\ exists u, findUser uid s = Some u.
Proof.
  unfold populateTeam. rewrite existsb_exists. split.
  - intros (m & Hm & E). apply String.eqb_eq in E.
    apply in_flat_map in Hm. destruct Hm as (id & Hid & Hm).
    destruct (findUser id s) as [u|] eqn:F; [|contradiction].
    destruct Hm as [<- | []]. cbn in E. apply findUser_id in F as F'.
    subst uid. rewrite F'. eauto.
  - intros (Hin & u & F). eexists. split.
    + apply in_flat_map. exists uid. split; [assumption|]. rewrite F. now left.
    + cbn. apply findUser_id in F. rewrite F. apply String.eqb_refl.
Qed.

(** The populated team holds the stored members, in the order of the
    team array. *)
Lemma populated_ids s p :
  map m_id (populateTeam s p) =
  filter (fun id => defined (findUser id s)) (p_team p).
Proof.
  unfold populateTeam. induction (p_team p) as [|id ids IH]; [reflexivity|].
  cbn [flat_map filter]. rewrite map_app, IH.
  destruct (findUser id s) as [u|] eqn:E; cbn [defined map app m_id];
    [|reflexivity].
  now rewrite (findUser_id _ _ _ E).
Qed.

Lemma includes_one x y : includes [x] y = true -> y = x.
Proof.
  unfold includes. cbn. rewrite orb_false_r. apply String.eqb_eq.
Qed.

(** *** Guards and validation *)

Lemma last_comment_has_text t c :
  validTask (push_comment t c) = true -> c_text c <> "".
Proof.
  unfold validTask. intros H. apply andb_prop in H. destruct H as [_ H].
  cbn [t_comments push_comment] in H. rewrite forallb_app in H.
  apply andb_prop in H. destruct H as [_ H]. cbn in H.
  rewrite andb_true_r in H. apply negb_true_iff in H.
  now apply String.eqb_neq in H.
Qed.


(** *** Counting the tasks of the members *)

Lemma list_sum_zero {A} (l : list A) : list_sum (map (fun _ => 0%nat) l) = 0%nat.
Proof. unfold list_sum. induction l; cbn [map fold_right]; auto. Qed.

Lemma list_sum_add {A} (f g : A -> nat) l :
  list_sum (map (fun x => (f x + g x)%nat) l) =
  (list_sum (map f l) + list_sum (map g l))%nat.
Proof.
  unfold list_sum. induction l as [|x l IH]; cbn [map fold_right];
    [reflexivity | rewrite IH; lia].
Qed.

(** A task counts for one member at most when no member is listed
    twice. *)
Lemma one_assignee ids t :
  NoDup ids ->
  (list_sum (map (fun id => if assigned_to id t then 1 else 0) ids) <= 1)%nat.
Proof.
  intros Hn. unfold list_sum.
  induction Hn as [|x ids Hx Hn IH]; cbn [map fold_right]; [lia|].
  destruct (assigned_to x t) eqn:E; [|lia].
  assert (Z : fold_right Nat.add 0%nat
                (map (fun id => if assigned_to id t then 1 else 0)%nat ids)
              = 0%nat).
  { clear IH Hn. induction ids as [|y ids IH]; [reflexivity|].
    cbn [map fold_right].
    assert (assigned_to y t = false) as ->.
    { unfold assigned_to in *. destruct (t_assignee t); [|reflexivity].
      apply String.eqb_eq in E. subst. apply String.eqb_neq.
      intros ->. apply Hx. now left. }
    rewrite IH; [reflexivity|]. intros H. apply Hx. now right. }
  lia.
Qed.

Lemma member_counts_le pid st ids ts :
  NoDup ids ->
  (list_sum
     (map (fun id =>
             List.length
               (filter (fun t => String.eqb (t_project t) pid &&
                                 match t_assignee t with
                                 | Some a => String.eqb a id
                                 | None => false
                                 end && String.eqb (t_status t) st) ts)) ids)
   <= count_status st (filter (fun t => String.eqb (t_project t) pid) ts))%nat.
Proof.
  intros Hn. induction ts as [|t ts IH].
  - cbn. now rewrite list_sum_zero.
  - cbn [filter].
    rewrite (map_ext _ (fun id =>
               ((if String.eqb (t_project t) pid && String.eqb (t_status t) st
                 then (if assigned_to id t then 1 else 0) else 0) +
                List.length
                  (filter (fun t => String.eqb (t_project t) pid &&
                                    match t_assignee t with
                                    | Some a => String.eqb a id
                                    | None => false
                                    end && String.eqb (t_status t) st) ts))%nat)).
    2:{ intros id. unfold assigned_to.
        destruct (String.eqb (t_project t) pid), (String.eqb (t_status t) st);
          destruct (t_assignee t) as [a|]; cbn [andb];
          try destruct (String.eqb a id); reflexivity. }
    rewrite list_sum_add.
    destruct (String.eqb (t_project t) pid) eqn:Ep; cbn [andb].
    + rewrite count_status_cons.
      destruct (String.eqb (t_status t) st).
      * pose proof (one_assignee ids t Hn). unfold Id in *. lia.
      * rewrite list_sum_zero. unfold Id in *. lia.
    + rewrite list_sum_zero. unfold Id in *. lia.
Qed.

(** ** Facts about runs *)

Ltac no_fault Hdb :=
  try match goal with
      | H : db_fault _ _ = true |- _ => rewrite Hdb in H; discriminate H
      end.

Lemma bind_run {A B} (m : M A) (k : A -> M B) w a w1 t1 :
  m w = mkOut (Ret a) w1 t1 ->
  bind m k w = mkOut (res (k a w1)) (world (k a w1)) (t1 ++ trace (k a w1)).
Proof. intros E. unfold bind. now rewrite E. Qed.

Lemma db_read_run env {A} (f : Store -> A) w :
  db_fault env (tick w) = false ->
  db_read env f w = mkOut (Ret (f (store w))) (bump w) [].
Proof. intros E. unfold db_read, db_call. now rewrite E. Qed.

(** A sequence of reads run one after the other. *)
Lemma mapM_reads env {A B C} (g : A -> Store -> B) (h : A -> B -> C) l w :
  no_db_fault env ->
  mapM (fun a => bind (db_read env (g a)) (fun b => ret (h a b))) l w =
    mkOut (Ret (map (fun a => h a (g a (store w))) l))
          {| store := store w; tick := List.length l + tick w |} [].
Proof.
  intros Hdb. revert w. induction l as [|a l IH]; intros w.
  - destruct w; reflexivity.
  - cbn [mapM].
    erewrite bind_run;
      [|erewrite bind_run; [|apply db_read_run, Hdb]; reflexivity].
    erewrite bind_run; [|apply IH].
    cbn [res world trace ret bump store tick app map List.length].
    f_equal. f_equal. lia.
Qed.

Lemma grows_by_refl P ls : grows_by P ls ls.
Proof. exists []. now rewrite app_nil_r. Qed.

Lemma grows_by_trans P l1 l2 l3 :
  grows_by P l1 l2 -> grows_by P l2 l3 -> grows_by P l1 l3.
Proof.
  intros (n1 & -> & F1) (n2 & -> & F2). exists (n1 ++ n2).
  rewrite app_assoc. split; [reflexivity | now apply Forall_app].
Qed.

Lemma appended_written_by user p a d before after :
  appended p (Some (u_id user)) a d before after ->
  grows_by (written_by user) before after.
Proof.
  intros [-> | (l & -> & _ & Hu & _ & _ & Hv)].
  - apply grows_by_refl.
  - exists [l]. split; [reflexivity|]. constructor; [|constructor].
    split; [assumption|]. unfold closed_action.
    now apply includes_In.
Qed.

Lemma when_written_by user (b : bool) p a d before after :
  (if b then appended p (Some (u_id user)) a d before after
   else after = before) ->
  grows_by (written_by user) before after.
Proof.
  destruct b; [apply appended_written_by | intros ->; apply grows_by_refl].
Qed.

Ltac written_chain :=
  repeat match goal with
         | H : (if _ then appended _ _ _ _ _ _ else _ = _) |- _ =>
             apply when_written_by in H
         | H : appended _ _ _ _ _ _ |- _ =>
             apply appended_written_by in H
         end;
  eauto 8 using grows_by_trans, grows_by_refl.

Lemma appended_extends p u a d before after :
  appended p u a d before after -> exists rest, after = before ++ rest.
Proof.
  intros [-> | (x & -> & _)]; [exists []; now rewrite app_nil_r | eauto].
Qed.

(** An append that the schema accepts and the database takes. *)
Lemma createProjectLog_stores env p u a d w :
  no_log_fault env -> includes action_enum a = true ->
  exists l,
    createProjectLog env p u a d w =
      mkOut (Ret (Some l))
            {| store := set_logs (logs (store w) ++ [l]) (store w);
               tick := S (S (tick w)) |}
            [EvLogAttempt a] /\
    l_project l = p /\ l_user l = u /\ l_action l = a /\ l_details l = d.
Proof.
  intros Hl Ha.
  unfold createProjectLog, try_catch, bind, new_id, now, ProjectLog_save, ret.
  cbn [res world trace bump tick store l_action].
  unfold validProjectLog. cbn [l_action]. rewrite Ha, Hl.
  cbn [andb negb res world trace app set_store bump tick store].
  eexists. split; [reflexivity|]. cbn. auto.
Qed.

(** [createProjectLog] hands back the entry only when it is stored. *)
Lemma createProjectLog_some env p u a d w l :
  res (createProjectLog env p u a d w) = Ret (Some l) ->
  store (world (createProjectLog env p u a d w)) =
    set_logs (logs (store w) ++ [l]) (store w) /\
  l_project l = p /\ l_user l = u /\ l_action l = a /\ l_details l = d /\
  In a action_enum.
Proof.
  unfold createProjectLog, try_catch, bind, new_id, now, ProjectLog_save, ret.
  cbn [res world trace bump tick store l_action].
  destruct (validProjectLog _ && negb _) eqn:E;
    cbn [res world trace app set_store bump tick store]; [|discriminate].
  intros H. injection H as <-. cbn [l_project l_user l_action l_details].
  apply andb_prop in E. destruct E as [E _].
  unfold validProjectLog in E. cbn [l_action] in E. apply includes_In in E.
  auto 6.
Qed.

(** What the project-scoped query answers when the database does. *)
Lemma getProjectLogs_run env user projectId w :
  no_db_fault env ->
  res (getProjectLogs env user projectId w) =
    Ret (json 200
           (BLogs (map (populateLog (store w))
                       (sort_desc
                          (filter (fun l => String.eqb (l_project l) projectId)
                                  (logs (store w))))))).
Proof.
  intros Hdb.
  change (wp (getProjectLogs env user projectId) w
            (fun r0 _ _ => r0 =
    Ret (json 200
           (BLogs (map (populateLog (store w))
                       (sort_desc
                          (filter (fun l => String.eqb (l_project l) projectId)
                                  (logs (store w))))))))).
  unfold getProjectLogs. wp_run; no_fault Hdb. reflexivity.
Qed.

(** What getProject answers when the database does. *)
Lemma getProject_run env user id w p :
  no_db_fault env -> findProject id (store w) = Some p ->
  res (getProject env user id w) =
    Ret (if negb (isAdminOrPM user) &&
            negb (existsb (fun member => String.eqb (m_id member) (u_id user))
                          (populateTeam (store w) p))
         then message 403 "Access denied"
         else json 200 (BProjectTeam p (populateTeam (store w) p))) /\
  store (world (getProject env user id w)) = store w.
Proof.
  intros Hdb Hf.
  change (wp (getProject env user id) w
            (fun r0 w' _ =>
               r0 = Ret (if negb (isAdminOrPM user) &&
                            negb (existsb (fun member =>
                                             String.eqb (m_id member) (u_id user))
                                          (populateTeam (store w) p))
                         then message 403 "Access denied"
                         else json 200 (BProjectTeam p (populateTeam (store w) p)))
               /\ store w' = store w)).
  unfold getProject. apply wp_try, wp_bind. unfold Project_findById.
  apply wp_db_read; intros Hd; [rewrite Hdb in Hd; discriminate|].
  rewrite Hf. apply wp_bind.
  apply wp_db_read; intros Hd'; [rewrite Hdb in Hd'; discriminate|].
  wp_simpl_all. destruct (negb _ && negb _); apply wp_ret; auto.
Qed.

(** The database after a deletion that was answered with 204. *)
Lemma deleteProject_done env user id w r :
  res (deleteProject env user id w) = Ret r -> status r = 204%nat ->
  let s' := store (world (deleteProject env user id w)) in
  projects s' =
    filter (fun q => negb (String.eqb (p_id q) id)) (projects (store w)) /\
  tasks s' =
    filter (fun q => negb (String.eqb (t_project q) id)) (tasks (store w)) /\
  users s' =
    updateManyUsers (fun u => includes (u_assignedProjects u) id) (pull id)
      (users (store w)) /\
  exists rest, logs s' = logs (store w) ++ rest.
Proof.
  revert r. cbv zeta.
  change (wp (deleteProject env user id) w
            (fun r0 w' _ => forall r, r0 = Ret r -> status r = 204%nat ->
  projects (store w') =
    filter (fun q => negb (String.eqb (p_id q) id)) (projects (store w)) /\
  tasks (store w') =
    filter (fun q => negb (String.eqb (t_project q) id)) (tasks (store w)) /\
  users (store w') =
    updateManyUsers (fun u => includes (u_assignedProjects u) id) (pull id)
      (users (store w)) /\
  exists rest, logs (store w') = logs (store w) ++ rest)).
  unfold deleteProject. wp_run;
    intros rr EE HH; injection EE as <-; try discriminate HH.
  match goal with H : findProject _ _ = Some _ |- _ =>
    pose proof (findProject_id _ _ _ H) as Hid end.
  rewrite Hid. repeat (split; [reflexivity|]).
  eapply appended_extends; eassumption.
Qed.

(** middlewares/auth.js, case by case: the request is answered 401 and
    nothing has happened, or the token names a stored account and the
    rest of the route runs for it. *)
Lemma authMiddleware_cases env token next w :
  (exists r n,
     authMiddleware env token next w =
       mkOut (Ret r) {| store := store w; tick := n |} [] /\
     status r = 401%nat) \/
  (exists tok uid user,
     token = Some tok /\ tok <> "" /\ jwt_verify env tok = Some uid /\
     findUser uid (store w) = Some user /\
     authMiddleware env token next w = next user (bump w)).
Proof.
  unfold authMiddleware. destruct token as [tok|]; cbn [truthy_str negb].
  2:{ left. exists (message 401 "No token, authorization denied"), (tick w).
      destruct w; auto. }
  destruct (String.eqb tok "") eqn:Et; cbn [negb or_default].
  { left. exists (message 401 "No token, authorization denied"), (tick w).
    destruct w; auto. }
  apply String.eqb_neq in Et.
  destruct (jwt_verify env tok) as [uid|] eqn:Ej.
  2:{ left. exists (message 401 "Invalid token"), (tick w).
      destruct w; auto. }
  unfold bind, try_catch, User_findById, db_read, db_call, throw, ret.
  destruct (db_fault env (tick w)) eqn:Ed; cbn [res world trace app].
  { left. exists (message 401 "Invalid token"), (S (tick w)). auto. }
  cbn [fst snd]. destruct (findUser uid (store w)) as [u|] eqn:Eu;
    cbn [res world trace app].
  - right. exists tok, uid, u.
    repeat (split; [first [assumption | reflexivity]|]).
    unfold set_store. cbn [bump tick store].
    change {| store := store w; tick := S (tick w) |} with (bump w).
    destruct (next u (bump w)); reflexivity.
  - left. exists (message 401 "User not found"), (S (tick w)). auto.
Qed.

Ltac schema_leaf :=
  unfold schema_ok in *; wp_simpl_all;
  match goal with H : _ /\ _ |- _ => destruct H end;
  split;
  repeat first
    [ assumption
    | apply Forall_app; split
    | apply Forall_replaceProject
    | apply Forall_replaceTask
    | apply Forall_filter_keep
    | apply Forall_cons
    | apply Forall_nil ].


(** The answer of a mutation handler, its code and its write. *)
Ltac answer_leaf :=
  eexists; split; [reflexivity|]; cbn [status json message]; split;
  [ cbn; tauto
  | let Hs := fresh "Hs" in
    intros Hs; first [lia | rewrite ?in_app_iff; cbn; tauto] ].

(** ** What every controller keeps *)

(** X1: every controller run keeps the stored projects and tasks within
    their schemas, whatever fails on the way: [save()] validates before
    it writes.  In particular a stored progress stays between 0 and 100
    and a stored status within the enum. *)
Theorem stored_documents_pass_their_schema env user c w :
  schema_ok (store w) ->
  schema_ok (store (world (run_call env user c w))) /\
  forall p, In p (projects (store (world (run_call env user c w)))) ->
    (0 <= p_progress p <= 100)%Z /\ In (p_status p) project_status_enum.
Proof.
  intros H.
  assert (G : schema_ok (store (world (run_call env user c w)))).
  { change (wp (run_call env user c) w (fun _ w' _ => schema_ok (store w'))).
    destruct c as [m| | | | |]; [destruct m|..]; cbn [run_call run_mutation].
    - unfold createProject. wp_run; schema_leaf.
    - unfold updateProject. wp_run; schema_leaf.
    - unfold deleteProject. wp_run; schema_leaf.
    - unfold createTask. wp_run; schema_leaf.
    - unfold updateTask. wp_run; schema_leaf.
    - unfold deleteTask. wp_run; schema_leaf.
    - unfold addComment. wp_run; schema_leaf.
    - unfold getProject. wp_run; schema_leaf.
    - unfold getProjectLogs. wp_run; schema_leaf.
    - unfold getAllProjectLogs. wp_run; schema_leaf.
    - unfold getProjectReport. wp_run; schema_leaf.
    - unfold deleteUser. wp_run; schema_leaf. }
  split; [exact G|].
  intros p Hp. destruct G as [G _]. rewrite Forall_forall in G.
  specialize (G p Hp). unfold validProject in G.
  repeat (apply andb_prop in G; destruct G as [G ?]).
  split; [lia|]. now apply includes_In.
Qed.

Lemma stored_documents_pass_their_schema_witness :
  schema_ok (store w0) /\
  schema_ok
    (store (world (run_call quiet pm
                     (CMutation (MUpdateProject tourism_id
                                   (with_progress 55 no_body))) w0))).
Proof.
  assert (H : schema_ok (store w0)) by (split; repeat constructor).
  split; [exact H|].
  exact (proj1 (stored_documents_pass_their_schema quiet pm
                  (CMutation (MUpdateProject tourism_id
                                (with_progress 55 no_body))) w0 H)).
Defined.



(** X3: the log is append-only.  Whatever a controller does, the entries
    stored before are still there, in place and unchanged, and what it
    has added carries the caller as user and an action of the enum. *)
Theorem logs_only_grow env user c w :
  grows_by (written_by user)
    (logs (store w)) (logs (store (world (run_call env user c w)))).
Proof.
  change (wp (run_call env user c) w
            (fun _ w' _ =>
               grows_by (written_by user) (logs (store w)) (logs (store w')))).
  destruct c as [m| | | | |]; [destruct m|..]; cbn [run_call run_mutation].
  - unfold createProject. wp_run; written_chain.
  - unfold updateProject. wp_run; written_chain.
  - unfold deleteProject. wp_run; written_chain.
  - unfold createTask. wp_run; written_chain.
  - unfold updateTask. wp_run; written_chain.
  - unfold deleteTask. wp_run; written_chain.
  - unfold addComment. wp_run; written_chain.
  - unfold getProject. wp_run; written_chain.
  - unfold getProjectLogs. wp_run; written_chain.
  - unfold getAllProjectLogs. wp_run; written_chain.
  - unfold getProjectReport. wp_run; written_chain.
  - unfold deleteUser. wp_run; written_chain.
Qed.

(** X4: a mutation handler that answers 403 or 404 has done nothing:
    the four collections are as before, the log included, and no write
    was attempted. *)
Theorem refusal_has_no_effect env user m w r :
  res (run_mutation env user m w) = Ret r ->
  status r = 403%nat \/ status r = 404%nat ->
  store (world (run_mutation env user m w)) = store w /\
  trace (run_mutation env user m w) = [].
Proof.
  revert r.
  change (wp (run_mutation env user m) w
            (fun r0 w' tr => forall r, r0 = Ret r ->
               status r = 403%nat \/ status r = 404%nat ->
               store w' = store w /\ tr = [])).
  destruct m; cbn [run_mutation].
  - unfold createProject. wp_run;
      intros rr EE [HH|HH]; injection EE as <-; try discriminate HH; auto.
  - unfold updateProject. wp_run;
      intros rr EE [HH|HH]; injection EE as <-; try discriminate HH; auto.
  - unfold deleteProject. wp_run;
      intros rr EE [HH|HH]; injection EE as <-; try discriminate HH; auto.
  - unfold createTask. wp_run;
      intros rr EE [HH|HH]; injection EE as <-; try discriminate HH; auto.
  - unfold updateTask. wp_run;
      intros rr EE [HH|HH]; injection EE as <-; try discriminate HH; auto.
  - unfold deleteTask. wp_run;
      intros rr EE [HH|HH]; injection EE as <-; try discriminate HH; auto.
  - unfold addComment. wp_run;
      intros rr EE [HH|HH]; injection EE as <-; try discriminate HH; auto.
Qed.

Lemma refusal_has_no_effect_witness :
  res (run_mutation quiet collab (MUpdateTask (t_id medina) no_task_body) w0) =
    Ret (message 403 "Access denied") /\
  store (world (run_mutation quiet collab
                  (MUpdateTask (t_id medina) no_task_body) w0)) = store w0.
Proof.
  split; [reflexivity|].
  exact (proj1 (refusal_has_no_effect quiet collab
                  (MUpdateTask (t_id medina) no_task_body) w0
                  (message 403 "Access denied") eq_refl
                  (or_introl eq_refl))).
Defined.

(** X5: every mutation handler answers, with one of the statuses its
    code sends; and when the status is a success, the write the handler
    is there for has been made. *)
Theorem success_means_written env user m w :
  exists r,
    res (run_mutation env user m w) = Ret r /\
    In (status r) (codes m) /\
    ((status r < 300)%nat ->
     In (commit_of m) (trace (run_mutation env user m w))).
Proof.
  change (wp (run_mutation env user m) w
            (fun r0 _ tr => exists r, r0 = Ret r /\ In (status r) (codes m) /\
               ((status r < 300)%nat -> In (commit_of m) tr))).
  destruct m; cbn [run_mutation codes commit_of].
  - unfold createProject. wp_run; answer_leaf.
  - unfold updateProject. wp_run; answer_leaf.
  - unfold deleteProject. wp_run; answer_leaf.
  - unfold createTask. wp_run; answer_leaf.
  - unfold updateTask. wp_run; answer_leaf.
  - unfold deleteTask. wp_run; answer_leaf.
  - unfold addComment. wp_run; answer_leaf.
Qed.

(** ** Projects *)

(** X6: a createProject answered with 201 has stored the project it
    returns, at the end of the collection and valid under the schema,
    with the caller as creator and the team of the body; every stored
    account of that team has the project among its assignments.  Tasks
    are not touched. *)
Theorem createProject_stores_and_assigns env user b w r :
  res (createProject env user b w) = Ret r -> status r = 201%nat ->
  let s' := store (world (createProject env user b w)) in
  exists p,
    body r = BProject p /\ validProject p = true /\
    p_createdBy p = u_id user /\ p_team p = or_default (b_team b) [] /\
    projects s' = projects (store w) ++ [p] /\
    tasks s' = tasks (store w) /\
    (forall u, In u (users s') -> In (u_id u) (p_team p) ->
       In (p_id p) (u_assignedProjects u)).
Proof.
  revert r. cbv zeta.
  change (wp (createProject env user b) w
            (fun r0 w' _ => forall r, r0 = Ret r -> status r = 201%nat ->
  exists p,
    body r = BProject p /\ validProject p = true /\
    p_createdBy p = u_id user /\ p_team p = or_default (b_team b) [] /\
    projects (store w') = projects (store w) ++ [p] /\
    tasks (store w') = tasks (store w) /\
    (forall u, In u (users (store w')) -> In (u_id u) (p_team p) ->
       In (p_id p) (u_assignedProjects u)))).
  unfold createProject. wp_run;
    intros rr EE HH; injection EE as <-; try discriminate HH;
    eexists; (split; [reflexivity|]); (split; [assumption|]);
    match goal with H : newProject _ _ _ _ = Some _ |- _ =>
      unfold newProject in H; destruct (b_startDate b); [|discriminate H];
      injection H as <- end; cbn [p_createdBy p_team p_id];
    (split; [reflexivity|]);
    (split; [first [reflexivity
                   | match goal with H : b_team b = _ |- _ =>
                       now rewrite H end]|]);
    (split; [reflexivity|]); (split; [reflexivity|]);
    try match goal with H : b_team b = _ |- _ => rewrite H end;
    cbn [or_default];
    intros u; first [apply assigned_to_team | intros _ []].
Qed.

Lemma createProject_stores_and_assigns_witness :
  exists p,
    p_name p = "Sousse Port Logistics" /\ p_createdBy p = pm_id /\
    projects (store (world (createProject quiet pm sousse_body w0))) =
      projects (store w0) ++ [p] /\
    forall u, In u (users (store (world (createProject quiet pm sousse_body w0))))
              -> In (u_id u) [admin_id; collab_id] ->
              In (p_id p) (u_assignedProjects u).
Proof.
  destruct (createProject_stores_and_assigns quiet pm sousse_body w0 _
              eq_refl eq_refl) as (p & Eb & _ & Ec & Et & Ep & _ & Ha).
  exists p. injection Eb as <-.
  split; [reflexivity|]. split; [exact Ec|]. split; [exact Ep|]. exact Ha.
Defined.

(** X7: a body from which no project can be built that the schema
    accepts (no start date, no name, a progress out of range, ...) gets
    500 "Server error" from createProject, and nothing is written. *)
Theorem createProject_rejects_invalid env user b w :
  (forall id t p, newProject id t (u_id user) b = Some p ->
                  validProject p = false) ->
  res (createProject env user b w) = Ret (message 500 "Server error") /\
  store (world (createProject env user b w)) = store w /\
  trace (createProject env user b w) = [].
Proof.
  intros Hb.
  change (wp (createProject env user b) w
            (fun r0 w' tr => r0 = Ret (message 500 "Server error") /\
                             store w' = store w /\ tr = [])).
  unfold createProject. wp_run; auto;
    match goal with H : newProject _ _ _ _ = Some _ |- _ =>
      apply Hb in H; congruence end.
Qed.

Lemma createProject_rejects_invalid_witness :
  b_startDate (with_status "Active" no_body) = None /\
  res (createProject quiet pm (with_status "Active" no_body) w0) =
    Ret (message 500 "Server error") /\
  store (world (createProject quiet pm (with_status "Active" no_body) w0)) =
    store w0.
Proof.
  split; [reflexivity|].
  assert (H : forall id t p,
             newProject id t (u_id pm) (with_status "Active" no_body) = Some p ->
             validProject p = false)
    by (intros id t p E; discriminate E).
  destruct (createProject_rejects_invalid quiet pm
              (with_status "Active" no_body) w0 H) as (A & B & _).
  split; assumption.
Defined.

(** X8: after an updateProject with a team in the body that was
    answered with 200, the assignments of the accounts agree with the
    new team: a stored account lists the project exactly when it is in
    the team. *)
Theorem updateProject_syncs_assignments env user id updates team w r :
  b_team updates = Some team ->
  res (updateProject env user id updates w) = Ret r -> status r = 200%nat ->
  forall u, In u (users (store (world (updateProject env user id updates w)))) ->
    (In id (u_assignedProjects u) <-> In (u_id u) team).
Proof.
  intros Ht. revert r.
  change (wp (updateProject env user id updates) w
            (fun r0 w' _ => forall r, r0 = Ret r -> status r = 200%nat ->
               forall u, In u (users (store w')) ->
                 (In id (u_assignedProjects u) <-> In (u_id u) team))).
  unfold updateProject. rewrite Ht. wp_run;
    intros rr EE HH; injection EE as <-; try discriminate HH.
  match goal with H : findProject _ _ = Some _ |- _ =>
    pose proof (findProject_id _ _ _ H) as Hid end.
  cbn [p_id set_lastUpdate assignProject]. rewrite Hid.
  intros u. apply sync_assignments.
Qed.

Lemma updateProject_syncs_assignments_witness :
  let o := updateProject quiet pm tourism_id (with_team [admin_id] no_body) w0 in
  In tourism_id (u_assignedProjects collab) /\
  forall u, In u (users (store (world o))) ->
    (In tourism_id (u_assignedProjects u) <-> In (u_id u) [admin_id]).
Proof.
  cbv zeta. split; [now left|].
  exact (updateProject_syncs_assignments quiet pm tourism_id
           (with_team [admin_id] no_body) [admin_id] w0 _
           eq_refl eq_refl eq_refl).
Defined.

(** X9: an update that the schema rejects (a status outside the enum,
    a progress above 100, ...) is answered with 500 and changes no
    project, task or user.  The log is another matter: when the update
    asked for another status, the "Status Changed" entry for the change
    that was not made is stored all the same. *)
Theorem updateProject_rejected_by_schema env user id updates w p :
  findProject id (store w) = Some p ->
  validProject (assignProject p updates) = false ->
  let o := updateProject env user id updates w in
  res o = Ret (message 500 "Server error") /\
  entities (store (world o)) = entities (store w) /\
  (statusChanged p updates = true -> no_db_fault env -> no_log_fault env ->
   exists l rest,
     logs (store (world o)) = logs (store w) ++ l :: rest /\
     l_action l = "Status Changed" /\ l_project l = id /\
     l_details l = DFromTo (VStr (p_status p))
                           (val_of_opt_str (b_status updates))).
Proof.
  intros Hf Hv. cbv zeta.
  assert (G : wp (updateProject env user id updates) w
                (fun r0 w' _ => r0 = Ret (message 500 "Server error") /\
                                entities (store w') = entities (store w))).
  { unfold updateProject. wp_run; auto;
      try match goal with
          | H : validProject (set_lastUpdate _ _) = true |- _ =>
              rewrite validProject_lastUpdate in H
          end; congruence. }
  destruct G as [G1 G2]. split; [exact G1|]. split; [exact G2|].
  intros Hs Hdb Hlog.
  change (wp (updateProject env user id updates) w
            (fun _ w' _ => exists l rest,
               logs (store w') = logs (store w) ++ l :: rest /\
               l_action l = "Status Changed" /\ l_project l = id /\
               l_details l = DFromTo (VStr (p_status p))
                                     (val_of_opt_str (b_status updates)))).
  unfold updateProject. apply wp_try, wp_bind. unfold Project_findById.
  apply wp_db_read; intros Hd; [rewrite Hdb in Hd; discriminate|].
  rewrite Hf, Hs. apply wp_bind. unfold when at 1. apply wp_bind.
  destruct (createProjectLog_stores env (p_id p) (Some (u_id user))
              "Status Changed"
              (DFromTo (VStr (p_status p)) (val_of_opt_str (b_status updates)))
              (bump w) Hlog eq_refl) as (l & E & Hp & _ & Ha & Hdt).
  unfold wp at 1. rewrite E. cbn [res world trace].
  apply findProject_id in Hf.
  wp_run;
    try match goal with
        | H : validProject (set_lastUpdate _ _) = true |- _ =>
            rewrite validProject_lastUpdate in H; congruence
        end;
    match goal with
    | H : (if ?b then appended _ _ _ _ _ _ else _ = _) |- _ =>
        destruct b; [apply appended_extends in H; destruct H as (rest & ->)
                    | subst; exists l, []];
        [exists l, rest; rewrite <- app_assoc|]
    end; repeat split; try assumption; try congruence; reflexivity.
Qed.

Lemma updateProject_rejected_by_schema_witness :
  let o := updateProject quiet pm tourism_id (with_status "Cancelled" no_body)
             w0 in
  res o = Ret (message 500 "Server error") /\
  projects (store (world o)) = projects (store w0) /\
  exists l rest,
    logs (store (world o)) = logs (store w0) ++ l :: rest /\
    l_action l = "Status Changed" /\
    l_details l = DFromTo (VStr "Active") (VStr "Cancelled").
Proof.
  cbv zeta.
  destruct (updateProject_rejected_by_schema quiet pm tourism_id
              (with_status "Cancelled" no_body) w0 tourism eq_refl eq_refl)
    as (A & B & C).
  split; [exact A|]. split; [unfold entities in B; congruence|].
  destruct (C eq_refl (fun _ => eq_refl) (fun _ => eq_refl))
    as (l & rest & El & Ea & _ & Ed).
  exists l, rest. auto.
Defined.



(** X11: after a deleteProject answered with 204 the project is gone,
    no task of it is left, and no account lists it any more. *)
Theorem deleteProject_cascades env user id w r :
  res (deleteProject env user id w) = Ret r -> status r = 204%nat ->
  let s' := store (world (deleteProject env user id w)) in
  findProject id s' = None /\
  project_tasks id s' = [] /\
  (forall u, In u (users s') -> ~ In id (u_assignedProjects u)).
Proof.
  intros Hr Hs. cbv zeta.
  destruct (deleteProject_done env user id w r Hr Hs) as (Ep & Et & Eu & _).
  unfold findProject, project_tasks. rewrite Ep, Et, Eu.
  split; [apply find_project_filter_gone|].
  split; [apply project_tasks_filter_gone|].
  intros u. apply pulled_everywhere.
Qed.

Lemma deleteProject_cascades_witness :
  let s' := store (world (deleteProject quiet admin tourism_id w0)) in
  project_tasks tourism_id (store w0) = [carthage; medina] /\
  findProject tourism_id s' = None /\ project_tasks tourism_id s' = [].
Proof.
  cbv zeta. split; [reflexivity|].
  destruct (deleteProject_cascades quiet admin tourism_id w0 _
              eq_refl eq_refl) as (A & B & _).
  split; assumption.
Defined.

(** X12: whatever happens in a deleteProject, the other projects and
    the tasks of other projects are as before, and the accounts keep
    their id, name, email and role. *)
Theorem deleteProject_spares_the_rest env user id w :
  let s' := store (world (deleteProject env user id w)) in
  (forall q, p_id q <> id -> (In q (projects s') <-> In q (projects (store w)))) /\
  (forall t, t_project t <> id -> (In t (tasks s') <-> In t (tasks (store w)))) /\
  map account (users s') = map account (users (store w)).
Proof.
  cbv zeta.
  change (wp (deleteProject env user id) w
            (fun _ w' _ =>
  (forall q, p_id q <> id ->
     (In q (projects (store w')) <-> In q (projects (store w)))) /\
  (forall t, t_project t <> id ->
     (In t (tasks (store w')) <-> In t (tasks (store w)))) /\
  map account (users (store w')) = map account (users (store w)))).
  unfold deleteProject. wp_run;
    try match goal with H : findProject _ _ = Some _ |- _ =>
      pose proof (findProject_id _ _ _ H) as Hid; try rewrite Hid end;
    (split; [|split]);
    try (intros q Hq; try (apply In_filter_other; apply negb_true_iff;
                      now apply String.eqb_neq); reflexivity);
    try reflexivity;
    try (apply accounts_updateMany; intros; apply account_pull).
Qed.

(** X13: when the database answers, getProject shows a stored project
    to Administrators and Project Managers and to the members of its
    team whose account is stored, and answers 403 to everyone else; it
    writes nothing. *)
Theorem getProject_access env user id w p :
  no_db_fault env -> findProject id (store w) = Some p ->
  exists r,
    res (getProject env user id w) = Ret r /\
    store (world (getProject env user id w)) = store w /\
    (status r = 200%nat \/ status r = 403%nat) /\
    (status r = 200%nat <->
     isAdminOrPM user = true \/
     (In (u_id user) (p_team p) /\
      exists u, findUser (u_id user) (store w) = Some u)).
Proof.
  intros Hdb Hf. destruct (getProject_run env user id w p Hdb Hf) as [E Es].
  eexists. split; [exact E|]. split; [exact Es|].
  rewrite <- populated_member.
  destruct (isAdminOrPM user); cbn [negb andb status json message];
    [split; [now left | split; auto]|].
  destruct (existsb _ _); cbn [negb status json message].
  - split; [now left|]. split; auto.
  - split; [now right|]. split; [discriminate|]. intros [H|H]; discriminate.
Qed.

Lemma getProject_access_witness :
  no_db_fault quiet /\ isTeamMember olive collab = false /\
  exists r, res (getProject quiet collab olive_id w0) = Ret r /\
            (status r = 200%nat \/ status r = 403%nat).
Proof.
  assert (H : no_db_fault quiet) by (intros n; reflexivity).
  split; [exact H|]. split; [reflexivity|].
  destruct (getProject_access quiet collab olive_id w0 olive H eq_refl)
    as (r & E & _ & Hs & _).
  exists r. split; assumption.
Defined.

(** X14: for a caller whose account is stored, the list of getProjects
    and the access rule of getProject agree: a stored project is listed
    exactly when getProject would show it, and it is listed with the
    populated team getProject would send. *)
Theorem listed_projects_are_the_readable_ones env user w :
  no_db_fault env -> stored_user user (store w) ->
  exists listed,
    res (getProjects env user w) = Ret (Sent 200 listed) /\
    store (world (getProjects env user w)) = store w /\
    (forall p team, In (p, team) listed -> team = populateTeam (store w) p) /\
    (forall p, findProject (p_id p) (store w) = Some p ->
       (In p (map fst listed) <->
        exists r, res (getProject env user (p_id p) w) = Ret r /\
                  status r = 200%nat)).
Proof.
  intros Hdb Hu.
  assert (G : forall p, findProject (p_id p) (store w) = Some p ->
     ((exists r, res (getProject env user (p_id p) w) = Ret r /\
                 status r = 200%nat) <->
      isAdminOrPM user = true \/ In (u_id user) (p_team p))).
  { intros p Hf. destruct (getProject_run env user _ w p Hdb Hf) as [E _].
    rewrite E. split.
    - intros (r & Er & Hs). injection Er as <-.
      destruct (isAdminOrPM user); [now left|]. right.
      destruct (existsb _ _) eqn:Em; [|discriminate Hs].
      now apply populated_member in Em.
    - intros H. eexists. split; [reflexivity|].
      destruct H as [-> | H]; [reflexivity|].
      assert (Em : existsb (fun member => String.eqb (m_id member) (u_id user))
                     (populateTeam (store w) p) = true).
      { apply populated_member. split; [assumption|]. exists user. exact Hu. }
      rewrite Em, andb_false_r. reflexivity. }
  change (wp (getProjects env user) w
            (fun r0 w' _ => exists listed,
               r0 = Ret (Sent 200 listed) /\ store w' = store w /\
               (forall p team, In (p, team) listed ->
                               team = populateTeam (store w) p) /\
               (forall p, findProject (p_id p) (store w) = Some p ->
                  (In p (map fst listed) <->
                   exists r, res (getProject env user (p_id p) w) = Ret r /\
                             status r = 200%nat)))).
  unfold getProjects. wp_run; no_fault Hdb;
    (eexists; split; [reflexivity|]; split; [reflexivity|]; split;
     [ intros p team Hin; apply in_map_iff in Hin;
       destruct Hin as (q & E & _); now injection E as <- <-
     | intros p Hf; rewrite (G p Hf), map_map; cbn [fst]; rewrite map_id ]).
  - split; [now left | intros _]. now apply findProject_In in Hf.
  - rewrite filter_In, includes_In. split; [tauto|].
    intros [Hr|Hr]; [congruence|]. split; [|assumption].
    now apply findProject_In in Hf.
Qed.

Lemma listed_projects_are_the_readable_ones_witness :
  stored_user collab (store w0) /\
  exists listed,
    res (getProjects quiet collab w0) = Ret (Sent 200 listed) /\
    (In olive (map fst listed) <->
     exists r, res (getProject quiet collab (p_id olive) w0) = Ret r /\
               status r = 200%nat).
Proof.
  split; [reflexivity|].
  destruct (listed_projects_are_the_readable_ones quiet collab w0
              (fun _ => eq_refl) eq_refl) as (listed & E & _ & _ & H).
  exists listed. split; [exact E|]. exact (H olive eq_refl).
Defined.

(** ** Tasks *)

(** X15: when the database answers, getTasks hands every task of a
    stored project to Administrators, Project Managers and the members
    of its team, the tasks assigned to others included, and answers 403
    to everyone else; the query restricted to the caller's own tasks is
    never run.  Nothing is written. *)
Theorem team_members_see_all_tasks env user projectId w p :
  no_db_fault env -> findProject projectId (store w) = Some p ->
  let o := getTasks env user projectId w in
  store (world o) = store w /\
  (isAdminOrPM user = true \/ In (u_id user) (p_team p) ->
   exists listed,
     res o = Ret (Sent 200 listed) /\
     map (fun x => fst (fst x)) listed = project_tasks projectId (store w)) /\
  (isAdminOrPM user = false -> ~ In (u_id user) (p_team p) ->
   res o = Ret (Refused 403 "Access denied")).
Proof.
  intros Hdb Hf. cbv zeta. rewrite <- isTeamMember_In.
  change (wp (getTasks env user projectId) w
            (fun r0 w' _ =>
  store w' = store w /\
  (isAdminOrPM user = true \/ isTeamMember p user = true ->
   exists listed,
     r0 = Ret (Sent 200 listed) /\
     map (fun x => fst (fst x)) listed = project_tasks projectId (store w)) /\
  (isAdminOrPM user = false -> isTeamMember p user <> true ->
   r0 = Ret (Refused 403 "Access denied")))).
  unfold getTasks. apply wp_try, wp_bind. unfold Project_findById.
  apply wp_db_read; intros Hd; [rewrite Hdb in Hd; discriminate|].
  rewrite Hf. cbv zeta.
  destruct (isAdminOrPM user) eqn:Ea; cbn [negb andb orb].
  - wp_run; no_fault Hdb. split; [reflexivity|]. split; [|discriminate].
    intros _. eexists. split; [reflexivity|].
    rewrite map_map. cbn [fst]. now rewrite map_id.
  - destruct (isTeamMember p user) eqn:Et; cbn [negb].
    + wp_run; no_fault Hdb. split; [reflexivity|]. split; [|congruence].
      intros _. eexists. split; [reflexivity|].
      rewrite map_map. cbn [fst]. now rewrite map_id.
    + wp_run. split; [reflexivity|]. split; [|reflexivity].
      intros [Hr|Hr]; discriminate.
Qed.

Lemma team_members_see_all_tasks_witness :
  u_role collab = "Collaborator" /\ t_assignee medina = Some pm_id /\
  exists listed,
    res (getTasks quiet collab tourism_id w0) = Ret (Sent 200 listed) /\
    map (fun x => fst (fst x)) listed = [carthage; medina].
Proof.
  split; [reflexivity|]. split; [reflexivity|].
  destruct (team_members_see_all_tasks quiet collab tourism_id w0 tourism
              (fun _ => eq_refl) eq_refl) as (_ & H & _).
  apply H. right. cbn. auto.
Defined.

(** X16: a createTask answered with 201 was asked for by an
    Administrator, a Project Manager or a member of the team of a stored
    project; the task it returns is stored at the end of the collection,
    valid under the schema, in that project, without comments, with the
    assignee of the body as it came and "Backlog" as status when the
    body names none. *)
Theorem createTask_stores_the_task env user projectId b w r :
  res (createTask env user projectId b w) = Ret r -> status r = 201%nat ->
  let s' := store (world (createTask env user projectId b w)) in
  exists p t,
    findProject projectId (store w) = Some p /\
    (isAdminOrPM user = true \/ In (u_id user) (p_team p)) /\
    body r = BTask t /\ validTask t = true /\
    t_project t = projectId /\ t_comments t = [] /\
    t_status t = or_default (tb_status b) "Backlog" /\
    t_assignee t = tb_assignee b /\
    tasks s' = tasks (store w) ++ [t].
Proof.
  revert r. cbv zeta.
  change (wp (createTask env user projectId b) w
            (fun r0 w' _ => forall r, r0 = Ret r -> status r = 201%nat ->
  exists p t,
    findProject projectId (store w) = Some p /\
    (isAdminOrPM user = true \/ In (u_id user) (p_team p)) /\
    body r = BTask t /\ validTask t = true /\
    t_project t = projectId /\ t_comments t = [] /\
    t_status t = or_default (tb_status b) "Backlog" /\
    t_assignee t = tb_assignee b /\
    tasks (store w') = tasks (store w) ++ [t])).
  unfold createTask. apply wp_try, wp_bind. unfold Project_findById.
  apply wp_db_read; intros Hd; [apply wp_ret; intros rr EE HH;
                                injection EE as <-; discriminate HH|].
  destruct (findProject projectId (store w)) as [p|] eqn:Hf;
    [|apply wp_ret; intros rr EE HH; injection EE as <-; discriminate HH].
  destruct (negb (isAdminOrPM user) && negb (isTeamMember p user)) eqn:Eg;
    [apply wp_ret; intros rr EE HH; injection EE as <-; discriminate HH|].
  rewrite <- negb_orb in Eg. apply negb_false_iff, orb_true_iff in Eg.
  rewrite isTeamMember_In in Eg.
  wp_run; intros rr EE HH; injection EE as <-; try discriminate HH.
  eexists p, _. split; [reflexivity|]. split; [exact Eg|].
  split; [reflexivity|]. split; [assumption|]. repeat split.
Qed.

Lemma createTask_stores_the_task_witness :
  exists t,
    t_title t = "Review Medina Listings" /\ t_status t = "Backlog" /\
    t_project t = tourism_id /\
    tasks (store (world (createTask quiet collab tourism_id review_body w0))) =
      tasks (store w0) ++ [t].
Proof.
  destruct (createTask_stores_the_task quiet collab tourism_id review_body w0
              _ eq_refl eq_refl)
    as (p & t & _ & _ & Eb & _ & Ep & _ & Es & _ & Et).
  exists t. injection Eb as <-.
  split; [reflexivity|]. split; [exact Es|]. split; [exact Ep|]. exact Et.
Defined.

(** X17: a caller who is neither Administrator nor Project Manager and
    not the assignee of the task cannot update it, member of the
    project's team or not: updateTask answers 403 (404 without the
    task, 500 when the database fails) and writes nothing. *)
Theorem unassigned_collaborator_cannot_update env user taskId updates w :
  isAdminOrPM user = false ->
  (forall t, findTask taskId (store w) = Some t -> isAssigned t user = false) ->
  let o := updateTask env user taskId updates w in
  store (world o) = store w /\ trace o = [] /\
  exists r, res o = Ret r /\
            (status r = 403 \/ status r = 404 \/ status r = 500)%nat.
Proof.
  intros Ha Hn. cbv zeta.
  change (wp (updateTask env user taskId updates) w
            (fun r0 w' tr => store w' = store w /\ tr = [] /\
               exists r, r0 = Ret r /\
                 (status r = 403 \/ status r = 404 \/ status r = 500)%nat)).
  unfold updateTask. wp_run;
    try (specialize (Hn _ eq_refl);
         match goal with
         | H : negb _ && negb _ = false |- _ =>
             rewrite Ha, Hn in H; discriminate H
         end);
    (split; [reflexivity|]); (split; [reflexivity|]);
    eexists; (split; [reflexivity|]); cbn; auto.
Qed.

Lemma unassigned_collaborator_cannot_update_witness :
  isTeamMember tourism collab = true /\
  res (updateTask quiet collab (t_id medina)
         (with_task_status "Completed" no_task_body) w0) =
    Ret (message 403 "Access denied") /\
  store (world (updateTask quiet collab (t_id medina)
                  (with_task_status "Completed" no_task_body) w0)) = store w0.
Proof.
  split; [reflexivity|]. split; [reflexivity|].
  assert (H : forall t, findTask (t_id medina) (store w0) = Some t ->
                        isAssigned t collab = false).
  { intros t E. injection E as <-. reflexivity. }
  exact (proj1 (unassigned_collaborator_cannot_update quiet collab (t_id medina)
                  (with_task_status "Completed" no_task_body) w0 eq_refl H)).
Defined.

(** X18: a caller who is neither Administrator nor Project Manager and
    in the team of no stored project can neither create a task nor add
    a comment: both handlers leave the database as it is. *)
Theorem outsider_cannot_add_tasks_or_comments env user w :
  isAdminOrPM user = false ->
  (forall p, In p (projects (store w)) -> ~ In (u_id user) (p_team p)) ->
  (forall projectId b,
     let o := createTask env user projectId b w in
     store (world o) = store w /\ trace o = []) /\
  (forall taskId text,
     let o := addComment env user taskId text w in
     store (world o) = store w /\ trace o = []).
Proof.
  intros Ha Hn.
  assert (Hm : forall p, In p (projects (store w)) ->
                         isTeamMember p user = false).
  { intros p Hf. apply Hn in Hf.
    destruct (isTeamMember p user) eqn:E; [|reflexivity].
    now apply isTeamMember_In in E. }
  split; intros; cbv zeta.
  - change (wp (createTask env user projectId b) w
              (fun _ w' tr => store w' = store w /\ tr = [])).
    unfold createTask. wp_run; auto;
      match goal with
      | H : findProject _ _ = Some _, H' : negb _ && negb _ = false |- _ =>
          apply findProject_In, Hm in H; rewrite Ha, H in H'; discriminate H'
      end.
  - change (wp (addComment env user taskId text) w
              (fun _ w' tr => store w' = store w /\ tr = [])).
    unfold addComment. wp_run; auto;
      match goal with
      | H : findProject _ _ = Some _, H' : negb _ && negb _ = false |- _ =>
          apply findProject_In, Hm in H; rewrite Ha, H in H'; discriminate H'
      end.
Qed.

Lemma outsider_cannot_add_tasks_or_comments_witness :
  u_role visitor = "Collaborator" /\
  store (world (createTask quiet visitor tourism_id review_body w0)) = store w0 /\
  store (world (addComment quiet visitor (t_id carthage) "Hello" w0)) = store w0.
Proof.
  split; [reflexivity|].
  assert (H : forall p, In p (projects (store w0)) ->
                        ~ In (u_id visitor) (p_team p)).
  { intros p [<- | [<- | []]] Hin; cbn in Hin;
      repeat (destruct Hin as [Hin | Hin]; [discriminate Hin|]);
      exact Hin. }
  destruct (outsider_cannot_add_tasks_or_comments quiet visitor w0 eq_refl H)
    as [A B].
  split; [exact (proj1 (A tourism_id review_body))
         | exact (proj1 (B (t_id carthage) "Hello"))].
Defined.

(** X19: an addComment answered with 201 has appended exactly one
    comment to the task, with the caller as author and the text of the
    request, which is not empty; the response carries the task as it is
    stored now.  The other tasks, the projects and the accounts are as
    before. *)
Theorem addComment_appends_one_comment env user taskId text w r :
  res (addComment env user taskId text w) = Ret r -> status r = 201%nat ->
  let s' := store (world (addComment env user taskId text w)) in
  text <> "" /\
  exists t c,
    findTask taskId (store w) = Some t /\
    c_author c = u_id user /\ c_text c = text /\
    findTask taskId s' = Some (push_comment t c) /\
    body r = BTaskAuthors (Some (push_comment t c))
               (commentAuthors (store w) (Some (push_comment t c))) /\
    (forall q, t_id q <> taskId -> (In q (tasks s') <-> In q (tasks (store w)))) /\
    projects s' = projects (store w) /\ users s' = users (store w).
Proof.
  revert r. cbv zeta.
  change (wp (addComment env user taskId text) w
            (fun r0 w' _ => forall r, r0 = Ret r -> status r = 201%nat ->
  text <> "" /\
  exists t c,
    findTask taskId (store w) = Some t /\
    c_author c = u_id user /\ c_text c = text /\
    findTask taskId (store w') = Some (push_comment t c) /\
    body r = BTaskAuthors (Some (push_comment t c))
               (commentAuthors (store w) (Some (push_comment t c))) /\
    (forall q, t_id q <> taskId ->
               (In q (tasks (store w')) <-> In q (tasks (store w)))) /\
    projects (store w') = projects (store w) /\
    users (store w') = users (store w))).
  unfold addComment. wp_run;
    intros rr EE HH; injection EE as <-; try discriminate HH.
  match goal with H : validTask (push_comment _ _) = true |- _ =>
    apply last_comment_has_text in H; cbn [c_text] in H end.
  split; [assumption|].
  match goal with H : findTask _ _ = Some ?t |- _ =>
    pose proof (findTask_id _ _ _ H) as Hid;
    pose proof (find_replaceTask _ _ t
                  (push_comment t
                     {| c_author := u_id user; c_text := text;
                        c_timestamp := clock env (S (S (tick w))) |})
                  H Hid) as Hfind;
    exists t, {| c_author := u_id user; c_text := text;
                 c_timestamp := clock env (S (S (tick w))) |}
  end.
  split; [reflexivity|]. split; [reflexivity|].
  split; [reflexivity|]. unfold findTask, commentAuthors. wp_simpl_all.
  rewrite Hfind. split; [reflexivity|]. split; [reflexivity|].
  split; [|split; reflexivity].
  intros q Hq. apply In_replaceTask_other. cbn [t_id push_comment]. congruence.
Qed.

Lemma addComment_appends_one_comment_witness :
  let s' := store (world (addComment quiet collab (t_id carthage)
                            "Mock-ups attached" w0)) in
  exists t,
    findTask (t_id carthage) s' = Some t /\
    map (fun c => (c_author c, c_text c)) (t_comments t) =
      [(collab_id, "Mock-ups attached")].
Proof.
  cbv zeta.
  destruct (addComment_appends_one_comment quiet collab (t_id carthage)
              "Mock-ups attached" w0 _ eq_refl eq_refl)
    as (_ & t & c & Et & Ea & Ec & Ef & _).
  exists (push_comment t c). split; [exact Ef|].
  injection Et as <-. cbn. now rewrite Ea, Ec.
Defined.

(** X20: deleteTask touches nothing but the task it was asked to
    delete: in every run the projects, the accounts and the other tasks
    are as before; answered with 204, the task is gone. *)
Theorem deleteTask_removes_that_task_only env user taskId w :
  let o := deleteTask env user taskId w in
  projects (store (world o)) = projects (store w) /\
  users (store (world o)) = users (store w) /\
  (forall q, t_id q <> taskId ->
     (In q (tasks (store (world o))) <-> In q (tasks (store w)))) /\
  (forall r, res o = Ret r -> status r = 204%nat ->
     findTask taskId (store (world o)) = None).
Proof.
  cbv zeta.
  change (wp (deleteTask env user taskId) w
            (fun r0 w' _ =>
  projects (store w') = projects (store w) /\
  users (store w') = users (store w) /\
  (forall q, t_id q <> taskId ->
     (In q (tasks (store w')) <-> In q (tasks (store w)))) /\
  (forall r, r0 = Ret r -> status r = 204%nat ->
     findTask taskId (store w') = None))).
  unfold deleteTask. wp_run;
    (split; [reflexivity|]); (split; [reflexivity|]);
    (split;
     [ intros q Hq;
       first [ reflexivity
             | rewrite filter_In; split; [tauto|]; intros Hin;
               split; [assumption|];
               apply negb_true_iff; now apply String.eqb_neq ]
     | intros rr EE HH; injection EE as <-; try discriminate HH ]).
  unfold findTask. wp_simpl_all. apply find_task_filter_gone.
Qed.

(** X21: the task handlers never touch a project or an account:
    whatever createTask, updateTask and addComment do, the projects (the
    stored progress among them) and the users are as before. *)
Theorem task_handlers_leave_projects_and_users env user w :
  (forall projectId b,
     let s' := store (world (createTask env user projectId b w)) in
     projects s' = projects (store w) /\ users s' = users (store w)) /\
  (forall taskId updates,
     let s' := store (world (updateTask env user taskId updates w)) in
     projects s' = projects (store w) /\ users s' = users (store w)) /\
  (forall taskId text,
     let s' := store (world (addComment env user taskId text w)) in
     projects s' = projects (store w) /\ users s' = users (store w)).
Proof.
  split; [|split]; intros; cbv zeta.
  - change (wp (createTask env user projectId b) w
              (fun _ w' _ => projects (store w') = projects (store w) /\
                             users (store w') = users (store w))).
    unfold createTask. wp_run; auto.
  - change (wp (updateTask env user taskId updates) w
              (fun _ w' _ => projects (store w') = projects (store w) /\
                             users (store w') = users (store w))).
    unfold updateTask. wp_run; auto.
  - change (wp (addComment env user taskId text) w
              (fun _ w' _ => projects (store w') = projects (store w) /\
                             users (store w') = users (store w))).
    unfold addComment. wp_run; auto.
Qed.

(** ** Accounts *)

(** X22: deleteUser removes the account and nothing else: projects,
    tasks and logs are as before in every run, so team arrays, assignees
    and log entries keep the id.  Answered with 204, the account is
    gone, and no populated team shows a member with that id any more. *)
Theorem deleteUser_leaves_dangling_references env user id w :
  let o := deleteUser env user id w in
  projects (store (world o)) = projects (store w) /\
  tasks (store (world o)) = tasks (store w) /\
  logs (store (world o)) = logs (store w) /\
  (forall r, res o = Ret r -> status r = 204%nat ->
     findUser id (store (world o)) = None /\
     forall p, ~ In id (map m_id (populateTeam (store (world o)) p))).
Proof.
  cbv zeta.
  change (wp (deleteUser env user id) w
            (fun r0 w' _ =>
  projects (store w') = projects (store w) /\
  tasks (store w') = tasks (store w) /\
  logs (store w') = logs (store w) /\
  (forall r, r0 = Ret r -> status r = 204%nat ->
     findUser id (store w') = None /\
     forall p, ~ In id (map m_id (populateTeam (store w') p))))).
  unfold deleteUser. wp_run;
    (split; [reflexivity|]); (split; [reflexivity|]);
    (split; [reflexivity|]);
    intros rr EE HH; injection EE as <-; try discriminate HH.
  assert (G : findUser id
                (set_users
                   (filter (fun u0 => negb (String.eqb (u_id u0) id))
                           (users (store w))) (store w)) = None)
    by apply find_user_filter_gone.
  split; [exact G|]. intros p Hin. apply in_map_iff in Hin.
  destruct Hin as (m & Em & Hm). unfold populateTeam in Hm.
  apply in_flat_map in Hm. destruct Hm as (x & _ & Hm).
  destruct (findUser x _) as [v|] eqn:Ev; [|contradiction].
  destruct Hm as [<- | []]. cbn [m_id] in Em.
  pose proof (findUser_id _ _ _ Ev) as Ex. rewrite Em in Ex. subst x.
  rewrite Ev in G. discriminate.
Qed.

(** ** The log and its queries *)

(** X23: an entry that [createProjectLog] hands back is stored: the
    project-scoped query, once the database answers, lists one entry
    more than before, and among them the new one with the action and
    the details that were asked for; the action is one of the enum. *)
Theorem stored_entry_is_listed env env' user projectId userId action details w l :
  res (createProjectLog env projectId userId action details w) = Ret (Some l) ->
  no_db_fault env' ->
  let w' := world (createProjectLog env projectId userId action details w) in
  exists before after,
    res (getProjectLogs env' user projectId w) = Ret (json 200 (BLogs before)) /\
    res (getProjectLogs env' user projectId w') = Ret (json 200 (BLogs after)) /\
    List.length after = S (List.length before) /\
    exists pl, In pl after /\ pl_id pl = l_id l /\ pl_action pl = action /\
               pl_details pl = details /\ pl_timestamp pl = l_timestamp l /\
               In action action_enum.
Proof.
  intros Hl Hdb. cbv zeta.
  apply createProjectLog_some in Hl.
  destruct Hl as (Es & Hp & _ & Ha & Hd & Hin).
  eexists _, _. split; [apply getProjectLogs_run; exact Hdb|].
  split; [apply getProjectLogs_run; exact Hdb|].
  rewrite Es. cbn [logs set_logs]. rewrite filter_app. cbn [filter].
  rewrite Hp, String.eqb_refl. split.
  - rewrite !length_map.
    rewrite (Permutation_length (sort_desc_perm _)).
    rewrite (Permutation_length (sort_desc_perm _)).
    rewrite length_app. cbn. lia.
  - exists (populateLog
              (set_logs (logs (store w) ++ [l]) (store w)) l).
    split.
    + apply in_map. eapply Permutation_in.
      * apply Permutation_sym, sort_desc_perm.
      * apply in_or_app. right. now left.
    + cbn. auto.
Qed.

Lemma stored_entry_is_listed_witness :
  let w' := world (createProjectLog quiet olive_id (Some pm_id) "Updated"
                     (DChanges []) w0) in
  exists before after,
    res (getProjectLogs quiet collab olive_id w0) =
      Ret (json 200 (BLogs before)) /\
    res (getProjectLogs quiet collab olive_id w') =
      Ret (json 200 (BLogs after)) /\
    List.length before = 1%nat /\ List.length after = 2%nat.
Proof.
  cbv zeta.
  destruct (stored_entry_is_listed quiet quiet collab olive_id (Some pm_id)
              "Updated" (DChanges []) w0 _ eq_refl (fun _ => eq_refl))
    as (before & after & Eb & Ea & El & _).
  exists before, after. split; [exact Eb|]. split; [exact Ea|].
  injection Eb as <-. split; [reflexivity|]. rewrite El. reflexivity.
Defined.

(** X24: deleteProject keeps the log entries of the project it
    deletes, but the project they refer to is gone: after a deletion
    answered with 204 the project-scoped query lists no fewer entries
    than before, and every one of them comes without the project. *)
Theorem entries_of_a_deleted_project_lose_its_name
    env env' user caller id w r :
  res (deleteProject env user id w) = Ret r -> status r = 204%nat ->
  no_db_fault env' ->
  let w' := world (deleteProject env user id w) in
  exists before after,
    res (getProjectLogs env' caller id w) = Ret (json 200 (BLogs before)) /\
    res (getProjectLogs env' caller id w') = Ret (json 200 (BLogs after)) /\
    (List.length before <= List.length after)%nat /\
    Forall (fun pl => pl_project pl = None) after.
Proof.
  intros Hr Hs Hdb. cbv zeta.
  destruct (deleteProject_done env user id w r Hr Hs) as (Ep & _ & _ & rest & El).
  eexists _, _. split; [apply getProjectLogs_run; exact Hdb|].
  split; [apply getProjectLogs_run; exact Hdb|]. split.
  - rewrite !length_map.
    rewrite (Permutation_length (sort_desc_perm _)).
    rewrite (Permutation_length (sort_desc_perm _)).
    rewrite El, filter_app, length_app. lia.
  - apply Forall_map. rewrite Forall_forall. intros l Hl.
    apply (Permutation_in _ (sort_desc_perm _)) in Hl.
    apply filter_In in Hl. destruct Hl as [_ Hl]. apply String.eqb_eq in Hl.
    cbn [pl_project populateLog]. unfold findProject. rewrite Ep, Hl.
    now rewrite find_project_filter_gone.
Qed.

Lemma entries_of_a_deleted_project_lose_its_name_witness :
  let w' := world (deleteProject quiet admin olive_id w0) in
  exists after,
    res (getProjectLogs quiet pm olive_id w') = Ret (json 200 (BLogs after)) /\
    map pl_action after = ["Deleted"; "Status Changed"] /\
    Forall (fun pl => pl_project pl = None) after.
Proof.
  cbv zeta.
  destruct (entries_of_a_deleted_project_lose_its_name quiet quiet admin pm
              olive_id w0 _ eq_refl eq_refl (fun _ => eq_refl))
    as (before & after & _ & Ea & _ & Hn).
  exists after. split; [exact Ea|]. split; [|exact Hn].
  injection Ea as <-. reflexivity.
Defined.

(** ** Routes *)

(** X25: a request without a token, with a token that does not verify,
    or with the token of an account that is not stored is answered 401
    by [authMiddleware]; the rest of the route is not run, whatever it
    is, and nothing is written. *)
Theorem requests_without_an_account_get_401 env token next w :
  (forall tok uid, token = Some tok -> jwt_verify env tok = Some uid ->
                   findUser uid (store w) = None) ->
  let o := authMiddleware env token next w in
  (exists r, res o = Ret r /\ status r = 401%nat) /\
  store (world o) = store w /\ trace o = [].
Proof.
  intros Hn. cbv zeta.
  destruct (authMiddleware_cases env token next w)
    as [(r & n & E & Hs) | (tok & uid & u & Et & _ & Ej & Eu & _)].
  - rewrite E. cbn. eauto.
  - rewrite (Hn tok uid Et Ej) in Eu. discriminate.
Qed.

Lemma requests_without_an_account_get_401_witness :
  findUser (u_id visitor) (store w0) = None /\
  let o := authMiddleware quiet (Some (u_id visitor))
             (fun user => deleteProject quiet user tourism_id) w0 in
  (exists r, res o = Ret r /\ status r = 401%nat) /\ store (world o) = store w0.
Proof.
  split; [reflexivity|]. cbv zeta.
  assert (H : forall tok uid,
             Some (u_id visitor) = Some tok -> jwt_verify quiet tok = Some uid ->
             findUser uid (store w0) = None).
  { intros tok uid Et Ej. injection Et as <-. injection Ej as <-. reflexivity. }
  destruct (requests_without_an_account_get_401 quiet (Some (u_id visitor))
              (fun user => deleteProject quiet user tourism_id) w0 H)
    as (A & B & _).
  split; assumption.
Defined.

(** X26: the two delete routes are gated by role before the controller
    runs: a DELETE of a project that writes anything was sent with the
    token of a stored Administrator, a DELETE of a task with that of a
    stored Administrator or Project Manager, and in both cases the id
    in the path passed the validator. *)
Theorem deleting_needs_the_role env isMongoId token id w :
  let dp := DELETE_project env isMongoId token id w in
  let dt := DELETE_task env isMongoId token id w in
  (trace dp <> [] \/ store (world dp) <> store w ->
   exists tok uid u,
     token = Some tok /\ jwt_verify env tok = Some uid /\
     findUser uid (store w) = Some u /\ u_role u = "Administrator" /\
     isMongoId id = true) /\
  (trace dt <> [] \/ store (world dt) <> store w ->
   exists tok uid u,
     token = Some tok /\ jwt_verify env tok = Some uid /\
     findUser uid (store w) = Some u /\
     (u_role u = "Administrator" \/ u_role u = "Project Manager") /\
     isMongoId id = true).
Proof.
  cbv zeta. split; intros Hch.
  - unfold DELETE_project in *.
    destruct (authMiddleware_cases env token
                (fun user => roleMiddleware ["Administrator"] user
                   (validate (isMongoId id) (deleteProject env user id))) w)
      as [(r & n & E & Hs) | (tok & uid & u & Et & _ & Ej & Eu & E)];
      rewrite E in Hch.
    + cbn in Hch. destruct Hch as [H|H]; now elim H.
    + exists tok, uid, u. repeat (split; [assumption|]).
      unfold roleMiddleware, validate in Hch.
      destruct (includes ["Administrator"] (u_role u)) eqn:Er; cbn [negb] in Hch;
        [|cbn in Hch; destruct Hch as [H|H]; now elim H].
      split; [now apply includes_one|].
      destruct (isMongoId id); [reflexivity|].
      cbn in Hch; destruct Hch as [H|H]; now elim H.
  - unfold DELETE_task in *.
    destruct (authMiddleware_cases env token
                (fun user =>
                   roleMiddleware ["Administrator"; "Project Manager"] user
                     (validate (isMongoId id) (deleteTask env user id))) w)
      as [(r & n & E & Hs) | (tok & uid & u & Et & _ & Ej & Eu & E)];
      rewrite E in Hch.
    + cbn in Hch. destruct Hch as [H|H]; now elim H.
    + exists tok, uid, u. repeat (split; [assumption|]).
      unfold roleMiddleware, validate in Hch. rewrite role_gate in Hch.
      destruct (isAdminOrPM u) eqn:Er; cbn [negb] in Hch;
        [|cbn in Hch; destruct Hch as [H|H]; now elim H].
      split; [now apply isAdminOrPM_true|].
      destruct (isMongoId id); [reflexivity|].
      cbn in Hch; destruct Hch as [H|H]; now elim H.
Qed.

Lemma deleting_needs_the_role_witness :
  trace (DELETE_project quiet hex24 (Some pm_id) tourism_id w0) = [] /\
  trace (DELETE_project quiet hex24 (Some admin_id) tourism_id w0) <> [] /\
  exists tok uid u,
    Some admin_id = Some tok /\ jwt_verify quiet tok = Some uid /\
    findUser uid (store w0) = Some u /\ u_role u = "Administrator" /\
    hex24 tourism_id = true.
Proof.
  split; [reflexivity|].
  assert (H : trace (DELETE_project quiet hex24 (Some admin_id) tourism_id w0)
              <> []) by discriminate.
  split; [exact H|].
  exact (proj1 (deleting_needs_the_role quiet hex24 (Some admin_id)
                  tourism_id w0) (or_introl H)).
Defined.

(** X27: the route of all logs is for Administrators: it answers 200
    only to the token of a stored Administrator, to whom it hands,
    when the database answers, every stored entry once; and it writes
    nothing. *)
Theorem all_logs_are_for_administrators env token w :
  let o := GET_logs env token w in
  store (world o) = store w /\ trace o = [] /\
  (forall r, res o = Ret r -> status r = 200%nat ->
     exists tok uid u,
       token = Some tok /\ jwt_verify env tok = Some uid /\
       findUser uid (store w) = Some u /\ u_role u = "Administrator") /\
  (forall tok uid u,
     token = Some tok -> tok <> "" -> jwt_verify env tok = Some uid ->
     findUser uid (store w) = Some u -> u_role u = "Administrator" ->
     no_db_fault env ->
     exists pls, res o = Ret (json 200 (BLogs pls)) /\
                 Permutation (map pl_id pls) (map l_id (logs (store w)))).
Proof.
  cbv zeta. split; [|split; [|split]].
  - change (wp (GET_logs env token) w (fun _ w' _ => store w' = store w)).
    unfold GET_logs, getAllProjectLogs. wp_run; auto.
  - change (wp (GET_logs env token) w (fun _ _ tr => tr = [])).
    unfold GET_logs, getAllProjectLogs. wp_run; auto.
  - unfold GET_logs.
    destruct (authMiddleware_cases env token
                (fun user => roleMiddleware ["Administrator"] user
                   (getAllProjectLogs env user)) w)
      as [(r & n & E & Hs) | (tok & uid & u & Et & _ & Ej & Eu & E)];
      rewrite E; intros r' Hr H200.
    + cbn in Hr. injection Hr as <-. congruence.
    + exists tok, uid, u. repeat (split; [assumption|]).
      unfold roleMiddleware in Hr.
      destruct (includes ["Administrator"] (u_role u)) eqn:Er; cbn [negb] in Hr.
      * now apply includes_one.
      * cbn in Hr. injection Hr as <-. discriminate.
  - intros tok uid u -> Htok Hj Hu Hr Hdb.
    assert (Ht : truthy_str (Some tok) = true).
    { cbn. apply negb_true_iff. now apply String.eqb_neq. }
    change (wp (GET_logs env (Some tok)) w
              (fun r0 _ _ => exists pls, r0 = Ret (json 200 (BLogs pls)) /\
                 Permutation (map pl_id pls) (map l_id (logs (store w))))).
    unfold GET_logs, authMiddleware. rewrite Ht. cbn [negb or_default].
    rewrite Hj. apply wp_bind, wp_try, wp_bind. unfold User_findById.
    apply wp_db_read; intros Hd; [rewrite Hdb in Hd; discriminate|].
    rewrite Hu. apply wp_ret. wp_simpl_all. unfold roleMiddleware.
    rewrite Hr. cbn [includes existsb String.eqb Ascii.eqb Bool.eqb orb negb].
    unfold getAllProjectLogs. wp_run; no_fault Hdb.
    eexists. split; [reflexivity|]. rewrite map_map. cbn [pl_id populateLog].
    apply Permutation_map. rewrite filter_all. apply sort_desc_perm.
Qed.

(** X28: the route of one project writes nothing, and what it answers
    with 200 is a stored project with its populated team, sent to the
    token of a stored account that is Administrator, Project Manager or
    in the team of that project. *)
Theorem project_page_is_for_its_team env isMongoId token id w :
  let o := GET_project env isMongoId token id w in
  store (world o) = store w /\ trace o = [] /\
  (forall r, res o = Ret r -> status r = 200%nat ->
     exists tok uid u p,
       token = Some tok /\ jwt_verify env tok = Some uid /\
       findUser uid (store w) = Some u /\ isMongoId id = true /\
       findProject id (store w) = Some p /\
       body r = BProjectTeam p (populateTeam (store w) p) /\
       (isAdminOrPM u = true \/ In uid (p_team p))).
Proof.
  cbv zeta. split; [|split].
  - change (wp (GET_project env isMongoId token id) w
              (fun _ w' _ => store w' = store w)).
    unfold GET_project, getProject. wp_run; auto.
  - change (wp (GET_project env isMongoId token id) w (fun _ _ tr => tr = [])).
    unfold GET_project, getProject. wp_run; auto.
  - unfold GET_project.
    destruct (authMiddleware_cases env token
                (fun user => validate (isMongoId id) (getProject env user id)) w)
      as [(r & n & E & Hs) | (tok & uid & u & Et & _ & Ej & Eu & E)];
      rewrite E.
    + intros r' Hr H200. cbn in Hr. injection Hr as <-. congruence.
    + unfold validate. destruct (isMongoId id);
        [|intros r' Hr H200; cbn in Hr; injection Hr as <-; discriminate].
      pose proof (findUser_id _ _ _ Eu) as Eid.
      change (wp (getProject env u id) (bump w)
                (fun r0 _ _ => forall r, r0 = Ret r -> status r = 200%nat ->
                   exists tok uid u p,
                     token = Some tok /\ jwt_verify env tok = Some uid /\
                     findUser uid (store w) = Some u /\ true = true /\
                     findProject id (store w) = Some p /\
                     body r = BProjectTeam p (populateTeam (store w) p) /\
                     (isAdminOrPM u = true \/ In uid (p_team p)))).
      unfold getProject. wp_run;
        intros rr EE HH; injection EE as <-; try discriminate HH.
      match goal with H : findProject _ _ = Some ?p |- _ =>
        exists tok, uid, u, p end.
      repeat (split; [first [assumption | reflexivity]|]).
      match goal with H : negb _ && negb _ = false |- _ =>
        rewrite <- negb_orb in H; apply negb_false_iff in H;
        apply orb_true_iff in H; destruct H as [H|H]; [now left | right];
        apply populated_member in H; rewrite Eid in H; tauto end.
Qed.

(** ** The report *)

(** X29: when no member is listed twice in the team of the project,
    the [tasksCompleted] of the team rows of its report add up to no
    more than the "Completed" bucket, and the report has no more rows
    than the team has members. *)
Theorem team_rows_stay_within_completed env user projectId w p :
  no_db_fault env -> findProject projectId (store w) = Some p ->
  NoDup (p_team p) ->
  exists rep,
    res (getProjectReport env user projectId w) = Ret (json 200 (BReport rep)) /\
    (team_completed rep <= completed (r_tasks rep))%nat /\
    (List.length (r_team rep) <= List.length (p_team p))%nat.
Proof.
  intros Hdb Hf Hn.
  change (wp (getProjectReport env user projectId) w
            (fun r0 _ _ => exists rep,
               r0 = Ret (json 200 (BReport rep)) /\
               (team_completed rep <= completed (r_tasks rep))%nat /\
               (List.length (r_team rep) <= List.length (p_team p))%nat)).
  unfold getProjectReport. apply wp_try, wp_bind. unfold Project_findById.
  apply wp_db_read; intros Hd; [rewrite Hdb in Hd; discriminate|].
  rewrite Hf. apply wp_bind.
  apply wp_db_read; intros Hd1; [rewrite Hdb in Hd1; discriminate|].
  apply wp_bind. unfold Task_findByProject.
  apply wp_db_read; intros Hd2; [rewrite Hdb in Hd2; discriminate|].
  wp_simpl_all. apply wp_bind. unfold Task_count, wp.
  rewrite (mapM_reads env
             (fun member s =>
                List.length
                  (filter (fun t => String.eqb (t_project t) projectId &&
                                    match t_assignee t with
                                    | Some a => String.eqb a (m_id member)
                                    | None => false
                                    end && String.eqb (t_status t) "Completed")
                          (tasks s)))
             (fun member n => {| ts_name := m_name member;
                                 ts_email := m_email member;
                                 ts_tasksCompleted := n |})
             _ _ Hdb).
  cbn [res world trace store]. eexists. split; [reflexivity|].
  unfold team_completed. cbn [r_team r_tasks completed].
  rewrite map_map, length_map. cbn [ts_tasksCompleted]. split.
  - rewrite <- (map_map m_id
                  (fun id =>
                     List.length
                       (filter (fun t => String.eqb (t_project t) projectId &&
                                         match t_assignee t with
                                         | Some a => String.eqb a id
                                         | None => false
                                         end &&
                                         String.eqb (t_status t) "Completed")
                               (tasks (store w))))).
    apply member_counts_le. rewrite populated_ids. now apply NoDup_filter.
  - rewrite <- (length_map m_id), populated_ids. apply filter_length_le.
Qed.

Lemma team_rows_stay_within_completed_witness :
  NoDup (p_team tourism) /\
  exists rep,
    res (getProjectReport quiet pm tourism_id w0) =
      Ret (json 200 (BReport rep)) /\
    List.length (r_team rep) = 3%nat /\
    (team_completed rep <= completed (r_tasks rep))%nat.
Proof.
  assert (H : NoDup (p_team tourism)).
  { repeat constructor; cbn; intros Hin;
      repeat (destruct Hin as [Hin | Hin]; [discriminate Hin|]); exact Hin. }
  split; [exact H|].
  destruct (team_rows_stay_within_completed quiet pm tourism_id w0 tourism
              (fun _ => eq_refl) eq_refl H) as (rep & E & Hs & _).
  exists rep. split; [exact E|]. split; [|exact Hs].
  injection E as <-. reflexivity.
Defined.
